(** * Scoring, matching and recommendation engine: a shallow embedding

    The development follows three source files:
    - [phases/02-expert-patterns/backend/pattern_comparison.py]
      (module [PatternComparator]),
    - [phases/02-expert-patterns/backend/expert_recommendations.py]
      (module [ExpertRecommendationEngine]),
    - [phases/04-real-time/backend/realtime_analysis_engine.py]
      (module [RealTimeAnalysisEngine]).

    Conventions of the embedding.
    - The arithmetic is read twice.  The modules [PatternComparator],
      [ExpertRecommendationEngine] and [RealTimeAnalysisEngine] read a
      Python [float] as an exact rational ([Q]), with [Qeq] ([==]) as
      equality; they carry the statements about structure and the bounds
      that monotone rounding preserves.  The module [Binary64] translates
      functions of the same source with IEEE 754 binary64 operations and
      carries the statements in which rounding or a NaN decides the
      outcome.
    - A Python [dict] is an association list in insertion order; a
      well-formed dict has pairwise distinct keys ([dict_wf]).
    - Persisted JSON text ([pattern_data], [achievements]) is modelled by
      the value [json.loads] yields.
    - Code that can raise returns in the monad [result]. *)

From Stdlib Require Import List Ascii String ZArith QArith Qabs Qround Lia Lqa Bool.
From Stdlib Require Import Permutation Sorted.
From Stdlib Require PrimFloat FloatOps FloatAxioms SpecFloat Uint63.
Import ListNotations.

Open Scope string_scope.
Open Scope Q_scope.

(** ** Python primitives *)

Module Py.

(** Keys of a dict: a type with a decidable equality. *)
Class Key (K : Type) : Type := {
  keqb : K -> K -> bool;
  keqb_spec : forall a b : K, reflect (a = b) (keqb a b)
}.

#[global] Instance string_Key : Key string :=
  {| keqb := String.eqb; keqb_spec := String.eqb_spec |}.

#[global] Instance Z_Key : Key Z :=
  {| keqb := Z.eqb; keqb_spec := Z.eqb_spec |}.

Definition dict (K V : Type) : Type := list (K * V).

Definition keys {K V} (d : dict K V) : list K := map fst d.
Definition values {K V} (d : dict K V) : list V := map snd d.

Definition dict_wf {K V} (d : dict K V) : Prop := NoDup (keys d).

(** [d.get(k)] *)
Fixpoint get {K V} `{Key K} (d : dict K V) (k : K) : option V :=
  match d with
  | [] => None
  | (k', v) :: d' => if keqb k k' then Some v else get d' k
  end.

(** [d.get(k, default)] *)
Definition get_default {K V} `{Key K} (d : dict K V) (k : K) (default : V)
  : V :=
  match get d k with Some v => v | None => default end.

(** [k in d] *)
Definition contains {K V} `{Key K} (d : dict K V) (k : K) : bool :=
  match get d k with Some _ => true | None => false end.

(** [d[k] = v]: an existing key keeps its position, a new key is appended. *)
Fixpoint set {K V} `{Key K} (d : dict K V) (k : K) (v : V) : dict K V :=
  match d with
  | [] => [(k, v)]
  | (k', v') :: d' =>
      if keqb k k' then (k', v) :: d' else (k', v') :: set d' k v
  end.

(** Comparisons on floats, as booleans. *)
Definition Qltb (x y : Q) : bool := negb (Qle_bool y x).
Definition Qgtb (x y : Q) : bool := Qltb y x.
Definition Qleb (x y : Q) : bool := Qle_bool x y.
Definition Qgeb (x y : Q) : bool := Qle_bool y x.

(** [sum(xs)]: left to right from [0]. *)
Definition sum (xs : list Q) : Q := fold_left Qplus xs 0.

(** [len(xs)] as a float operand. *)
Definition len {A} (xs : list A) : Q := inject_Z (Z.of_nat (List.length xs)).

(** [max(a, b)] returns its first argument unless the second is larger;
    [min(a, b)] returns its first argument unless the second is smaller. *)
Definition max (a b : Q) : Q := if Qgtb b a then b else a.
Definition min (a b : Q) : Q := if Qltb b a then b else a.

(** [int(x)]: truncation towards zero. *)
Definition int (x : Q) : Z := Z.quot (Qnum x) (Zpos (Qden x)).

(** [round(x, ndigits)]: to the nearest multiple of [10^-ndigits], a tie
    going to the even neighbour. *)
Definition round_half_even (x : Q) : Z :=
  let f := Qfloor x in
  match Qcompare (x - inject_Z f) (1 # 2) with
  | Lt => f
  | Gt => (f + 1)%Z
  | Eq => if Z.even f then f else (f + 1)%Z
  end.

Definition round (x : Q) (ndigits : nat) : Q :=
  let p := inject_Z (10 ^ Z.of_nat ndigits) in
  inject_Z (round_half_even (x * p)) / p.

(** [xs[:n]]: a negative bound counts from the end. *)
Definition slice_to {A} (xs : list A) (n : Z) : list A :=
  if (0 <=? n)%Z then firstn (Z.to_nat n) xs
  else firstn (List.length xs - Z.to_nat (- n)) xs.

(** [sorted(xs, key=key, reverse=True)] and [xs.sort(key=key, reverse=True)].
    Python's sort is stable, also with [reverse=True]: elements with equal
    keys keep their original relative order.  Insertion from the right
    computes that ordering. *)
Fixpoint insert_desc {A} (key : A -> Q) (x : A) (l : list A) : list A :=
  match l with
  | [] => [x]
  | y :: l' =>
      if Qltb (key x) (key y) then y :: insert_desc key x l'
      else x :: y :: l'
  end.

Fixpoint sorted_desc {A} (key : A -> Q) (l : list A) : list A :=
  match l with
  | [] => []
  | x :: l' => insert_desc key x (sorted_desc key l')
  end.

(** [s.lower()] on ASCII text. *)
Definition lower_ascii (c : Ascii.ascii) : Ascii.ascii :=
  let n := Ascii.nat_of_ascii c in
  if andb (Nat.leb 65 n) (Nat.leb n 90) then Ascii.ascii_of_nat (n + 32)
  else c.

Definition upper_ascii (c : Ascii.ascii) : Ascii.ascii :=
  let n := Ascii.nat_of_ascii c in
  if andb (Nat.leb 97 n) (Nat.leb n 122) then Ascii.ascii_of_nat (n - 32)
  else c.

Definition is_alpha (c : Ascii.ascii) : bool :=
  let n := Ascii.nat_of_ascii c in
  orb (andb (Nat.leb 65 n) (Nat.leb n 90)) (andb (Nat.leb 97 n) (Nat.leb n 122)).

Fixpoint lower (s : string) : string :=
  match s with
  | EmptyString => EmptyString
  | String c s' => String (lower_ascii c) (lower s')
  end.

(** [s.replace(a, b)] for single characters. *)
Fixpoint replace_char (a b : Ascii.ascii) (s : string) : string :=
  match s with
  | EmptyString => EmptyString
  | String c s' =>
      String (if Ascii.eqb c a then b else c) (replace_char a b s')
  end.

(** [s.title()] on ASCII text: a letter that follows a letter is lowered,
    any other letter is raised. *)
Fixpoint title_from (previous_is_cased : bool) (s : string) : string :=
  match s with
  | EmptyString => EmptyString
  | String c s' =>
      if is_alpha c then
        String (if previous_is_cased then lower_ascii c else upper_ascii c)
               (title_from true s')
      else String c (title_from false s')
  end.

Definition title (s : string) : string := title_from false s.

(** Exceptions the modelled code can raise. *)
Inductive exn : Type := ZeroDivisionError | KeyError.

Inductive result (A : Type) : Type :=
| Ok (a : A)
| Raise (e : exn).
Arguments Ok {A} a.
Arguments Raise {A} e.

(** [a / b] on floats. *)
Definition div (a b : Q) : result Q :=
  if Qeq_bool b 0 then Raise ZeroDivisionError else Ok (a / b).

End Py.

(** ** expert_database.py: the rows the engine reads *)

Module Expert.
Record t : Type := {
  id : Z;
  name : string;
  domain : string;
  biography : option string;
  achievements : list string;
  pattern_data : Py.dict string Q
}.
End Expert.

Module ExpertPattern.
Record t : Type := {
  expert_id : Z;
  skill_type : string;
  pattern_data : Py.dict string Q;
  confidence_score : Q
}.
End ExpertPattern.

(** What a database session answers.  [recent_comparisons skill] lists the
    [expert_id] of every [UserComparison] row joined to a video of that
    skill type and created in the last 30 days; [analyses user skill] lists
    the ids of the user's analyses of that skill type, newest first. *)
Module Database.
Record t : Type := {
  experts : list Expert.t;
  expert_patterns : list ExpertPattern.t;
  recent_comparisons : string -> list Z;
  analyses : Z -> string -> list Z
}.

(** [db.query(Expert).filter(Expert.id == i).first()] *)
Definition expert_by_id (db : t) (i : Z) : option Expert.t :=
  find (fun e => Z.eqb (Expert.id e) i) (experts db).

(** [db.query(ExpertPattern).filter(ExpertPattern.skill_type == s).all()] *)
Definition patterns_of_skill (db : t) (s : string) : list ExpertPattern.t :=
  filter (fun p => String.eqb (ExpertPattern.skill_type p) s)
         (expert_patterns db).
End Database.

(** ** pattern_comparison.py *)

Module PatternComparator.
Import Py.

Definition metrics : Type := dict string Q.

(** [self.skill_weights] *)
Definition skill_weights : dict string (dict string Q) :=
  [ ("Public Speaking",
      [ ("voice_modulation", 2 # 10); ("pause_timing", 15 # 100);
        ("gesture_coordination", 15 # 100); ("emotional_resonance", 2 # 10);
        ("eye_contact", 15 # 100); ("speaking_pace", 15 # 100) ]);
    ("Sports/Athletics",
      [ ("footwork_precision", 2 # 10); ("technique_execution", 25 # 100);
        ("balance", 15 # 100); ("timing", 2 # 10); ("coordination", 2 # 10) ]);
    ("Music/Instrument",
      [ ("rhythm_accuracy", 25 # 100); ("timing_precision", 2 # 10);
        ("finger_technique", 2 # 10); ("musical_expression", 15 # 100);
        ("tempo_control", 1 # 10); ("dynamics", 1 # 10) ]);
    ("Cooking",
      [ ("knife_skills", 25 # 100); ("timing_precision", 2 # 10);
        ("technique_execution", 2 # 10); ("efficiency", 15 # 100);
        ("safety_awareness", 1 # 10); ("multitasking", 1 # 10) ]);
    ("Dance/Fitness",
      [ ("movement_precision", 25 # 100); ("balance", 2 # 10);
        ("rhythm_accuracy", 2 # 10); ("flexibility", 15 # 100);
        ("coordination", 2 # 10) ]) ].

(** One entry of ["metric_breakdown"]. *)
Record MetricComparison : Type := {
  user_value : Q;
  expert_value : Q;
  similarity : Q;
  weight : Q;
  weighted_score : Q;
  gap : Q
}.

(** [comparison_data]; the timestamp is not modelled. *)
Record ComparisonData : Type := {
  overall_similarity : Q;
  metric_breakdown : dict string MetricComparison;
  skill_type : string
}.

(** The weight table [compare_to_expert] works with: the skill's table, or
    equal weights over the user's metrics when the skill has no table (or
    an empty one).  The division [1.0/len(user_metrics)] is evaluated once
    per key of [user_metrics], hence never with a zero divisor. *)
Definition weights_for (user_metrics : metrics) (skill : string) : dict string Q :=
  let weights := get_default skill_weights skill [] in
  match weights with
  | [] => map (fun kv => (fst kv, 1 / len user_metrics)) user_metrics
  | _ :: _ => weights
  end.

(** Body of the loop of [compare_to_expert]. *)
Definition compare_step (expert_pattern : metrics) (weights : dict string Q)
    (st : Q * dict string MetricComparison) (item : string * Q)
  : Q * dict string MetricComparison :=
  let '(total_score, metric_comparisons) := st in
  let '(metric, user_value) := item in
  let expert_value := get_default expert_pattern metric (1 # 2) in
  let weight := get_default weights metric (1 # 10) in
  let difference := Qabs (user_value - expert_value) in
  let similarity := 1 - difference in
  let weighted_score := similarity * weight in
  (total_score + weighted_score,
   set metric_comparisons metric
     {| user_value := user_value; expert_value := expert_value;
        similarity := similarity; weight := weight;
        weighted_score := weighted_score;
        gap := expert_value - user_value |}).

Definition compare_to_expert (user_metrics expert_pattern : metrics)
    (skill : string) : Q * ComparisonData :=
  let weights := weights_for user_metrics skill in
  let '(total_score, metric_comparisons) :=
    fold_left (compare_step expert_pattern weights) user_metrics (0, []) in
  (total_score,
   {| overall_similarity := total_score;
      metric_breakdown := metric_comparisons;
      skill_type := skill |}).

(** An entry of the list [find_best_expert_matches] returns. *)
Module Match.
Record t : Type := {
  expert_id : Z;
  expert_name : string;
  expert_domain : string;
  expert_biography : option string;
  expert_achievements : list string;
  similarity_score : Q;
  comparison_data : ComparisonData;
  pattern_confidence : Q
}.
End Match.

(** The list [matches] before it is sorted: one entry per pattern of the
    skill type whose expert row exists, in query order. *)
Definition candidate_matches (db : Database.t) (user_metrics : metrics)
    (skill : string) : list Match.t :=
  flat_map
    (fun pattern =>
       match Database.expert_by_id db (ExpertPattern.expert_id pattern) with
       | None => []
       | Some expert =>
           let expert_metrics := ExpertPattern.pattern_data pattern in
           let '(similarity_score, comparison_data) :=
             compare_to_expert user_metrics expert_metrics skill in
           [ {| Match.expert_id := Expert.id expert;
                Match.expert_name := Expert.name expert;
                Match.expert_domain := Expert.domain expert;
                Match.expert_biography := Expert.biography expert;
                Match.expert_achievements := Expert.achievements expert;
                Match.similarity_score := similarity_score;
                Match.comparison_data := comparison_data;
                Match.pattern_confidence :=
                  ExpertPattern.confidence_score pattern |} ]
       end)
    (Database.patterns_of_skill db skill).

Definition find_best_expert_matches (db : Database.t) (user_metrics : metrics)
    (skill : string) (top_n : Z) : list Match.t :=
  let matches := candidate_matches db user_metrics skill in
  let matches := sorted_desc Match.similarity_score matches in
  slice_to matches top_n.

(** The feedback bundle.  The [message] strings, which format floats for
    display, are not modelled. *)
Module Strength.
Record t : Type := { metric : string; expert_level : Q }.
End Strength.

Module ImprovementArea.
Record t : Type := {
  metric : string;
  current_level : Q;
  expert_level : Q;
  gap : Q
}.
End ImprovementArea.

Module Recommendation.
Record t : Type := {
  metric : string;
  recommendation : string;
  difficulty : string;
  expected_improvement_time : string
}.
End Recommendation.

Module Feedback.
Record t : Type := {
  similarity_to_expert : Q;
  expert_reference : string;
  strengths : list Strength.t;
  improvement_areas : list ImprovementArea.t;
  specific_recommendations : list Recommendation.t;
  expert_insights : list string
}.
End Feedback.

Record ExpertInfo : Type := {
  expert_name : string;
  expert_domain : string
}.

(** The static lookup of [_get_specific_recommendation]. *)
Definition recommendations (expert_name : string) : dict string string :=
  [ ("voice_modulation",
      "Practice varying your tone and pitch like " ++ expert_name
      ++ ". Record yourself and listen for monotone sections.");
    ("pause_timing",
      "Study " ++ expert_name
      ++ "'s pause patterns. Practice strategic pauses for emphasis and audience engagement.");
    ("gesture_coordination",
      "Watch " ++ expert_name
      ++ "'s hand gestures. Practice coordinating gestures with your key points.");
    ("eye_contact",
      "Emulate " ++ expert_name
      ++ "'s eye contact technique. Practice the triangle method: look at different audience sections.");
    ("speaking_pace",
      "Adjust your speaking pace to match " ++ expert_name
      ++ "'s rhythm. Practice with a metronome if needed.");
    ("footwork_precision",
      "Study " ++ expert_name
      ++ "'s footwork. Focus on balance and weight distribution during movement.");
    ("technique_execution",
      "Break down " ++ expert_name
      ++ "'s technique into steps. Practice each component slowly before combining.");
    ("rhythm_accuracy",
      "Practice with a metronome to match " ++ expert_name
      ++ "'s rhythmic precision.");
    ("knife_skills",
      "Study " ++ expert_name
      ++ "'s knife technique. Focus on grip, posture, and cutting motion.");
    ("movement_precision",
      "Practice " ++ expert_name
      ++ "'s movement quality. Focus on control and intention in every gesture.") ].

(** Truth value of a string: the empty string is false. *)
Definition truthy (s : string) : bool :=
  match s with EmptyString => false | String _ _ => true end.

Definition _get_specific_recommendation (metric : string) (gap : Q)
    (expert_name : string) : option Recommendation.t :=
  match get (recommendations expert_name) metric with
  | Some recommendation =>
      if truthy recommendation then
        Some {| Recommendation.metric := metric;
                Recommendation.recommendation := recommendation;
                Recommendation.difficulty :=
                  if Qgtb gap (3 # 10) then "intermediate" else "beginner";
                Recommendation.expected_improvement_time :=
                  if Qgtb gap (3 # 10) then "2-4 weeks" else "1-2 weeks" |}
      else None
  | None => None
  end.

Definition _get_expert_insights (expert_info : ExpertInfo) : list string :=
  let expert_name := expert_name expert_info in
  let domain := expert_domain expert_info in
  let insights :=
    [ expert_name ++ " is known for " ++ lower domain
        ++ " excellence with a focus on technical precision";
      "Key characteristics of " ++ expert_name
        ++ "'s style include attention to detail and consistent practice";
      "To develop like " ++ expert_name
        ++ ", focus on fundamentals before advancing to complex techniques" ] in
  if String.eqb domain "Public Speaking" then
    insights ++ [ expert_name
      ++ "'s speaking style emphasizes clarity, emotional connection, and audience engagement" ]
  else if String.eqb domain "Sports" then
    insights ++ [ expert_name
      ++ " demonstrates perfect form, timing, and mental focus in athletic performance" ]
  else if String.eqb domain "Music" then
    insights ++ [ expert_name
      ++ "'s musical approach combines technical mastery with emotional expression" ]
  else if String.eqb domain "Cooking" then
    insights ++ [ expert_name
      ++ " showcases efficiency, precision, and creativity in culinary techniques" ]
  else insights.

(** Body of the loop of [generate_expert_feedback]: the [if]/[elif] on one
    entry of the breakdown. *)
Definition feedback_step (expert_name : string) (fb : Feedback.t)
    (item : string * MetricComparison) : Feedback.t :=
  let '(metric, data) := item in
  let similarity := similarity data in
  let gap := gap data in
  let expert_value := expert_value data in
  if Qgtb similarity (8 # 10) then
    {| Feedback.similarity_to_expert := Feedback.similarity_to_expert fb;
       Feedback.expert_reference := Feedback.expert_reference fb;
       Feedback.strengths :=
         Feedback.strengths fb
         ++ [ {| Strength.metric := metric;
                 Strength.expert_level := expert_value |} ];
       Feedback.improvement_areas := Feedback.improvement_areas fb;
       Feedback.specific_recommendations :=
         Feedback.specific_recommendations fb;
       Feedback.expert_insights := Feedback.expert_insights fb |}
  else if Qgtb gap (2 # 10) then
    {| Feedback.similarity_to_expert := Feedback.similarity_to_expert fb;
       Feedback.expert_reference := Feedback.expert_reference fb;
       Feedback.strengths := Feedback.strengths fb;
       Feedback.improvement_areas :=
         Feedback.improvement_areas fb
         ++ [ {| ImprovementArea.metric := metric;
                 ImprovementArea.current_level := user_value data;
                 ImprovementArea.expert_level := expert_value;
                 ImprovementArea.gap := gap |} ];
       Feedback.specific_recommendations :=
         match _get_specific_recommendation metric gap expert_name with
         | Some recommendation =>
             Feedback.specific_recommendations fb ++ [ recommendation ]
         | None => Feedback.specific_recommendations fb
         end;
       Feedback.expert_insights := Feedback.expert_insights fb |}
  else fb.

Definition generate_expert_feedback (comparison_data : ComparisonData)
    (expert_info : ExpertInfo) : Feedback.t :=
  let similarity_score := overall_similarity comparison_data in
  let metric_breakdown := metric_breakdown comparison_data in
  let expert_name := expert_name expert_info in
  let feedback :=
    {| Feedback.similarity_to_expert := similarity_score;
       Feedback.expert_reference := expert_name;
       Feedback.strengths := [];
       Feedback.improvement_areas := [];
       Feedback.specific_recommendations := [];
       Feedback.expert_insights := [] |} in
  let feedback :=
    fold_left (feedback_step expert_name) metric_breakdown feedback in
  {| Feedback.similarity_to_expert := Feedback.similarity_to_expert feedback;
     Feedback.expert_reference := Feedback.expert_reference feedback;
     Feedback.strengths := Feedback.strengths feedback;
     Feedback.improvement_areas := Feedback.improvement_areas feedback;
     Feedback.specific_recommendations :=
       Feedback.specific_recommendations feedback;
     Feedback.expert_insights := _get_expert_insights expert_info |}.

(** *** Metric extraction

    The analysis record is nested JSON.  Its typed view: the numeric
    entries of a dict as a [dict string Q], each nested dict as a field; a
    nested dict that is absent is the empty dict, which is how the code
    reads it ([.get(key, {})]). *)
Module SpeechAnalysis.
Record t : Type := {
  values : dict string Q;
  pauses : dict string Q;
  sentiment : dict string Q;
  pace : dict string Q
}.
End SpeechAnalysis.

Module VideoAnalysis.
Record t : Type := {
  values : dict string Q;
  joint_tracking : dict string Q
}.
End VideoAnalysis.

Module AnalysisData.
Record t : Type := {
  video_analysis : VideoAnalysis.t;
  speech_analysis : SpeechAnalysis.t
}.
End AnalysisData.

Definition _calculate_voice_modulation (speech_analysis : SpeechAnalysis.t)
  : Q :=
  let tone_variation :=
    get_default (SpeechAnalysis.values speech_analysis) "tone_variation"
                (1 # 2) in
  let pitch_range :=
    get_default (SpeechAnalysis.values speech_analysis) "pitch_range"
                (1 # 2) in
  (tone_variation + pitch_range) / 2.

Definition _calculate_pause_timing (speech_analysis : SpeechAnalysis.t) : Q :=
  let pause_data := SpeechAnalysis.pauses speech_analysis in
  let frequency := get_default pause_data "frequency" (1 # 2) in
  let appropriateness := get_default pause_data "appropriateness" (1 # 2) in
  (frequency + appropriateness) / 2.

Definition _normalize_speaking_pace (wpm : Q) : Q :=
  if andb (Qleb 120 wpm) (Qleb wpm 180) then 1
  else if Qltb wpm 120 then max 0 (wpm / 120)
  else max 0 (1 - (wpm - 180) / 100).

Definition _calculate_footwork_precision (joint_tracking : dict string Q)
  : Q :=
  let ankle_stability := get_default joint_tracking "ankle_stability" (1 # 2) in
  let knee_alignment := get_default joint_tracking "knee_alignment" (1 # 2) in
  (ankle_stability + knee_alignment) / 2.

(** The metrics of a skill type before clamping. *)
Definition raw_user_metrics (analysis_data : AnalysisData.t)
    (skill : string) : metrics :=
  let video_analysis := AnalysisData.video_analysis analysis_data in
  let speech_analysis := AnalysisData.speech_analysis analysis_data in
  let video key := get_default (VideoAnalysis.values video_analysis) key
                               (1 # 2) in
  if String.eqb skill "Public Speaking" then
    [ ("voice_modulation", _calculate_voice_modulation speech_analysis);
      ("pause_timing", _calculate_pause_timing speech_analysis);
      ("gesture_coordination", video "gesture_score");
      ("emotional_resonance",
        get_default (SpeechAnalysis.sentiment speech_analysis) "compound"
                    (1 # 2));
      ("eye_contact", video "eye_contact_score");
      ("speaking_pace",
        _normalize_speaking_pace
          (get_default (SpeechAnalysis.pace speech_analysis)
                       "words_per_minute" 150)) ]
  else if String.eqb skill "Sports/Athletics" then
    let joint_tracking := VideoAnalysis.joint_tracking video_analysis in
    [ ("footwork_precision", _calculate_footwork_precision joint_tracking);
      ("technique_execution", video "technique_score");
      ("balance", video "balance_score");
      ("timing", video "timing_score");
      ("coordination", video "coordination_score") ]
  else if String.eqb skill "Music/Instrument" then
    [ ("rhythm_accuracy", video "rhythm_score");
      ("timing_precision", video "timing_score");
      ("finger_technique", video "technique_score");
      ("musical_expression", video "expression_score");
      ("tempo_control", video "tempo_consistency");
      ("dynamics", video "dynamics_score") ]
  else if String.eqb skill "Cooking" then
    [ ("knife_skills", video "knife_technique_score");
      ("timing_precision", video "timing_score");
      ("technique_execution", video "technique_score");
      ("efficiency", video "efficiency_score");
      ("safety_awareness", video "safety_score");
      ("multitasking", video "multitasking_score") ]
  else if String.eqb skill "Dance/Fitness" then
    [ ("movement_precision", video "movement_score");
      ("balance", video "balance_score");
      ("rhythm_accuracy", video "rhythm_score");
      ("flexibility", video "flexibility_score");
      ("coordination", video "coordination_score") ]
  else [].

(** [extract_user_metrics]: the skill's metrics, each replaced in place by
    [max(0.0, min(1.0, float(value)))]. *)
Definition extract_user_metrics (analysis_data : AnalysisData.t)
    (skill : string) : metrics :=
  map (fun kv => (fst kv, max 0 (min 1 (snd kv))))
      (raw_user_metrics analysis_data skill).

End PatternComparator.


(** ** expert_recommendations.py *)

Module ExpertRecommendationEngine.
Import Py.
#[local] Open Scope list_scope.

Definition metrics : Type := dict string Q.

(** [self.recommendation_strategies] *)
Definition recommendation_strategies : dict string Q :=
  [ ("similar_performance", 4 # 10);
    ("aspirational", 3 # 10);
    ("progressive", 2 # 10);
    ("cross_domain", 1 # 10) ].

Module Step.
Record t : Type := {
  step : Z;
  focus_area : string;
  current_level : Q;
  target_level : Q;
  improvement_needed : Q;
  priority : string;
  estimated_weeks : Z
}.
End Step.

Module LearningPath.
Record t : Type := {
  total_estimated_weeks : Z;
  learning_steps : list Step.t;
  recommended_practice_frequency : string;
  key_focus : string
}.
End LearningPath.

Module Timeline.
Record t : Type := { timeframe : string; difficulty : string }.
End Timeline.

(** ["similarity_reason"]: which sentence a strategy wrote and the numbers
    it formats; the rendering of the numbers is not modelled. *)
Inductive Reason : Type :=
| SimilarLevel (expert_avg user_avg : Q)
| MasterLevel (expert_avg : Q)
| NextLevel (improvement_potential : Q)
| StrongInWeakAreas (improvement_score : Q)
| Trending (count : Z).

(** The dict that describes an expert.  The keys a strategy or the ranking
    adds later are optional fields. *)
Module Rec.
Record t : Type := {
  expert_id : Z;
  expert_name : string;
  domain : string;
  biography : option string;
  achievements : list string;
  pattern_data : metrics;
  confidence_score : option Q;
  similarity_reason : option Reason;
  recommendation_score : option Q;
  strategy : option string;
  strategy_weight : option Q;
  final_score : option Q;
  learning_path : option LearningPath.t;
  expected_timeline : option Timeline.t
}.

(** [expert["similarity_reason"] = reason;
     expert["recommendation_score"] = score] *)
Definition set_score (reason : Reason) (score : Q) (e : t) : t :=
  {| expert_id := expert_id e; expert_name := expert_name e;
     domain := domain e; biography := biography e;
     achievements := achievements e; pattern_data := pattern_data e;
     confidence_score := confidence_score e;
     similarity_reason := Some reason;
     recommendation_score := Some score;
     strategy := strategy e; strategy_weight := strategy_weight e;
     final_score := final_score e; learning_path := learning_path e;
     expected_timeline := expected_timeline e |}.

(** [expert["strategy"] = s; expert["strategy_weight"] = w;
     expert["final_score"] = f] *)
Definition set_strategy (s : string) (w f : Q) (e : t) : t :=
  {| expert_id := expert_id e; expert_name := expert_name e;
     domain := domain e; biography := biography e;
     achievements := achievements e; pattern_data := pattern_data e;
     confidence_score := confidence_score e;
     similarity_reason := similarity_reason e;
     recommendation_score := recommendation_score e;
     strategy := Some s; strategy_weight := Some w;
     final_score := Some f; learning_path := learning_path e;
     expected_timeline := expected_timeline e |}.

(** [rec["learning_path"] = lp] *)
Definition set_learning_path (lp : LearningPath.t) (e : t) : t :=
  {| expert_id := expert_id e; expert_name := expert_name e;
     domain := domain e; biography := biography e;
     achievements := achievements e; pattern_data := pattern_data e;
     confidence_score := confidence_score e;
     similarity_reason := similarity_reason e;
     recommendation_score := recommendation_score e;
     strategy := strategy e; strategy_weight := strategy_weight e;
     final_score := final_score e; learning_path := Some lp;
     expected_timeline := expected_timeline e |}.

(** [rec["expected_timeline"] = tl] *)
Definition set_expected_timeline (tl : Timeline.t) (e : t) : t :=
  {| expert_id := expert_id e; expert_name := expert_name e;
     domain := domain e; biography := biography e;
     achievements := achievements e; pattern_data := pattern_data e;
     confidence_score := confidence_score e;
     similarity_reason := similarity_reason e;
     recommendation_score := recommendation_score e;
     strategy := strategy e; strategy_weight := strategy_weight e;
     final_score := final_score e; learning_path := learning_path e;
     expected_timeline := Some tl |}.
End Rec.

(** *** The store of expert dicts

    The strategies receive the same list of dict objects and write into
    them, and the ranking writes into the objects the strategies returned.
    The store holds the objects; a reference is a position in it. *)
Definition ref : Type := nat.
Definition heap : Type := list Rec.t.

Definition M (A : Type) : Type := heap -> result (A * heap).

Definition ret {A} (a : A) : M A := fun h => Ok (a, h).

Definition bind {A B} (m : M A) (k : A -> M B) : M B :=
  fun h => match m h with
           | Ok (a, h') => k a h'
           | Raise e => Raise e
           end.

Definition lift {A} (r : result A) : M A :=
  fun h => match r with Ok a => Ok (a, h) | Raise e => Raise e end.

Definition raise {A} (e : exn) : M A := fun _ => Raise e.

Notation "x <- m ;; k" := (bind m (fun x => k))
  (at level 61, m at next level, right associativity).

(** A new dict object. *)
Definition alloc (e : Rec.t) : M ref :=
  fun h => Ok (List.length h, h ++ [e]).

(** The object behind a reference.  Every reference the code holds points
    into the store; the failure branch exists to keep [read] total. *)
Definition read (r : ref) : M Rec.t :=
  fun h => match nth_error h r with
           | Some e => Ok (e, h)
           | None => Raise KeyError
           end.

Fixpoint update_nth (h : heap) (r : ref) (e : Rec.t) : heap :=
  match h, r with
  | [], _ => []
  | _ :: h', O => e :: h'
  | x :: h', S r' => x :: update_nth h' r' e
  end.

(** In-place update of the object behind a reference. *)
Definition modify (r : ref) (f : Rec.t -> Rec.t) : M unit :=
  fun h => match nth_error h r with
           | Some e => Ok (tt, update_nth h r (f e))
           | None => Raise KeyError
           end.

(** [x[key]] for a key a strategy or the ranking adds: [KeyError] when the
    key is absent. *)
Definition field {A} (proj : Rec.t -> option A) (r : ref) : M A :=
  e <- read r ;;
  match proj e with
  | Some v => ret v
  | None => raise KeyError
  end.

(** A [for] loop with an accumulator. *)
Fixpoint for_each {A S} (xs : list A) (body : S -> A -> M S) (s : S) : M S :=
  match xs with
  | [] => ret s
  | x :: xs' => s' <- body s x ;; for_each xs' body s'
  end.

(** [sorted(xs, key=key, reverse=True)] with a key that reads the store:
    Python computes the key of every element first, then sorts. *)
Definition sorted_desc_by {A} (key : A -> M Q) (xs : list A) : M (list A) :=
  ks <- for_each xs (fun ks x => k <- key x ;; ret (ks ++ [k])) [] ;;
  ret (map snd (sorted_desc fst (combine ks xs))).

(** [sum(m.values()) / len(m)] *)
Definition average (m : metrics) : M Q :=
  lift (div (sum (values m)) (len m)).

Definition _get_user_performance_history (db : Database.t) (user_id : Z)
    (skill : string) : list Z :=
  firstn 10 (Database.analyses db user_id skill).

(** Body of the loop of [_get_available_experts]. *)
Definition available_step (db : Database.t) (experts : list ref)
    (pattern : ExpertPattern.t) : M (list ref) :=
  match Database.expert_by_id db (ExpertPattern.expert_id pattern) with
  | Some expert =>
      r <- alloc
             {| Rec.expert_id := Expert.id expert;
                Rec.expert_name := Expert.name expert;
                Rec.domain := Expert.domain expert;
                Rec.biography := Expert.biography expert;
                Rec.achievements := Expert.achievements expert;
                Rec.pattern_data := ExpertPattern.pattern_data pattern;
                Rec.confidence_score :=
                  Some (ExpertPattern.confidence_score pattern);
                Rec.similarity_reason := None;
                Rec.recommendation_score := None;
                Rec.strategy := None;
                Rec.strategy_weight := None;
                Rec.final_score := None;
                Rec.learning_path := None;
                Rec.expected_timeline := None |} ;;
      ret (experts ++ [r])
  | None => ret experts
  end.

Definition _get_available_experts (db : Database.t) (skill : string)
  : M (list ref) :=
  for_each (Database.patterns_of_skill db skill) (available_step db) [].

Definition _find_similar_level_experts (experts : list ref)
    (user_metrics : metrics) : M (list ref) :=
  user_avg_score <- average user_metrics ;;
  similar_experts <-
    for_each experts
      (fun similar_experts expert =>
         e <- read expert ;;
         expert_avg_score <- average (Rec.pattern_data e) ;;
         if Qleb (Qabs (expert_avg_score - user_avg_score)) (2 # 10) then
           let similarity_score :=
             1 - Qabs (expert_avg_score - user_avg_score) in
           _ <- modify expert
                  (Rec.set_score (SimilarLevel expert_avg_score user_avg_score)
                                 similarity_score) ;;
           ret (similar_experts ++ [expert])
         else ret similar_experts)
      [] ;;
  sorted <- sorted_desc_by (field Rec.recommendation_score) similar_experts ;;
  ret (slice_to sorted 3).

Definition _find_aspirational_experts (experts : list ref)
    (user_metrics : metrics) : M (list ref) :=
  aspirational_experts <-
    for_each experts
      (fun aspirational_experts expert =>
         e <- read expert ;;
         expert_avg_score <- average (Rec.pattern_data e) ;;
         if Qgeb expert_avg_score (85 # 100) then
           _ <- modify expert
                  (Rec.set_score (MasterLevel expert_avg_score)
                                 expert_avg_score) ;;
           ret (aspirational_experts ++ [expert])
         else ret aspirational_experts)
      [] ;;
  sorted <-
    sorted_desc_by (field Rec.recommendation_score) aspirational_experts ;;
  ret (slice_to sorted 2).

Definition _find_progressive_experts (experts : list ref)
    (user_metrics : metrics) : M (list ref) :=
  user_avg_score <- average user_metrics ;;
  progressive_experts <-
    for_each experts
      (fun progressive_experts expert =>
         e <- read expert ;;
         expert_avg_score <- average (Rec.pattern_data e) ;;
         if andb (Qleb (1 # 10) (expert_avg_score - user_avg_score))
                 (Qleb (expert_avg_score - user_avg_score) (3 # 10)) then
           let improvement_potential := expert_avg_score - user_avg_score in
           _ <- modify expert
                  (Rec.set_score (NextLevel improvement_potential)
                                 improvement_potential) ;;
           ret (progressive_experts ++ [expert])
         else ret progressive_experts)
      [] ;;
  sorted <-
    sorted_desc_by (field Rec.recommendation_score) progressive_experts ;;
  ret (slice_to sorted 2).

(** Inner loop of [_find_improvement_focused_experts]: the pair
    [(strength_in_weakness, relevant_metrics)]. *)
Definition strength_in_weak_metrics (weak_metrics expert_metrics : metrics)
  : Q * Z :=
  fold_left
    (fun acc item =>
       let '(strength_in_weakness, relevant_metrics) := acc in
       let '(metric, user_value) := item in
       match get expert_metrics metric with
       | Some expert_value =>
           if Qgtb expert_value (8 # 10) then
             (strength_in_weakness + (expert_value - user_value),
              (relevant_metrics + 1)%Z)
           else acc
       | None => acc
       end)
    weak_metrics (0, 0%Z).

Definition _find_improvement_focused_experts (experts : list ref)
    (user_metrics : metrics) : M (list ref) :=
  let weak_metrics :=
    filter (fun kv => Qltb (snd kv) (6 # 10)) user_metrics in
  match weak_metrics with
  | [] => ret []
  | _ :: _ =>
      improvement_experts <-
        for_each experts
          (fun improvement_experts expert =>
             e <- read expert ;;
             let '(strength_in_weakness, relevant_metrics) :=
               strength_in_weak_metrics weak_metrics (Rec.pattern_data e) in
             if (0 <? relevant_metrics)%Z then
               let improvement_score :=
                 strength_in_weakness / inject_Z relevant_metrics in
               _ <- modify expert
                      (Rec.set_score (StrongInWeakAreas improvement_score)
                                     improvement_score) ;;
               ret (improvement_experts ++ [expert])
             else ret improvement_experts)
          [] ;;
      sorted <-
        sorted_desc_by (field Rec.recommendation_score) improvement_experts ;;
      ret (slice_to sorted 2)
  end.

(** [expert_popularity] of [_get_trending_experts]. *)
Definition expert_popularity (recent_comparisons : list Z) : dict Z Z :=
  fold_left
    (fun popularity expert_id =>
       set popularity expert_id (get_default popularity expert_id 0 + 1)%Z)
    recent_comparisons [].

Definition _get_trending_experts (db : Database.t) (skill : string)
  : M (list ref) :=
  let popularity := expert_popularity (Database.recent_comparisons db skill) in
  let top :=
    slice_to (sorted_desc (fun x => inject_Z (snd x)) popularity) 2 in
  for_each top
    (fun trending_experts item =>
       let '(expert_id, count) := item in
       match Database.expert_by_id db expert_id with
       | Some expert =>
           r <- alloc
                  {| Rec.expert_id := Expert.id expert;
                     Rec.expert_name := Expert.name expert;
                     Rec.domain := Expert.domain expert;
                     Rec.biography := Expert.biography expert;
                     Rec.achievements := Expert.achievements expert;
                     Rec.pattern_data := Expert.pattern_data expert;
                     Rec.confidence_score := None;
                     Rec.similarity_reason := Some (Trending count);
                     Rec.recommendation_score := Some (inject_Z count / 10);
                     Rec.strategy := None;
                     Rec.strategy_weight := None;
                     Rec.final_score := None;
                     Rec.learning_path := None;
                     Rec.expected_timeline := None |} ;;
           ret (trending_experts ++ [r])
       | None => ret trending_experts
       end)
    [].

Definition _rank_and_combine_recommendations
    (recommendations : dict string (list ref)) (num_recommendations : Z)
  : M (list ref) :=
  all_recommendations <-
    for_each recommendations
      (fun all_recommendations entry =>
         let '(strategy, experts) := entry in
         let weight :=
           get_default recommendation_strategies strategy (1 # 10) in
         for_each experts
           (fun all_recommendations expert =>
              e <- read expert ;;
              let score :=
                match Rec.recommendation_score e with
                | Some s => s
                | None => 1 # 2
                end in
              _ <- modify expert
                     (Rec.set_strategy strategy weight (score * weight)) ;;
              ret (all_recommendations ++ [expert]))
           all_recommendations)
      [] ;;
  unique_recommendations <-
    for_each all_recommendations
      (fun (unique_recommendations : dict Z ref) rec =>
         e <- read rec ;;
         let expert_id := Rec.expert_id e in
         match get unique_recommendations expert_id with
         | None => ret (set unique_recommendations expert_id rec)
         | Some kept =>
             new_score <- field Rec.final_score rec ;;
             kept_score <- field Rec.final_score kept ;;
             if Qgtb new_score kept_score then
               ret (set unique_recommendations expert_id rec)
             else ret unique_recommendations
         end)
      [] ;;
  let final_list := values unique_recommendations in
  final_list <- sorted_desc_by (field Rec.final_score) final_list ;;
  ret (slice_to final_list num_recommendations).

(** An entry of [gaps] in [_generate_learning_path]. *)
Module Gap.
Record t : Type := { metric : string; gap : Q; current : Q; target : Q }.
End Gap.

(** The list [gaps] before it is sorted. *)
Definition metric_gaps (expert_metrics user_metrics : metrics) : list Gap.t :=
  fold_left
    (fun gaps item =>
       let '(metric, expert_value) := item in
       match get user_metrics metric with
       | Some user_value =>
           let gap := expert_value - user_value in
           if Qgtb gap (1 # 10) then
             gaps ++ [ {| Gap.metric := metric; Gap.gap := gap;
                          Gap.current := user_value;
                          Gap.target := expert_value |} ]
           else gaps
       | None => gaps
       end)
    expert_metrics [].

(** The learning step built from entry number [i] of the top gaps. *)
Definition learning_step (i : nat) (gap : Gap.t) : Step.t :=
  {| Step.step := (Z.of_nat i + 1)%Z;
     Step.focus_area := title (replace_char "_"%char " "%char (Gap.metric gap));
     Step.current_level := Gap.current gap;
     Step.target_level := Gap.target gap;
     Step.improvement_needed := Gap.gap gap;
     Step.priority :=
       if Qgtb (Gap.gap gap) (3 # 10) then "high" else "medium";
     Step.estimated_weeks := Z.max 2 (int (Gap.gap gap * 8)) |}.

(** [enumerate(xs)] from a starting index. *)
Fixpoint enumerate_from {A} (i : nat) (xs : list A) : list (nat * A) :=
  match xs with
  | [] => []
  | x :: xs' => (i, x) :: enumerate_from (S i) xs'
  end.

Definition _generate_learning_path (recommendation : Rec.t)
    (user_metrics : metrics) : LearningPath.t :=
  let expert_metrics := Rec.pattern_data recommendation in
  let gaps := metric_gaps expert_metrics user_metrics in
  let gaps := sorted_desc Gap.gap gaps in
  let learning_steps :=
    map (fun ig => learning_step (fst ig) (snd ig))
        (enumerate_from 0 (slice_to gaps 3)) in
  {| LearningPath.total_estimated_weeks :=
       fold_left Z.add (map Step.estimated_weeks learning_steps) 0%Z;
     LearningPath.learning_steps := learning_steps;
     LearningPath.recommended_practice_frequency := "Daily, 30-45 minutes";
     LearningPath.key_focus :=
       "Emulate " ++ Rec.expert_name recommendation ++ "'s approach to "
       ++ lower (Rec.domain recommendation) |}.

Definition _estimate_improvement_timeline (recommendation : Rec.t)
    (user_metrics : metrics) : M Timeline.t :=
  let expert_metrics := Rec.pattern_data recommendation in
  user_avg <- average user_metrics ;;
  expert_avg <- average expert_metrics ;;
  let gap := expert_avg - user_avg in
  if Qleb gap (1 # 10) then
    ret {| Timeline.timeframe := "2-4 weeks"; Timeline.difficulty := "easy" |}
  else if Qleb gap (3 # 10) then
    ret {| Timeline.timeframe := "2-3 months";
           Timeline.difficulty := "moderate" |}
  else
    ret {| Timeline.timeframe := "6+ months";
           Timeline.difficulty := "challenging" |}.

Definition _assess_user_level (user_metrics : metrics) : M string :=
  avg_score <- average user_metrics ;;
  if Qgeb avg_score (8 # 10) then ret "advanced"
  else if Qgeb avg_score (6 # 10) then ret "intermediate"
  else if Qgeb avg_score (4 # 10) then ret "beginner_plus"
  else ret "beginner".

Module Factors.
Record t : Type := {
  experience_level : string;
  practice_frequency : nat;
  improvement_trend : string;
  focus_areas : list string
}.
End Factors.

Definition _get_personalization_factors (user_history : list Z)
    (user_metrics : metrics) : M Factors.t :=
  experience_level <- _assess_user_level user_metrics ;;
  ret {| Factors.experience_level := experience_level;
         Factors.practice_frequency := List.length user_history;
         Factors.improvement_trend :=
           if Nat.ltb 1 (List.length user_history) then "improving"
           else "new_user";
         Factors.focus_areas :=
           map fst (filter (fun kv => Qltb (snd kv) (6 # 10)) user_metrics) |}.

(** The dict [get_personalized_recommendations] returns; the timestamp is
    not modelled. *)
Module Bundle.
Record t : Type := {
  recommendations : list Rec.t;
  user_current_level : string;
  skill_type : string;
  personalization_factors : Factors.t
}.
End Bundle.

Definition personalized_recommendations (db : Database.t) (user_id : Z)
    (skill : string) (user_metrics : metrics) (num_recommendations : Z)
  : M Bundle.t :=
  let user_history := _get_user_performance_history db user_id skill in
  available_experts <- _get_available_experts db skill ;;
  similar_level <- _find_similar_level_experts available_experts user_metrics ;;
  aspirational <- _find_aspirational_experts available_experts user_metrics ;;
  progressive <- _find_progressive_experts available_experts user_metrics ;;
  improvement_focused <-
    _find_improvement_focused_experts available_experts user_metrics ;;
  trending <- _get_trending_experts db skill ;;
  let recommendations :=
    [ ("similar_level", similar_level);
      ("aspirational", aspirational);
      ("progressive", progressive);
      ("improvement_focused", improvement_focused);
      ("trending", trending) ] in
  final_recommendations <-
    _rank_and_combine_recommendations recommendations num_recommendations ;;
  _ <- for_each final_recommendations
         (fun (_ : unit) rec =>
            e <- read rec ;;
            _ <- modify rec
                   (Rec.set_learning_path
                      (_generate_learning_path e user_metrics)) ;;
            e <- read rec ;;
            timeline <- _estimate_improvement_timeline e user_metrics ;;
            modify rec (Rec.set_expected_timeline timeline))
         tt ;;
  recs <- for_each final_recommendations
            (fun recs rec => e <- read rec ;; ret (recs ++ [e])) [] ;;
  user_current_level <- _assess_user_level user_metrics ;;
  personalization_factors <-
    _get_personalization_factors user_history user_metrics ;;
  ret {| Bundle.recommendations := recs;
         Bundle.user_current_level := user_current_level;
         Bundle.skill_type := skill;
         Bundle.personalization_factors := personalization_factors |}.

(** [get_personalized_recommendations]: a call starts from an empty store
    and returns the bundle or raises. *)
Definition get_personalized_recommendations (db : Database.t) (user_id : Z)
    (skill : string) (user_metrics : metrics) (num_recommendations : Z)
  : result Bundle.t :=
  match personalized_recommendations db user_id skill user_metrics
          num_recommendations [] with
  | Ok (bundle, _) => Ok bundle
  | Raise e => Raise e
  end.

End ExpertRecommendationEngine.

(** *** Expert combinations *)

Module ExpertCombinations.
Import Py ExpertRecommendationEngine.
#[local] Open Scope list_scope.

(** An entry of [metric_leaders]. *)
Module Leader.
Record t : Type := {
  expert_id : Z;
  expert_name : string;
  score : Q;
  metric : string
}.
End Leader.

(** Body of the inner loop that fills [metric_leaders]. *)
Definition leader_step (expert : Rec.t)
    (metric_leaders : dict string Leader.t) (item : string * Q)
  : dict string Leader.t :=
  let '(metric, value) := item in
  let entry :=
    {| Leader.expert_id := Rec.expert_id expert;
       Leader.expert_name := Rec.expert_name expert;
       Leader.score := value;
       Leader.metric := metric |} in
  match get metric_leaders metric with
  | None => set metric_leaders metric entry
  | Some leader =>
      if Qgtb value (Leader.score leader) then
        set metric_leaders metric entry
      else metric_leaders
  end.

(** The dict [metric_leaders] of [suggest_expert_combinations]. *)
Definition metric_leaders (experts : list Rec.t) : dict string Leader.t :=
  fold_left
    (fun metric_leaders expert =>
       fold_left (leader_step expert) (Rec.pattern_data expert)
                 metric_leaders)
    experts [].

Definition _select_fundamentals_and_advanced_experts (experts : list Rec.t)
    (user_metrics : metrics) : list Rec.t :=
  if Nat.leb 2 (List.length experts) then slice_to experts 2 else experts.

Definition _select_contrasting_style_experts (experts : list Rec.t)
    (user_metrics : metrics) : list Rec.t :=
  if Nat.leb 2 (List.length experts) then slice_to experts 2 else experts.

(** Body of the loop of [_select_weakness_focused_experts]; the inner loop
    with [break] finds the first expert with the leader's id. *)
Definition weakness_step (experts : list Rec.t)
    (metric_leaders : dict string Leader.t) (weakness_experts : list Rec.t)
    (metric : string) : list Rec.t :=
  match get metric_leaders metric with
  | Some leader =>
      match find (fun expert =>
                    Z.eqb (Rec.expert_id expert) (Leader.expert_id leader))
                 experts with
      | Some expert => weakness_experts ++ [expert]
      | None => weakness_experts
      end
  | None => weakness_experts
  end.

Definition _select_weakness_focused_experts (experts : list Rec.t)
    (user_metrics : metrics) (metric_leaders : dict string Leader.t)
  : list Rec.t :=
  let weak_areas :=
    map fst (filter (fun kv => Qltb (snd kv) (6 # 10)) user_metrics) in
  let weakness_experts :=
    fold_left (weakness_step experts metric_leaders) weak_areas [] in
  slice_to weakness_experts 2.

Module Combination.
Record t : Type := {
  title : string;
  description : string;
  experts : list Rec.t;
  learning_approach : string
}.
End Combination.

(** The three combinations built from the available experts. *)
Definition combinations (experts : list Rec.t) (user_metrics : metrics)
  : list Combination.t :=
  let metric_leaders := metric_leaders experts in
  [ {| Combination.title := "Fundamentals + Advanced Techniques";
       Combination.description :=
         "Master basics with one expert, then advance with another";
       Combination.experts :=
         _select_fundamentals_and_advanced_experts experts user_metrics;
       Combination.learning_approach := "sequential" |};
    {| Combination.title := "Different Style Approaches";
       Combination.description :=
         "Learn different approaches to the same skill";
       Combination.experts :=
         _select_contrasting_style_experts experts user_metrics;
       Combination.learning_approach := "comparative" |};
    {| Combination.title := "Weakness-Focused Learning";
       Combination.description := "Target your specific improvement areas";
       Combination.experts :=
         _select_weakness_focused_experts experts user_metrics
           metric_leaders;
       Combination.learning_approach := "targeted" |} ].

(** [suggest_expert_combinations]: the call starts from an empty store,
    builds the available experts and reads them; nothing is written
    afterwards. *)
Definition suggest_expert_combinations (db : Database.t)
    (user_metrics : metrics) (skill : string) : result (list Combination.t) :=
  match (refs <- _get_available_experts db skill ;;
         for_each refs (fun experts r => e <- read r ;; ret (experts ++ [e]))
                  []) [] with
  | Ok (experts, _) => Ok (combinations experts user_metrics)
  | Raise e => Raise e
  end.

End ExpertCombinations.

(** ** realtime_analysis_engine.py *)

Module RealTimeAnalysisEngine.
Import Py.
#[local] Open Scope list_scope.

(** A metric dict as [_calculate_performance_metrics] builds it.  The keys
    read with [metric.get] are optional. *)
Module Metric.
Record t : Type := {
  metric_name : string;
  value : Q;
  category : string;
  unit : string;
  target_value : option Q;
  improvement_delta : option Q;
  performance_level : option string
}.
End Metric.

Module Template.
Record t : Type := {
  template : string;
  priority : string;
  category : string
}.
End Template.

(** [self.suggestion_templates] *)
Definition suggestion_templates : dict string (list Template.t) :=
  [ ("posture_stability",
      [ {| Template.template :=
             "Stand with your feet shoulder-width apart for better stability. Current stability: {current_value}%, target: {target_value}%";
           Template.priority := "high"; Template.category := "movement" |};
        {| Template.template :=
             "Keep your shoulders relaxed and aligned. This will improve your overall presence by {improvement_potential}%";
           Template.priority := "medium"; Template.category := "movement" |} ]);
    ("speech_pace",
      [ {| Template.template :=
             "Your speaking pace is {current_value} WPM. Try slowing down to {target_value} WPM for better comprehension";
           Template.priority := "high"; Template.category := "speech" |};
        {| Template.template :=
             "Add more pauses between key points. Current pause frequency: {current_value}, optimal: {target_value}";
           Template.priority := "medium"; Template.category := "speech" |} ]);
    ("eye_contact",
      [ {| Template.template :=
             "Increase eye contact with your audience. Current: {current_value}%, aim for {target_value}%";
           Template.priority := "high"; Template.category := "movement" |};
        {| Template.template :=
             "Try looking at different sections of the audience for 3-5 seconds each";
           Template.priority := "medium"; Template.category := "movement" |} ]);
    ("rhythm_accuracy",
      [ {| Template.template :=
             "Focus on staying in sync with the beat. Current accuracy: {current_value}%, target: {target_value}%";
           Template.priority := "high"; Template.category := "timing" |} ]);
    ("technique_score",
      [ {| Template.template :=
             "Pay attention to your hand position and posture. Current technique score: {current_value}%";
           Template.priority := "medium"; Template.category := "technique" |} ]) ].

(** The arguments of [template.format(...)]; the rendered text is the
    template with these values substituted and is not modelled further. *)
Module Content.
Record t : Type := {
  template : string;
  current_value : Q;
  target_value : Q;
  improvement_potential : Q
}.
End Content.

Module Suggestion.
Record t : Type := {
  suggestion_type : string;
  content : Content.t;
  priority : string;
  category : string;
  confidence_score : Q;
  metric_impact : Q
}.
End Suggestion.

(** [metric.get("improvement_delta", 0)] *)
Definition delta_of (metric : Metric.t) : Q :=
  match Metric.improvement_delta metric with Some d => d | None => 0 end.

Definition _determine_priority (metric : Metric.t) : string :=
  let improvement_delta := delta_of metric in
  let performance_level :=
    match Metric.performance_level metric with
    | Some l => l
    | None => "fair"
    end in
  if orb (String.eqb performance_level "needs_improvement")
         (Qgtb improvement_delta 15) then "high"
  else if Qgtb improvement_delta 8 then "medium"
  else "low".

Definition _calculate_confidence_score (metric : Metric.t) : Q :=
  let improvement_delta := delta_of metric in
  if Qgtb improvement_delta 20 then 95 # 100
  else if Qgtb improvement_delta 10 then 85 # 100
  else if Qgtb improvement_delta 5 then 75 # 100
  else 65 # 100.

(** Body of the loop of [_generate_improvement_suggestions]. *)
Definition suggest_step (suggestions : list Suggestion.t) (metric : Metric.t)
  : list Suggestion.t :=
  let metric_name := Metric.metric_name metric in
  let templates := get_default suggestion_templates metric_name [] in
  match templates with
  | template :: _ =>
      if Qgtb (delta_of metric) 0 then
        suggestions ++
        [ {| Suggestion.suggestion_type := metric_name;
             Suggestion.content :=
               {| Content.template := Template.template template;
                  Content.current_value := Metric.value metric;
                  Content.target_value :=
                    match Metric.target_value metric with
                    | Some t => t
                    | None => Metric.value metric * (12 # 10)
                    end;
                  Content.improvement_potential :=
                    round (delta_of metric) 1 |};
             Suggestion.priority := _determine_priority metric;
             Suggestion.category := Template.category template;
             Suggestion.confidence_score :=
               _calculate_confidence_score metric;
             Suggestion.metric_impact := delta_of metric |} ]
      else suggestions
  | [] => suggestions
  end.

Definition _generate_improvement_suggestions (metrics : list Metric.t)
    (skill : string) : list Suggestion.t :=
  let prioritized_metrics := sorted_desc delta_of metrics in
  fold_left suggest_step (slice_to prioritized_metrics 5) [].

(** The weight tables of [_get_metric_weight]. *)
Definition weights : dict string (dict string Q) :=
  [ ("Public Speaking",
      [ ("confidence_score", 15 # 10); ("eye_contact_percentage", 13 # 10);
        ("posture_stability", 12 # 10); ("pace_words_per_minute", 11 # 10);
        ("volume_consistency", 1); ("gesture_frequency", 8 # 10);
        ("pause_frequency", 7 # 10) ]);
    ("Dance/Fitness",
      [ ("rhythm_accuracy", 15 # 10); ("movement_fluidity", 13 # 10);
        ("joint_stability", 12 # 10); ("energy_level", 1);
        ("beat_synchronization", 11 # 10) ]);
    ("Music/Instrument",
      [ ("rhythm_consistency", 15 # 10); ("timing_accuracy", 14 # 10);
        ("finger_position", 12 # 10); ("hand_coordination", 11 # 10);
        ("posture_score", 1) ]) ].

Definition _get_metric_weight (metric_name skill : string) : Q :=
  let skill_weights := get_default weights skill [] in
  get_default skill_weights metric_name 1.

(** Body of the loop of [_calculate_overall_score]: the pair
    [(total_weighted_score, total_weight)]. *)
Definition score_step (skill : string) (acc : Q * Q) (metric : Metric.t)
  : Q * Q :=
  let '(total_weighted_score, total_weight) := acc in
  let weight := _get_metric_weight (Metric.metric_name metric) skill in
  let score := Metric.value metric in
  let score := if Qgtb score 100 then min (score / 2) 100 else score in
  (total_weighted_score + score * weight, total_weight + weight).

Definition _calculate_overall_score (metrics : list Metric.t) (skill : string)
  : Q :=
  match metrics with
  | [] => 50
  | _ :: _ =>
      let '(total_weighted_score, total_weight) :=
        fold_left (score_step skill) metrics (0, 0) in
      let overall_score :=
        if Qgtb total_weight 0 then total_weighted_score / total_weight
        else 50 in
      round (min (max overall_score 0) 100) 1
  end.

(** *** Performance metrics *)

(** A threshold dict: [{"min": .., "optimal": ..}] or
    [{"min": .., "max": .., "optimal_range": (.., ..)}]. *)
Module Threshold.
Record t : Type := {
  min : option Q;
  max : option Q;
  optimal : option Q;
  optimal_range : option (Q * Q)
}.

(** The empty dict [{}]. *)
Definition empty : t :=
  {| min := None; max := None; optimal := None; optimal_range := None |}.

Definition band (lo opt : Q) : t :=
  {| min := Some lo; max := None; optimal := Some opt;
     optimal_range := None |}.

Definition range (lo hi a b : Q) : t :=
  {| min := Some lo; max := Some hi; optimal := None;
     optimal_range := Some (a, b) |}.
End Threshold.

(** [self.skill_thresholds] *)
Definition skill_thresholds : dict string (dict string Threshold.t) :=
  [ ("Public Speaking",
      [ ("posture_stability", Threshold.band 70 90);
        ("speech_pace", Threshold.range 120 180 130 150);
        ("eye_contact", Threshold.band 60 80);
        ("gesture_frequency", Threshold.range 5 15 8 12);
        ("pause_frequency", Threshold.band 4 8);
        ("confidence_score", Threshold.band 70 85) ]);
    ("Dance/Fitness",
      [ ("rhythm_accuracy", Threshold.band 80 95);
        ("movement_fluidity", Threshold.band 75 90);
        ("joint_stability", Threshold.band 80 95);
        ("energy_level", Threshold.band 70 85);
        ("synchronization", Threshold.band 75 90) ]);
    ("Cooking",
      [ ("knife_technique", Threshold.band 70 90);
        ("timing_precision", Threshold.band 80 95);
        ("efficiency_score", Threshold.band 75 90);
        ("safety_compliance", Threshold.band 90 100);
        ("organization", Threshold.band 70 85) ]);
    ("Music/Instrument",
      [ ("rhythm_consistency", Threshold.band 85 98);
        ("timing_accuracy", Threshold.band 80 95);
        ("technique_score", Threshold.band 75 90);
        ("expression_level", Threshold.band 60 80) ]);
    ("Sports",
      [ ("form_accuracy", Threshold.band 80 95);
        ("power_consistency", Threshold.band 75 90);
        ("balance_stability", Threshold.band 80 95);
        ("reaction_time", Threshold.band 70 85) ]) ].

Definition _get_metric_unit (metric_name : string) : string :=
  let unit_mapping :=
    [ ("pace_words_per_minute", "WPM");
      ("gesture_frequency", "gestures/min");
      ("pause_frequency", "pauses/min");
      ("posture_stability", "percentage");
      ("eye_contact_percentage", "percentage");
      ("volume_consistency", "percentage");
      ("confidence_score", "percentage");
      ("rhythm_accuracy", "percentage");
      ("movement_fluidity", "percentage");
      ("joint_stability", "percentage");
      ("energy_level", "percentage");
      ("rhythm_consistency", "percentage");
      ("timing_accuracy", "percentage");
      ("technique_score", "percentage") ] in
  get_default unit_mapping metric_name "units".

Definition _get_performance_level (value : Q) (threshold : Threshold.t)
  : string :=
  let optimal :=
    match Threshold.optimal threshold with Some o => o | None => 90 end in
  let minimum :=
    match Threshold.min threshold with Some m => m | None => 50 end in
  if Qgeb value optimal then "excellent"
  else if Qgeb value (optimal * (9 # 10)) then "good"
  else if Qgeb value minimum then "fair"
  else "needs_improvement".

(** What an analysis result holds under a metric name: a number, or
    anything else ([isinstance(value, (int, float))] fails). *)
Inductive value : Type :=
| Number (v : Q)
| NotNumber.

(** What an analysis result holds under a category: a dict, or anything
    else ([isinstance(data, dict)] fails). *)
Inductive data : Type :=
| Dict (d : dict string value)
| NotDict.

(** The metric dict appended for one numeric entry. *)
Definition performance_metric (thresholds : dict string Threshold.t)
    (category metric_name : string) (value : Q) : Metric.t :=
  let threshold := get_default thresholds metric_name Threshold.empty in
  let optimal_value :=
    match Threshold.optimal threshold with
    | Some o => o
    | None => value * (12 # 10)
    end in
  let improvement_delta :=
    if Qltb value optimal_value then optimal_value - value else 0 in
  {| Metric.metric_name := metric_name;
     Metric.value := round value 2;
     Metric.category := category;
     Metric.unit := _get_metric_unit metric_name;
     Metric.target_value := Some optimal_value;
     Metric.improvement_delta := Some (round improvement_delta 2);
     Metric.performance_level :=
       Some (_get_performance_level value threshold) |}.

(** [_calculate_performance_metrics]: the nested loops append one metric
    per numeric entry of each dict category, in iteration order. *)
Definition _calculate_performance_metrics
    (analysis_results : dict string data) (skill : string) : list Metric.t :=
  let thresholds := get_default skill_thresholds skill [] in
  flat_map
    (fun entry =>
       match snd entry with
       | Dict d =>
           flat_map
             (fun item =>
                match snd item with
                | Number v =>
                    [ performance_metric thresholds (fst entry) (fst item) v ]
                | NotNumber => []
                end)
             d
       | NotDict => []
       end)
    analysis_results.

End RealTimeAnalysisEngine.

(** * The same code on binary64

    Python's [float] is IEEE 754 binary64.  The modules above read the
    arithmetic over exact rationals; this module translates functions of
    the same source with the kernel's binary64 operations, which round as
    the source does.  It decides the statements in which rounding or a
    NaN matters: an exact value, a comparison at a threshold, an integer
    truncation. *)

Module Binary64.
Import Py.
Import PrimFloat SpecFloat.
#[local] Open Scope list_scope.
#[local] Set Warnings "-inexact-float".

Definition float : Type := PrimFloat.float.

(** [x > y] and [x >= y] *)
Definition gtb (x y : float) : bool := ltb y x.
Definition geb (x y : float) : bool := leb y x.

(** [float(n)] for a non-negative integer below 2^63. *)
Definition of_Z (n : Z) : float := of_uint63 (Uint63.of_Z n).
Definition of_nat (n : nat) : float := of_Z (Z.of_nat n).

(** [max(a, b)] and [min(a, b)] as Python evaluates them: the first
    argument unless the second compares larger (smaller); a NaN first
    argument therefore stays. *)
Definition max (a b : float) : float := if gtb b a then b else a.
Definition min (a b : float) : float := if ltb b a then b else a.

(** What [int(x)] and a failed conversion raise. *)
Inductive exn : Type := OverflowError | ValueError.

Inductive result (A : Type) : Type :=
| Ok (a : A)
| Raise (e : exn).
Arguments Ok {A} a.
Arguments Raise {A} e.

(** The magnitude [m * 2^e] cut to an integer. *)
Definition truncated (m : positive) (e : Z) : Z :=
  if (0 <=? e)%Z then (Zpos m * 2 ^ e)%Z else (Zpos m / 2 ^ (- e))%Z.

(** [int(x)]: truncation toward zero; infinities and NaN raise. *)
Definition int (x : float) : result Z :=
  match FloatOps.Prim2SF x with
  | S754_nan => Raise ValueError
  | S754_infinity _ => Raise OverflowError
  | S754_zero _ => Ok 0%Z
  | S754_finite s m e =>
      Ok (if s then (- truncated m e)%Z else truncated m e)
  end.

(** The rational a finite non-zero double stands for. *)
Definition exact (s : bool) (m : positive) (e : Z) : Q :=
  let a :=
    if (0 <=? e)%Z then inject_Z (Zpos m * 2 ^ e)
    else Zpos m # Z.to_pos (2 ^ (- e)) in
  if s then Qopp a else a.

(** [round(x, ndigits)] for [ndigits] up to 22: NaN, infinities and zeros
    round to themselves; otherwise the exact value is rounded to
    [ndigits] decimals, a tie going to the even neighbour, and the double
    nearest to that decimal is returned.  From 2^53 scaled units on that
    double is [x] itself. *)
Definition round (x : float) (ndigits : nat) : float :=
  match FloatOps.Prim2SF x with
  | S754_finite s m e =>
      let p := (10 ^ Z.of_nat ndigits)%Z in
      let k := Z.abs (round_half_even (Qmult (exact s m e) (inject_Z p))) in
      if (2 ^ 53 <=? k)%Z then x
      else
        let r := (of_Z k / of_Z p)%float in
        if s then (- r)%float else r
  | _ => x
  end.

Definition metrics : Type := dict string float.

(** ** pattern_comparison.py *)

Module PatternComparator.

(** [self.skill_weights] *)
Definition skill_weights : dict string (dict string float) :=
  [ ("Public Speaking",
      [ ("voice_modulation", 0.2%float); ("pause_timing", 0.15%float);
        ("gesture_coordination", 0.15%float);
        ("emotional_resonance", 0.2%float);
        ("eye_contact", 0.15%float); ("speaking_pace", 0.15%float) ]);
    ("Sports/Athletics",
      [ ("footwork_precision", 0.2%float);
        ("technique_execution", 0.25%float);
        ("balance", 0.15%float); ("timing", 0.2%float);
        ("coordination", 0.2%float) ]);
    ("Music/Instrument",
      [ ("rhythm_accuracy", 0.25%float); ("timing_precision", 0.2%float);
        ("finger_technique", 0.2%float); ("musical_expression", 0.15%float);
        ("tempo_control", 0.1%float); ("dynamics", 0.1%float) ]);
    ("Cooking",
      [ ("knife_skills", 0.25%float); ("timing_precision", 0.2%float);
        ("technique_execution", 0.2%float); ("efficiency", 0.15%float);
        ("safety_awareness", 0.1%float); ("multitasking", 0.1%float) ]);
    ("Dance/Fitness",
      [ ("movement_precision", 0.25%float); ("balance", 0.2%float);
        ("rhythm_accuracy", 0.2%float); ("flexibility", 0.15%float);
        ("coordination", 0.2%float) ]) ].

(** One entry of ["metric_breakdown"]. *)
Record MetricComparison : Type := {
  user_value : float;
  expert_value : float;
  similarity : float;
  weight : float;
  weighted_score : float;
  gap : float
}.

(** [comparison_data]; the timestamp is not modelled. *)
Record ComparisonData : Type := {
  overall_similarity : float;
  metric_breakdown : dict string MetricComparison;
  skill_type : string
}.

(** The weight table [compare_to_expert] works with.  The division
    [1.0/len(user_metrics)] is evaluated once per key of [user_metrics],
    hence never with a zero divisor. *)
Definition weights_for (user_metrics : metrics) (skill : string)
  : dict string float :=
  let weights := get_default skill_weights skill [] in
  match weights with
  | [] =>
      map (fun kv => (fst kv, (1 / of_nat (List.length user_metrics))%float))
          user_metrics
  | _ :: _ => weights
  end.

(** Body of the loop of [compare_to_expert]. *)
Definition compare_step (expert_pattern : metrics)
    (weights : dict string float)
    (st : float * dict string MetricComparison) (item : string * float)
  : float * dict string MetricComparison :=
  let '(total_score, metric_comparisons) := st in
  let '(metric, user_value) := item in
  let expert_value := get_default expert_pattern metric 0.5%float in
  let weight := get_default weights metric 0.1%float in
  let difference := abs (user_value - expert_value)%float in
  let similarity := (1 - difference)%float in
  let weighted_score := (similarity * weight)%float in
  ((total_score + weighted_score)%float,
   set metric_comparisons metric
     {| user_value := user_value; expert_value := expert_value;
        similarity := similarity; weight := weight;
        weighted_score := weighted_score;
        gap := (expert_value - user_value)%float |}).

Definition compare_to_expert (user_metrics expert_pattern : metrics)
    (skill : string) : float * ComparisonData :=
  let weights := weights_for user_metrics skill in
  let '(total_score, metric_comparisons) :=
    fold_left (compare_step expert_pattern weights) user_metrics
              (0%float, []) in
  (total_score,
   {| overall_similarity := total_score;
      metric_breakdown := metric_comparisons;
      skill_type := skill |}).

End PatternComparator.

(** ** realtime_analysis_engine.py *)

Module RealTimeAnalysisEngine.

(** The keys of a metric dict that [_calculate_overall_score] reads. *)
Module Metric.
Record t : Type := { metric_name : string; value : float }.
End Metric.

(** The weight tables of [_get_metric_weight]. *)
Definition weights : dict string (dict string float) :=
  [ ("Public Speaking",
      [ ("confidence_score", 1.5%float);
        ("eye_contact_percentage", 1.3%float);
        ("posture_stability", 1.2%float);
        ("pace_words_per_minute", 1.1%float);
        ("volume_consistency", 1%float); ("gesture_frequency", 0.8%float);
        ("pause_frequency", 0.7%float) ]);
    ("Dance/Fitness",
      [ ("rhythm_accuracy", 1.5%float); ("movement_fluidity", 1.3%float);
        ("joint_stability", 1.2%float); ("energy_level", 1%float);
        ("beat_synchronization", 1.1%float) ]);
    ("Music/Instrument",
      [ ("rhythm_consistency", 1.5%float); ("timing_accuracy", 1.4%float);
        ("finger_position", 1.2%float); ("hand_coordination", 1.1%float);
        ("posture_score", 1%float) ]) ].

Definition _get_metric_weight (metric_name skill : string) : float :=
  let skill_weights := get_default weights skill [] in
  get_default skill_weights metric_name 1%float.

(** Body of the loop of [_calculate_overall_score]. *)
Definition score_step (skill : string) (acc : float * float)
    (metric : Metric.t) : float * float :=
  let '(total_weighted_score, total_weight) := acc in
  let weight := _get_metric_weight (Metric.metric_name metric) skill in
  let score := Metric.value metric in
  let score :=
    if gtb score 100%float then min (score / 2)%float 100%float else score in
  ((total_weighted_score + score * weight)%float,
   (total_weight + weight)%float).

Definition _calculate_overall_score (metrics : list Metric.t)
    (skill : string) : float :=
  match metrics with
  | [] => 50%float
  | _ :: _ =>
      let '(total_weighted_score, total_weight) :=
        fold_left (score_step skill) metrics (0%float, 0%float) in
      let overall_score :=
        if gtb total_weight 0%float
        then (total_weighted_score / total_weight)%float
        else 50%float in
      round (min (max overall_score 0%float) 100%float) 1
  end.

End RealTimeAnalysisEngine.

(** ** expert_recommendations.py *)

Module ExpertRecommendationEngine.

(** The keys of a recommendation dict that [_generate_learning_path]
    reads. *)
Module Rec.
Record t : Type := {
  expert_name : string;
  domain : string;
  pattern_data : metrics
}.
End Rec.

(** An entry of [gaps]. *)
Module Gap.
Record t : Type := {
  metric : string;
  gap : float;
  current : float;
  target : float
}.
End Gap.

Module Step.
Record t : Type := {
  step : Z;
  focus_area : string;
  current_level : float;
  target_level : float;
  improvement_needed : float;
  priority : string;
  estimated_weeks : Z
}.
End Step.

Module LearningPath.
Record t : Type := {
  total_estimated_weeks : Z;
  learning_steps : list Step.t;
  recommended_practice_frequency : string;
  key_focus : string
}.
End LearningPath.

(** What one expert metric adds to [gaps]. *)
Definition gap_of (user_metrics : metrics) (item : string * float)
  : list Gap.t :=
  let '(metric, expert_value) := item in
  match get user_metrics metric with
  | Some user_value =>
      let gap := (expert_value - user_value)%float in
      if gtb gap 0.1%float then
        [ {| Gap.metric := metric; Gap.gap := gap;
             Gap.current := user_value; Gap.target := expert_value |} ]
      else []
  | None => []
  end.

(** The list [gaps] before it is sorted. *)
Definition metric_gaps (expert_metrics user_metrics : metrics)
  : list Gap.t :=
  fold_left (fun gaps item => gaps ++ gap_of user_metrics item)
            expert_metrics [].

(** [xs.sort(key=key, reverse=True)]: a stable sort that compares keys
    with [<]. *)
Fixpoint insert_desc {A} (key : A -> float) (x : A) (l : list A) : list A :=
  match l with
  | [] => [x]
  | y :: l' =>
      if ltb (key x) (key y) then y :: insert_desc key x l' else x :: l
  end.

Fixpoint sorted_desc {A} (key : A -> float) (l : list A) : list A :=
  match l with
  | [] => []
  | x :: l' => insert_desc key x (sorted_desc key l')
  end.

(** Body of the loop that builds [learning_steps]; [int] may raise. *)
Definition learning_step (i : nat) (gap : Gap.t) : result Step.t :=
  match int (Gap.gap gap * 8)%float with
  | Ok weeks =>
      Ok {| Step.step := (Z.of_nat i + 1)%Z;
            Step.focus_area :=
              title (replace_char "_"%char " "%char (Gap.metric gap));
            Step.current_level := Gap.current gap;
            Step.target_level := Gap.target gap;
            Step.improvement_needed := Gap.gap gap;
            Step.priority :=
              if gtb (Gap.gap gap) 0.3%float then "high" else "medium";
            Step.estimated_weeks := Z.max 2 weeks |}
  | Raise e => Raise e
  end.

Fixpoint learning_steps (i : nat) (gaps : list Gap.t)
  : result (list Step.t) :=
  match gaps with
  | [] => Ok []
  | gap :: gaps' =>
      match learning_step i gap with
      | Ok st =>
          match learning_steps (S i) gaps' with
          | Ok sts => Ok (st :: sts)
          | Raise e => Raise e
          end
      | Raise e => Raise e
      end
  end.

Definition _generate_learning_path (recommendation : Rec.t)
    (user_metrics : metrics) : result LearningPath.t :=
  let expert_metrics := Rec.pattern_data recommendation in
  let gaps := metric_gaps expert_metrics user_metrics in
  let gaps := sorted_desc Gap.gap gaps in
  match learning_steps 0 (slice_to gaps 3) with
  | Ok steps =>
      Ok {| LearningPath.total_estimated_weeks :=
              fold_left Z.add (map Step.estimated_weeks steps) 0%Z;
            LearningPath.learning_steps := steps;
            LearningPath.recommended_practice_frequency :=
              "Daily, 30-45 minutes";
            LearningPath.key_focus :=
              "Emulate " ++ Rec.expert_name recommendation
              ++ "'s approach to " ++ lower (Rec.domain recommendation) |}
  | Raise e => Raise e
  end.

End ExpertRecommendationEngine.

End Binary64.

(** * Vocabulary of the statements *)

(** [desc key a b]: [a] may stand before [b] in a list sorted by
    descending [key]. *)
Definition desc {A} (key : A -> Q) (a b : A) : Prop := key b <= key a.

(** [ranking key all ranked]: [ranked] is the stable descending ordering of
    [all] by [key]: the same elements, keys non-increasing, and the
    elements of each key value in their order of [all]. *)
Definition ranking {A} (key : A -> Q) (all ranked : list A) : Prop :=
  Permutation ranked all
  /\ StronglySorted (desc key) ranked
  /\ forall v : Q,
       filter (fun a => Qeq_bool (key a) v) ranked
       = filter (fun a => Qeq_bool (key a) v) all.

(** Every value of a metric vector lies in [0, 1]. *)
Definition unit_valued (m : Py.dict string Q) : Prop :=
  Forall (fun kv => 0 <= snd kv /\ snd kv <= 1) m.

(** The invariant of a breakdown entry that [compare_to_expert] builds. *)
Definition consistent (c : PatternComparator.MetricComparison) : Prop :=
  PatternComparator.similarity c
  == 1 - Qabs (PatternComparator.user_value c
               - PatternComparator.expert_value c)
  /\ PatternComparator.gap c
     == PatternComparator.expert_value c - PatternComparator.user_value c.

(** How [generate_expert_feedback] classified a metric. *)
Definition is_strength (fb : PatternComparator.Feedback.t) (metric : string)
  : Prop :=
  exists s, In s (PatternComparator.Feedback.strengths fb)
            /\ PatternComparator.Strength.metric s = metric.

Definition is_improvement_area (fb : PatternComparator.Feedback.t)
    (metric : string) : Prop :=
  exists a, In a (PatternComparator.Feedback.improvement_areas fb)
            /\ PatternComparator.ImprovementArea.metric a = metric.

Definition has_recommendation (fb : PatternComparator.Feedback.t)
    (metric : string) : Prop :=
  exists r, In r (PatternComparator.Feedback.specific_recommendations fb)
            /\ PatternComparator.Recommendation.metric r = metric.

(** The metric vectors of the reference scenario. *)
Definition scenario_user : Py.dict string Q :=
  [("speaking_pace", 1); ("eye_contact", 3 # 10)].

Definition scenario_expert : Py.dict string Q :=
  [("speaking_pace", 1); ("eye_contact", 9 # 10)].

(** The six Public Speaking metrics and one metric the table does not
    list, all at one value. *)
Definition seven_metrics (v : Q) : Py.dict string Q :=
  [ ("voice_modulation", v); ("pause_timing", v);
    ("gesture_coordination", v); ("emotional_resonance", v);
    ("eye_contact", v); ("speaking_pace", v); ("clarity", v) ].

(** An expert dict as [_get_available_experts] builds it, for a given
    pattern. *)
Definition candidate (expert_id : Z) (name : string)
    (pattern : Py.dict string Q) : ExpertRecommendationEngine.Rec.t :=
  {| ExpertRecommendationEngine.Rec.expert_id := expert_id;
     ExpertRecommendationEngine.Rec.expert_name := name;
     ExpertRecommendationEngine.Rec.domain := "Public Speaking";
     ExpertRecommendationEngine.Rec.biography := None;
     ExpertRecommendationEngine.Rec.achievements := [];
     ExpertRecommendationEngine.Rec.pattern_data := pattern;
     ExpertRecommendationEngine.Rec.confidence_score := Some 1;
     ExpertRecommendationEngine.Rec.similarity_reason := None;
     ExpertRecommendationEngine.Rec.recommendation_score := None;
     ExpertRecommendationEngine.Rec.strategy := None;
     ExpertRecommendationEngine.Rec.strategy_weight := None;
     ExpertRecommendationEngine.Rec.final_score := None;
     ExpertRecommendationEngine.Rec.learning_path := None;
     ExpertRecommendationEngine.Rec.expected_timeline := None |}.

(** A database with one expert and one "Public Speaking" pattern. *)
Definition one_expert_db (pattern : Py.dict string Q) : Database.t :=
  {| Database.experts :=
       [ {| Expert.id := 1; Expert.name := "Ada";
            Expert.domain := "Public Speaking"; Expert.biography := None;
            Expert.achievements := []; Expert.pattern_data := pattern |} ];
     Database.expert_patterns :=
       [ {| ExpertPattern.expert_id := 1;
            ExpertPattern.skill_type := "Public Speaking";
            ExpertPattern.pattern_data := pattern;
            ExpertPattern.confidence_score := 1 |} ];
     Database.recent_comparisons := fun _ => [];
     Database.analyses := fun _ _ => [] |}.

(** [weighted e]: a dict that carries a strategy tag carries that
    strategy's weight as the ranking looks it up (0.1 when the table has
    no entry under the tag) and, as final score, its recommendation score
    (0.5 when absent) times that weight. *)
Definition weighted (e : ExpertRecommendationEngine.Rec.t) : Prop :=
  forall s,
    ExpertRecommendationEngine.Rec.strategy e = Some s ->
    ExpertRecommendationEngine.Rec.strategy_weight e
    = Some (Py.get_default
              ExpertRecommendationEngine.recommendation_strategies s (1 # 10))
    /\ ExpertRecommendationEngine.Rec.final_score e
       = Some ((match ExpertRecommendationEngine.Rec.recommendation_score e
                with Some x => x | None => 1 # 2 end)
               * Py.get_default
                   ExpertRecommendationEngine.recommendation_strategies s
                   (1 # 10)).

(** [untagged e]: the ranking has not written into the dict yet. *)
Definition untagged (e : ExpertRecommendationEngine.Rec.t) : Prop :=
  ExpertRecommendationEngine.Rec.strategy e = None.

(** [hoare P m Q]: from a store that satisfies [P], the computation [m]
    raises or returns a value and a store that satisfy [Q]. *)
Definition hoare {A} (P : ExpertRecommendationEngine.heap -> Prop)
    (m : ExpertRecommendationEngine.M A)
    (Q : A -> ExpertRecommendationEngine.heap -> Prop) : Prop :=
  forall h, P h ->
    match m h with
    | Py.Ok (a, h') => Q a h'
    | Py.Raise _ => True
    end.

(** [inv P m]: the computation [m] keeps the store within [P]. *)
Definition inv {A} (P : ExpertRecommendationEngine.heap -> Prop)
    (m : ExpertRecommendationEngine.M A) : Prop :=
  hoare P m (fun _ => P).

(** A database with three experts, each with one "Public Speaking"
    pattern of one metric. *)
Definition three_experts_db (a b c : Q) : Database.t :=
  let expert i name v :=
    {| Expert.id := i; Expert.name := name;
       Expert.domain := "Public Speaking"; Expert.biography := None;
       Expert.achievements := [];
       Expert.pattern_data := [("eye_contact", v)] |} in
  let pattern i v :=
    {| ExpertPattern.expert_id := i;
       ExpertPattern.skill_type := "Public Speaking";
       ExpertPattern.pattern_data := [("eye_contact", v)];
       ExpertPattern.confidence_score := 1 |} in
  {| Database.experts := [expert 1%Z "A" a; expert 2%Z "B" b; expert 3%Z "C" c];
     Database.expert_patterns := [pattern 1%Z a; pattern 2%Z b; pattern 3%Z c];
     Database.recent_comparisons := fun _ => [];
     Database.analyses := fun _ _ => [] |}.

(** * Properties *)

(** ** Facts about the Python primitives *)

Section PyFacts.
Import Py.
#[local] Open Scope list_scope.

Lemma Qltb_lt (x y : Q) : Qltb x y = true <-> x < y.
Proof.
  unfold Qltb. rewrite negb_true_iff, <- not_true_iff_false, Qle_bool_iff.
  split; [apply Qnot_le_lt | apply Qlt_not_le].
Qed.

Lemma Qltb_ge (x y : Q) : Qltb x y = false <-> y <= x.
Proof.
  unfold Qltb. rewrite negb_false_iff. apply Qle_bool_iff.
Qed.

Lemma Qgtb_gt (x y : Q) : Qgtb x y = true <-> y < x.
Proof. apply Qltb_lt. Qed.

Lemma Qgtb_le (x y : Q) : Qgtb x y = false <-> x <= y.
Proof. apply Qltb_ge. Qed.

Lemma Qleb_le (x y : Q) : Qleb x y = true <-> x <= y.
Proof. apply Qle_bool_iff. Qed.





(** *** Sums of rationals *)

(** The sum of a list, as a right fold; [fold_left] sums agree with it up
    to [==]. *)
Definition total (xs : list Q) : Q := fold_right Qplus 0 xs.

Lemma fold_left_total {A} (f : A -> Q) (l : list A) (t : Q) :
  fold_left (fun acc x => acc + f x) l t == t + total (map f l).
Proof.
  revert t. induction l as [| x l IH]; intros t; simpl.
  - lra.
  - rewrite IH. lra.
Qed.

Lemma total_perm (l l' : list Q) : Permutation l l' -> total l == total l'.
Proof.
  induction 1; simpl; lra.
Qed.

Lemma total_map_ext {A} (f g : A -> Q) (l : list A) :
  (forall x, In x l -> f x == g x) -> total (map f l) == total (map g l).
Proof.
  induction l as [| x l IH]; intros H; simpl; [reflexivity |].
  rewrite (H x (or_introl eq_refl)), IH; [reflexivity |].
  intros y Hy. apply H. now right.
Qed.

Lemma total_map_le {A} (f g : A -> Q) (l : list A) :
  (forall x, In x l -> f x <= g x) -> total (map f l) <= total (map g l).
Proof.
  induction l as [| x l IH]; intros H; simpl; [lra |].
  assert (f x <= g x) by (apply H; now left).
  assert (total (map f l) <= total (map g l))
    by (apply IH; intros y Hy; apply H; now right).
  lra.
Qed.

Lemma total_nonneg (l : list Q) : Forall (fun x => 0 <= x) l -> 0 <= total l.
Proof.
  induction 1; simpl; lra.
Qed.

Lemma total_map_nonneg {A} (f : A -> Q) (l : list A) :
  (forall x, In x l -> 0 <= f x) -> 0 <= total (map f l).
Proof.
  intros H. apply total_nonneg, Forall_forall. intros y Hy.
  apply in_map_iff in Hy. destruct Hy as [x [<- Hx]]. now apply H.
Qed.

Lemma total_const {A} (c : Q) (l : list A) :
  total (map (fun _ => c) l) == len l * c.
Proof.
  unfold len. induction l as [| x l IH]; [change (0 == 0 * c); lra |].
  cbn [map total fold_right List.length]. fold (total (map (fun _ : A => c) l)).
  rewrite IH, Nat2Z.inj_succ. unfold Z.succ. rewrite inject_Z_plus.
  change (inject_Z 1) with 1. lra.
Qed.

Lemma total_app (l l' : list Q) : total (l ++ l') == total l + total l'.
Proof.
  induction l as [| x l IH]; simpl; [lra | rewrite IH; lra].
Qed.

Lemma slice_to_nonneg {A} (xs : list A) (n : Z) : (0 <= n)%Z ->
  slice_to xs n = firstn (Z.to_nat n) xs.
Proof.
  intros H. unfold slice_to. apply Z.leb_le in H. now rewrite H.
Qed.

Lemma In_firstn {A} (n : nat) (x : A) (l : list A) :
  In x (firstn n l) -> In x l.
Proof.
  revert n. induction l as [| z l IH]; intros [| n]; simpl; try tauto.
  intros [-> | H]; [now left | right; eauto].
Qed.

Lemma StronglySorted_firstn {A} (R : A -> A -> Prop) (n : nat) (l : list A) :
  StronglySorted R l -> StronglySorted R (firstn n l).
Proof.
  intros H. revert n. induction H as [| x l Hs IH Hx]; intros [| n]; simpl;
    try constructor.
  - apply IH.
  - rewrite Forall_forall in Hx |- *. intros y Hy. apply Hx.
    now apply In_firstn in Hy.
Qed.

(** Descending order carries over a list related entry by entry with equal
    keys. *)
Lemma Forall2_desc_head {A B} (R : A -> B -> Prop) (ka : A -> Q)
    (kb : B -> Q) (a : A) (b : B) (l : list A) (l' : list B) :
  (forall x y, R x y -> kb y = ka x) ->
  kb b = ka a ->
  Forall2 R l l' ->
  Forall (desc ka a) l -> Forall (desc kb b) l'.
Proof.
  intros Hkey Hab H. induction H as [| x y l l' Hxy _ IH]; intros Hall;
    [constructor |].
  inversion Hall as [| ? ? Hx Hall']; subst.
  constructor; [| now apply IH].
  unfold desc in *. now rewrite Hab, (Hkey x y Hxy).
Qed.

Lemma Forall2_sorted {A B} (R : A -> B -> Prop) (ka : A -> Q) (kb : B -> Q)
    (l : list A) (l' : list B) :
  (forall x y, R x y -> kb y = ka x) ->
  Forall2 R l l' ->
  StronglySorted (desc ka) l -> StronglySorted (desc kb) l'.
Proof.
  intros Hkey H. induction H as [| x y l l' Hxy Hrest IH]; intros Hs;
    [constructor |].
  inversion Hs as [| ? ? Hs' Hall]; subst.
  constructor; [now apply IH |].
  apply (Forall2_desc_head R ka kb x y l l'); auto.
Qed.

(** *** The stable descending sort *)

Section Sorting.
Context {A : Type} (key : A -> Q).

Lemma insert_desc_perm (x : A) (l : list A) :
  Permutation (insert_desc key x l) (x :: l).
Proof.
  induction l as [| y l IH]; simpl; [reflexivity |].
  destruct (Qltb (key x) (key y)).
  - rewrite IH. apply perm_swap.
  - reflexivity.
Qed.

Lemma sorted_desc_perm (l : list A) : Permutation (sorted_desc key l) l.
Proof.
  induction l as [| x l IH]; simpl; [reflexivity |].
  rewrite insert_desc_perm. now constructor.
Qed.

Lemma sorted_desc_length (l : list A) :
  List.length (sorted_desc key l) = List.length l.
Proof. apply Permutation_length, sorted_desc_perm. Qed.

Lemma sorted_desc_In (x : A) (l : list A) : In x (sorted_desc key l) <-> In x l.
Proof.
  split; apply Permutation_in;
    [apply sorted_desc_perm | symmetry; apply sorted_desc_perm].
Qed.

Lemma insert_desc_sorted (x : A) (l : list A) :
  StronglySorted (desc key) l -> StronglySorted (desc key) (insert_desc key x l).
Proof.
  induction 1 as [| y l Hs IH Hy]; simpl.
  - repeat constructor.
  - destruct (Qltb (key x) (key y)) eqn:E.
    + constructor; [assumption |].
      apply Forall_forall. intros z Hz.
      apply (Permutation_in _ (insert_desc_perm x l)) in Hz.
      destruct Hz as [<- | Hz].
      * apply Qltb_lt in E. unfold desc. lra.
      * rewrite Forall_forall in Hy. now apply Hy.
    + apply Qltb_ge in E.
      constructor; [now constructor |].
      constructor; [exact E |].
      rewrite Forall_forall in Hy |- *. intros z Hz.
      specialize (Hy z Hz). unfold desc in *. lra.
Qed.

Lemma sorted_desc_sorted (l : list A) : StronglySorted (desc key) (sorted_desc key l).
Proof.
  induction l; simpl; [constructor | now apply insert_desc_sorted].
Qed.

(** Stability: the elements of one key value keep their order. *)
Lemma insert_desc_stable (v : Q) (x : A) (l : list A) :
  filter (fun a => Qeq_bool (key a) v) (insert_desc key x l)
  = filter (fun a => Qeq_bool (key a) v) (x :: l).
Proof.
  induction l as [| y l IH]; [reflexivity |].
  simpl insert_desc. destruct (Qltb (key x) (key y)) eqn:E; [| reflexivity].
  apply Qltb_lt in E.
  simpl filter at 1. rewrite IH. simpl.
  destruct (Qeq_bool (key x) v) eqn:Ex; [| reflexivity].
  destruct (Qeq_bool (key y) v) eqn:Ey; [| reflexivity].
  apply Qeq_bool_iff in Ex, Ey. lra.
Qed.

Lemma sorted_desc_stable (v : Q) (l : list A) :
  filter (fun a => Qeq_bool (key a) v) (sorted_desc key l)
  = filter (fun a => Qeq_bool (key a) v) l.
Proof.
  induction l as [| x l IH]; [reflexivity |].
  simpl sorted_desc. rewrite insert_desc_stable. simpl. now rewrite IH.
Qed.

Lemma sorted_desc_ranking (l : list A) : ranking key l (sorted_desc key l).
Proof.
  split; [apply sorted_desc_perm |].
  split; [apply sorted_desc_sorted |].
  intros v. apply sorted_desc_stable.
Qed.

End Sorting.

End PyFacts.

(** ** The real-time threshold classifier *)

Section RealTimeFacts.
Import Py RealTimeAnalysisEngine.
#[local] Open Scope list_scope.

(** What one pass of the suggestion loop emits for one metric. *)
Lemma suggest_step_app (acc : list Suggestion.t) (m : Metric.t) :
  suggest_step acc m = acc ++ suggest_step [] m.
Proof.
  unfold suggest_step.
  destruct (get_default suggestion_templates (Metric.metric_name m) []);
    [now rewrite app_nil_r |].
  destruct (Qgtb (delta_of m) 0); [reflexivity | now rewrite app_nil_r].
Qed.

Lemma fold_suggest_step (l : list Metric.t) (acc : list Suggestion.t) :
  fold_left suggest_step l acc = acc ++ flat_map (suggest_step []) l.
Proof.
  revert acc. induction l as [| m l IH]; intros acc; simpl.
  - now rewrite app_nil_r.
  - rewrite IH, (suggest_step_app acc m), <- app_assoc. reflexivity.
Qed.

Lemma suggest_step_length (m : Metric.t) :
  (List.length (suggest_step [] m) <= 1)%nat.
Proof.
  unfold suggest_step.
  destruct (get_default suggestion_templates (Metric.metric_name m) []);
    [simpl; lia |].
  destruct (Qgtb (delta_of m) 0); simpl; lia.
Qed.

Lemma flat_map_suggest_length (l : list Metric.t) :
  (List.length (flat_map (suggest_step []) l) <= List.length l)%nat.
Proof.
  induction l as [| m l IH]; simpl; [lia |].
  rewrite length_app. pose proof (suggest_step_length m). lia.
Qed.

Lemma suggest_step_inv (m : Metric.t) (s : Suggestion.t) :
  In s (suggest_step [] m) ->
  Suggestion.suggestion_type s = Metric.metric_name m
  /\ get_default suggestion_templates (Metric.metric_name m) [] <> []
  /\ 0 < delta_of m
  /\ Suggestion.metric_impact s = delta_of m.
Proof.
  unfold suggest_step.
  destruct (get_default suggestion_templates (Metric.metric_name m) [])
    as [| t ts]; [intros [] |].
  destruct (Qgtb (delta_of m) 0) eqn:E; [| intros []].
  apply Qgtb_gt in E.
  intros [<- | []]. simpl. repeat split; [discriminate | exact E].
Qed.


(** C10: one pass emits at most 5 suggestions; every emitted suggestion
    belongs to a metric of the input that has a registered (non-empty)
    template list and a strictly positive improvement delta, which is the
    suggestion's impact; a metric name without a template never appears
    as a suggestion, whatever its rank. *)
Theorem C10_suggestions_at_most_5_need_template_and_positive_delta :
  forall (metrics : list Metric.t) (skill : string),
    let suggestions := _generate_improvement_suggestions metrics skill in
    (List.length suggestions <= 5)%nat
    /\ (forall s, In s suggestions ->
          exists m, In m metrics
            /\ Suggestion.suggestion_type s = Metric.metric_name m
            /\ get_default suggestion_templates (Metric.metric_name m) [] <> []
            /\ 0 < delta_of m
            /\ Suggestion.metric_impact s = delta_of m)
    /\ (forall name,
          get_default suggestion_templates name [] = [] ->
          forall s, In s suggestions -> Suggestion.suggestion_type s <> name).
Proof.
  intros metrics skill suggestions.
  assert (Hsrc : forall s, In s suggestions ->
            exists m, In m metrics /\ In s (suggest_step [] m)).
  { intros s Hs. unfold suggestions, _generate_improvement_suggestions in Hs.
    rewrite fold_suggest_step in Hs. simpl in Hs.
    apply in_flat_map in Hs. destruct Hs as [m [Hm Hs]].
    exists m. split; [| exact Hs].
    rewrite slice_to_nonneg in Hm by lia.
    apply In_firstn in Hm. now apply sorted_desc_In in Hm. }
  split; [| split].
  - unfold suggestions, _generate_improvement_suggestions.
    rewrite fold_suggest_step. simpl.
    etransitivity; [apply flat_map_suggest_length |].
    rewrite slice_to_nonneg by lia. apply firstn_le_length.
  - intros s Hs. destruct (Hsrc s Hs) as [m [Hm Hin]].
    exists m. split; [exact Hm | now apply suggest_step_inv].
  - intros name Hname s Hs Heq. destruct (Hsrc s Hs) as [m [_ Hin]].
    apply suggest_step_inv in Hin. destruct Hin as [Ht [Hne _]].
    apply Hne. now rewrite <- Ht, Heq.
Qed.

End RealTimeFacts.

(** ** The comparator, the matcher and the feedback generator *)

Section PatternComparatorFacts.
Import Py PatternComparator.
#[local] Open Scope list_scope.

Lemma dict_wf_functional {V} (d : dict string V) (k : string) (v v' : V) :
  dict_wf d -> In (k, v) d -> In (k, v') d -> v = v'.
Proof.
  unfold dict_wf, keys. induction d as [| [k0 v0] d IH]; simpl; [tauto |].
  intros Hnd H1 H2. inversion Hnd as [| ? ? Hnotin Hnd']; subst.
  destruct H1 as [E1 | H1], H2 as [E2 | H2].
  - congruence.
  - inversion E1; subst. exfalso. apply Hnotin.
    apply (in_map fst) in H2. exact H2.
  - inversion E2; subst. exfalso. apply Hnotin.
    apply (in_map fst) in H1. exact H1.
  - now apply IH.
Qed.

Lemma get_In {V} (d : dict string V) (k : string) (v : V) :
  dict_wf d -> In (k, v) d -> get d k = Some v.
Proof.
  unfold dict_wf, keys. induction d as [| [k0 v0] d IH]; simpl; [tauto |].
  intros Hnd [E | Hin]; inversion Hnd as [| ? ? Hnotin Hnd']; subst.
  - inversion E; subst. now rewrite String.eqb_refl.
  - destruct (String.eqb_spec k k0) as [-> | _].
    + exfalso. apply Hnotin. apply (in_map fst) in Hin. exact Hin.
    + now apply IH.
Qed.

Lemma get_None_notin {V} (d : dict string V) (k : string) :
  get d k = None <-> ~ In k (keys d).
Proof.
  unfold keys. induction d as [| [k0 v0] d IH]; simpl; [tauto |].
  destruct (String.eqb_spec k k0) as [-> | Hne].
  - split; [discriminate | intros H; exfalso; apply H; now left].
  - rewrite IH. split; [intros H [E | Hin]; [congruence | tauto] | tauto].
Qed.

Lemma set_fresh {V} (d : dict string V) (k : string) (v : V) :
  ~ In k (keys d) -> set d k v = d ++ [(k, v)].
Proof.
  unfold keys. induction d as [| [k0 v0] d IH]; simpl; [reflexivity |].
  intros Hnotin. destruct (String.eqb_spec k k0) as [-> | _]; [tauto |].
  rewrite IH; [reflexivity | tauto].
Qed.

(** *** The loop of [compare_to_expert] in closed form *)

(** The weighted score of one user metric. *)
Definition contribution (expert_pattern weights : dict string Q)
    (item : string * Q) : Q :=
  (1 - Qabs (snd item - get_default expert_pattern (fst item) (1 # 2)))
  * get_default weights (fst item) (1 # 10).

(** The breakdown entry of one user metric. *)
Definition entry_of (expert_pattern weights : dict string Q)
    (item : string * Q) : string * MetricComparison :=
  let expert_value := get_default expert_pattern (fst item) (1 # 2) in
  let weight := get_default weights (fst item) (1 # 10) in
  (fst item,
   {| user_value := snd item; expert_value := expert_value;
      similarity := 1 - Qabs (snd item - expert_value);
      weight := weight;
      weighted_score := (1 - Qabs (snd item - expert_value)) * weight;
      gap := expert_value - snd item |}).

Lemma compare_fold_total (expert_pattern weights : dict string Q)
    (user_metrics : metrics) (t : Q) (b : dict string MetricComparison) :
  fst (fold_left (compare_step expert_pattern weights) user_metrics (t, b))
  = fold_left (fun acc item => acc + contribution expert_pattern weights item)
              user_metrics t.
Proof.
  revert t b. induction user_metrics as [| [k u] um IH]; intros t b;
    [reflexivity |].
  cbn [fold_left]. unfold compare_step at 2. rewrite IH. reflexivity.
Qed.

Lemma compare_fold_breakdown (expert_pattern weights : dict string Q)
    (user_metrics : metrics) (t : Q) (b : dict string MetricComparison) :
  dict_wf user_metrics ->
  (forall k, In k (keys user_metrics) -> ~ In k (keys b)) ->
  snd (fold_left (compare_step expert_pattern weights) user_metrics (t, b))
  = b ++ map (entry_of expert_pattern weights) user_metrics.
Proof.
  unfold dict_wf. revert t b.
  induction user_metrics as [| [k u] um IH]; intros t b Hwf Hfresh.
  - simpl. now rewrite app_nil_r.
  - cbn [fold_left]. unfold compare_step at 2.
    inversion Hwf as [| ? ? Hnotin Hwf']; subst.
    rewrite set_fresh by (apply Hfresh; now left).
    rewrite IH; [| exact Hwf' |].
    + rewrite <- app_assoc. reflexivity.
    + intros k' Hk' Hin. unfold keys in Hin. rewrite map_app in Hin.
      apply in_app_or in Hin. destruct Hin as [Hin | [<- | []]].
      * apply (Hfresh k'); [now right | exact Hin].
      * apply Hnotin. exact Hk'.
Qed.

(** The overall similarity is the sum of the contributions. *)
Lemma compare_overall (user_metrics expert_pattern : metrics)
    (skill : string) :
  fst (compare_to_expert user_metrics expert_pattern skill)
  == total (map (contribution expert_pattern
                   (weights_for user_metrics skill)) user_metrics).
Proof.
  unfold compare_to_expert.
  set (X := fold_left (compare_step _ _) user_metrics _).
  assert (H : fst X
              = fold_left
                  (fun acc item =>
                     acc + contribution expert_pattern
                             (weights_for user_metrics skill) item)
                  user_metrics 0) by apply compare_fold_total.
  clearbody X. destruct X as [t b]. simpl in H |- *.
  rewrite H, fold_left_total. lra.
Qed.

(** The breakdown of a well-formed metric vector: one consistent entry per
    user metric, in the order of the user's metrics. *)
Lemma compare_breakdown (user_metrics expert_pattern : metrics)
    (skill : string) :
  dict_wf user_metrics ->
  let data := snd (compare_to_expert user_metrics expert_pattern skill) in
  metric_breakdown data
  = map (entry_of expert_pattern (weights_for user_metrics skill))
        user_metrics
  /\ dict_wf (metric_breakdown data)
  /\ Forall (fun item => consistent (snd item)) (metric_breakdown data).
Proof.
  intros Hwf data.
  assert (E : metric_breakdown data
              = map (entry_of expert_pattern
                       (weights_for user_metrics skill)) user_metrics).
  { unfold data, compare_to_expert.
    set (X := fold_left (compare_step _ _) user_metrics _).
    assert (H : snd X
                = [] ++ map (entry_of expert_pattern
                               (weights_for user_metrics skill)) user_metrics)
      by (apply compare_fold_breakdown; [exact Hwf | intros _ _ []]).
    clearbody X. destruct X as [t b]. exact H. }
  rewrite E. split; [reflexivity |]. split.
  - unfold dict_wf, keys. rewrite map_map. exact Hwf.
  - apply Forall_forall. intros item Hin. apply in_map_iff in Hin.
    destruct Hin as [[k u] [<- _]]. split; simpl; reflexivity.
Qed.

(** *** Weights *)

Lemma get_default_map_const {V} (d : dict string V) (c : Q) (k : string)
    (default : Q) :
  In k (keys d) ->
  get_default (map (fun kv => (fst kv, c)) d) k default = c.
Proof.
  unfold get_default, keys. induction d as [| [k0 v0] d IH]; simpl; [tauto |].
  intros [-> | Hin].
  - now rewrite String.eqb_refl.
  - destruct (String.eqb k k0); [reflexivity | now apply IH].
Qed.

(** A skill type has no weight table, or one of the five tables, whose
    weights are non-negative and sum to 1. *)
Lemma skill_table_cases (skill : string) :
  get skill_weights skill = None
  \/ exists k0 w0 table,
       get skill_weights skill = Some ((k0, w0) :: table)
       /\ Forall (fun kv => 0 <= snd kv) ((k0, w0) :: table)
       /\ total (values ((k0, w0) :: table)) == 1.
Proof.
  unfold skill_weights. simpl.
  repeat (destruct (String.eqb skill _);
          [right; do 3 eexists; split; [reflexivity |];
           split; [repeat constructor; discriminate | reflexivity] |]).
  now left.
Qed.

Lemma get_default_nonneg (table : dict string Q) (k : string) (default : Q) :
  Forall (fun kv => 0 <= snd kv) table -> 0 <= default ->
  0 <= get_default table k default.
Proof.
  unfold get_default. intros Htable Hd.
  induction Htable as [| [k0 v0] table Hv _ IH]; simpl; [exact Hd |].
  destruct (String.eqb k k0); [exact Hv | exact IH].
Qed.

Lemma len_nonneg {A} (l : list A) : 0 <= len l.
Proof.
  unfold len. change 0 with (inject_Z 0). rewrite <- Zle_Qle. lia.
Qed.

(** The table [compare_to_expert] works with, by cases. *)
Lemma weights_for_cases (user_metrics : metrics) (skill : string) :
  (get skill_weights skill = None
   /\ weights_for user_metrics skill
      = map (fun kv => (fst kv, 1 / len user_metrics)) user_metrics)
  \/ (exists table,
        get skill_weights skill = Some table
        /\ weights_for user_metrics skill = table
        /\ Forall (fun kv => 0 <= snd kv) table
        /\ total (values table) == 1).
Proof.
  unfold weights_for, get_default.
  destruct (skill_table_cases skill)
    as [E | [k0 [w0 [table [E [Hnn Hsum]]]]]]; rewrite E.
  - left. split; reflexivity.
  - right. exists ((k0, w0) :: table). repeat split; assumption.
Qed.

Lemma weights_for_nonneg (user_metrics : metrics) (skill k : string) :
  0 <= get_default (weights_for user_metrics skill) k (1 # 10).
Proof.
  destruct (weights_for_cases user_metrics skill)
    as [[_ E] | [table [_ [E [Hnn _]]]]]; rewrite E.
  - apply get_default_nonneg; [| discriminate].
    apply Forall_forall. intros kv Hin. apply in_map_iff in Hin.
    destruct Hin as [x [<- _]]. simpl.
    unfold Qdiv. rewrite Qmult_1_l. apply Qinv_le_0_compat, len_nonneg.
  - apply get_default_nonneg; [exact Hnn | discriminate].
Qed.

Lemma similarity_unit (u e : Q) :
  0 <= u <= 1 -> 0 <= e <= 1 ->
  0 <= 1 - Qabs (u - e) /\ 1 - Qabs (u - e) <= 1.
Proof.
  intros [Hu0 Hu1] [He0 He1].
  assert (Qabs (u - e) <= 1) by (apply Qabs_Qle_condition; split; lra).
  pose proof (Qabs_nonneg (u - e)). split; lra.
Qed.

Lemma get_default_unit (m : metrics) (k : string) :
  unit_valued m ->
  0 <= get_default m k (1 # 2) <= 1.
Proof.
  unfold get_default, unit_valued.
  induction 1 as [| [k0 v0] m Hv _ IH]; simpl.
  - split; discriminate.
  - destruct (String.eqb k k0); [exact Hv | exact IH].
Qed.

Lemma contribution_bounds (expert_pattern weights : dict string Q)
    (item : string * Q) :
  unit_valued expert_pattern ->
  0 <= snd item <= 1 ->
  0 <= get_default weights (fst item) (1 # 10) ->
  0 <= contribution expert_pattern weights item
  /\ contribution expert_pattern weights item
     <= get_default weights (fst item) (1 # 10).
Proof.
  intros Hep Hu Hw. unfold contribution.
  destruct (similarity_unit (snd item)
              (get_default expert_pattern (fst item) (1 # 2)) Hu
              (get_default_unit expert_pattern (fst item) Hep)) as [H0 H1].
  set (sim := 1 - Qabs (snd item - get_default expert_pattern (fst item) (1 # 2)))
    in *.
  set (w := get_default weights (fst item) (1 # 10)) in *.
  split; [apply Qmult_le_0_compat; assumption |].
  assert (0 <= (1 - sim) * w) by (apply Qmult_le_0_compat; lra).
  lra.
Qed.

Lemma filter_eqb_NoDup (k0 : string) (l : list string) :
  NoDup l ->
  filter (fun k => String.eqb k k0) l = []
  \/ filter (fun k => String.eqb k k0) l = [k0].
Proof.
  induction 1 as [| x l Hnotin Hnd IH]; simpl; [now left |].
  destruct (String.eqb_spec x k0) as [-> | Hne]; [| exact IH].
  right. f_equal. destruct IH as [E | E]; [exact E |].
  exfalso. apply Hnotin.
  assert (Hin : In k0 (filter (fun k => String.eqb k k0) l))
    by (rewrite E; now left).
  apply filter_In in Hin. tauto.
Qed.

Lemma total_filter_split {A} (f : A -> Q) (p : A -> bool) (l : list A) :
  total (map f l)
  == total (map f (filter p l))
     + total (map f (filter (fun x => negb (p x)) l)).
Proof.
  induction l as [| x l IH]; simpl; [lra |].
  destruct (p x); simpl; rewrite IH; lra.
Qed.

(** Distinct keys of a table take at most the table's total weight. *)
Lemma table_sum_bound (table : dict string Q) (default : Q)
    (l : list string) :
  Forall (fun kv => 0 <= snd kv) table ->
  NoDup l ->
  (forall k, In k l -> contains table k = true) ->
  total (map (fun k => get_default table k default) l)
  <= total (values table).
Proof.
  intros Hnn. revert l.
  induction Hnn as [| [k0 v0] table Hv0 Hnn IH]; intros l Hnd Hin.
  - destruct l as [| k l]; [simpl; lra |].
    specialize (Hin k (or_introl eq_refl)). discriminate.
  - simpl in Hv0.
    rewrite (total_filter_split _ (fun k => String.eqb k k0) l).
    assert (Hfirst :
              total (map (fun k => get_default ((k0, v0) :: table) k default)
                         (filter (fun k => String.eqb k k0) l)) <= v0).
    { destruct (filter_eqb_NoDup k0 l Hnd) as [E | E]; rewrite E; simpl.
      - exact Hv0.
      - unfold get_default. simpl. rewrite String.eqb_refl. lra. }
    assert (Hrest :
              total (map (fun k => get_default ((k0, v0) :: table) k default)
                         (filter (fun k => negb (String.eqb k k0)) l))
              <= total (values table)).
    { rewrite (total_map_ext _ (fun k => get_default table k default)).
      - apply IH; [now apply NoDup_filter |].
        intros k Hk. apply filter_In in Hk. destruct Hk as [Hk Hne].
        specialize (Hin k Hk). unfold contains in *. simpl in Hin.
        destruct (String.eqb k k0); [discriminate | exact Hin].
      - intros k Hk. apply filter_In in Hk. destruct Hk as [_ Hne].
        unfold get_default. simpl.
        destruct (String.eqb k k0); [discriminate | reflexivity]. }
    simpl. lra.
Qed.

(** The sum of the weights applied to the user's metrics is at most 1 when
    the skill type has no table (equal weighting) or every user metric is
    listed in the skill's table. *)
Lemma applied_weights_at_most_1 (user_metrics : metrics) (skill : string) :
  dict_wf user_metrics ->
  get skill_weights skill = None
  \/ (forall k, In k (keys user_metrics) ->
        contains (get_default skill_weights skill []) k = true) ->
  total (map (fun item =>
                get_default (weights_for user_metrics skill)
                            (fst item) (1 # 10)) user_metrics) <= 1.
Proof.
  intros Hwf Hcond.
  destruct (weights_for_cases user_metrics skill)
    as [[_ E] | [table [Hget [E [Hnn Hsum]]]]]; rewrite E.
  - rewrite (total_map_ext _ (fun _ => 1 / len user_metrics)).
    + rewrite total_const. destruct user_metrics as [| item um].
      * change (len (@nil (string * Q))) with 0. lra.
      * rewrite Qmult_div_r; [lra |].
        unfold len. simpl List.length. rewrite Nat2Z.inj_succ.
        intros Hzero. unfold Qeq in Hzero. simpl in Hzero. lia.
    + intros item Hin. rewrite get_default_map_const; [reflexivity |].
      apply (in_map fst) in Hin. exact Hin.
  - destruct Hcond as [Hnone | Hall]; [congruence |].
    unfold get_default in Hall at 1. rewrite Hget in Hall.
    rewrite <- Hsum, <- (map_map fst (fun k => get_default table k (1 # 10))).
    apply table_sum_bound; assumption.
Qed.

(** C2, as the code has it: for metric vectors with values in [0, 1] the
    overall similarity is never negative and never more than the sum of
    the weights applied to the user's metrics, added up in the user's
    order; every per-metric similarity lies in [0, 1] and every weighted
    score between 0 and its weight.  The sum of the applied weights is
    not bounded by 1. *)
Theorem C2_overall_similarity_bounds :
  forall (user_metrics expert_pattern : metrics) (skill : string),
    dict_wf user_metrics ->
    unit_valued user_metrics ->
    unit_valued expert_pattern ->
    let result := compare_to_expert user_metrics expert_pattern skill in
    0 <= fst result
    /\ fst result
       <= fold_left
            (fun acc item =>
               acc + get_default (weights_for user_metrics skill)
                                 (fst item) (1 # 10))
            user_metrics 0
    /\ Forall (fun item =>
                 let c := snd item in
                 0 <= similarity c /\ similarity c <= 1
                 /\ 0 <= weighted_score c /\ weighted_score c <= weight c)
              (metric_breakdown (snd result)).
Proof.
  intros user_metrics expert_pattern skill Hwf Hum Hep result.
  assert (Hb : forall item, In item user_metrics ->
            0 <= contribution expert_pattern
                   (weights_for user_metrics skill) item
            /\ contribution expert_pattern
                 (weights_for user_metrics skill) item
               <= get_default (weights_for user_metrics skill)
                              (fst item) (1 # 10)).
  { intros item Hin. apply contribution_bounds.
    - exact Hep.
    - unfold unit_valued in Hum. rewrite Forall_forall in Hum.
      now apply Hum.
    - apply weights_for_nonneg. }
  split; [| split].
  - unfold result. rewrite compare_overall.
    apply total_map_nonneg. intros item Hin. now apply Hb.
  - unfold result. rewrite compare_overall, fold_left_total.
    rewrite Qplus_0_l.
    apply total_map_le. intros item Hin. now apply Hb.
  - destruct (compare_breakdown user_metrics expert_pattern skill Hwf)
      as [E _].
    unfold result. cbv zeta in E. rewrite E.
    rewrite Forall_map. rewrite Forall_forall. intros item Hin.
    assert (Hu : 0 <= snd item <= 1).
    { unfold unit_valued in Hum. rewrite Forall_forall in Hum.
      now apply Hum. }
    assert (He := get_default_unit expert_pattern (fst item) Hep).
    destruct (similarity_unit (snd item)
                (get_default expert_pattern (fst item) (1 # 2)) Hu He)
      as [S0 S1].
    destruct (Hb item Hin) as [C0 C1].
    unfold entry_of. cbn [snd similarity weighted_score weight].
    repeat split; assumption.
Qed.

(** C6: for a bound [top_n >= 0] the result of [find_best_expert_matches]
    is the first [top_n] entries of the stable descending ordering of the
    candidate matches by similarity score: it is sorted by descending
    score, ties stand in iteration order, and it has at most [top_n]
    entries. *)
Theorem C6_best_matches_sorted_stable_at_most_top_n :
  forall (db : Database.t) (user_metrics : metrics) (skill : string)
         (top_n : Z),
    (0 <= top_n)%Z ->
    let matches := find_best_expert_matches db user_metrics skill top_n in
    (List.length matches <= Z.to_nat top_n)%nat
    /\ StronglySorted (desc Match.similarity_score) matches
    /\ exists ranked,
         ranking Match.similarity_score
                 (candidate_matches db user_metrics skill) ranked
         /\ matches = firstn (Z.to_nat top_n) ranked.
Proof.
  intros db user_metrics skill top_n Htop matches.
  unfold matches, find_best_expert_matches.
  rewrite slice_to_nonneg by exact Htop.
  split; [apply firstn_le_length |].
  split.
  - apply StronglySorted_firstn, sorted_desc_sorted.
  - eexists. split; [apply sorted_desc_ranking | reflexivity].
Qed.

(** *** The feedback loop, entry by entry *)

Definition strengths_of (item : string * MetricComparison)
  : list Strength.t :=
  if Qgtb (similarity (snd item)) (8 # 10) then
    [ {| Strength.metric := fst item;
         Strength.expert_level := expert_value (snd item) |} ]
  else [].

Definition areas_of (item : string * MetricComparison)
  : list ImprovementArea.t :=
  if Qgtb (similarity (snd item)) (8 # 10) then []
  else if Qgtb (gap (snd item)) (2 # 10) then
    [ {| ImprovementArea.metric := fst item;
         ImprovementArea.current_level := user_value (snd item);
         ImprovementArea.expert_level := expert_value (snd item);
         ImprovementArea.gap := gap (snd item) |} ]
  else [].

Definition recommendations_of (expert_name : string)
    (item : string * MetricComparison) : list Recommendation.t :=
  if Qgtb (similarity (snd item)) (8 # 10) then []
  else if Qgtb (gap (snd item)) (2 # 10) then
    match _get_specific_recommendation (fst item) (gap (snd item))
            expert_name with
    | Some r => [r]
    | None => []
    end
  else [].

Lemma fold_feedback_step (expert_name : string)
    (breakdown : dict string MetricComparison) (fb : Feedback.t) :
  let fb' := fold_left (feedback_step expert_name) breakdown fb in
  Feedback.strengths fb'
  = Feedback.strengths fb ++ flat_map strengths_of breakdown
  /\ Feedback.improvement_areas fb'
     = Feedback.improvement_areas fb ++ flat_map areas_of breakdown
  /\ Feedback.specific_recommendations fb'
     = Feedback.specific_recommendations fb
       ++ flat_map (recommendations_of expert_name) breakdown.
Proof.
  revert fb. induction breakdown as [| [metric data] breakdown IH];
    intros fb; cbv zeta; cbn [fold_left flat_map].
  - now rewrite !app_nil_r.
  - destruct (IH (feedback_step expert_name fb (metric, data)))
      as [Hs [Ha Hr]].
    rewrite Hs, Ha, Hr.
    unfold feedback_step, strengths_of, areas_of, recommendations_of.
    cbn [fst snd].
    destruct (Qgtb (similarity data) (8 # 10)); simpl.
    + now rewrite <- !app_assoc.
    + destruct (Qgtb (gap data) (2 # 10)); simpl.
      * destruct (_get_specific_recommendation metric (gap data) expert_name);
          simpl; now rewrite <- ?app_assoc, ?app_nil_r.
      * repeat split; reflexivity.
Qed.

Lemma feedback_lists (comparison_data : ComparisonData)
    (expert_info : ExpertInfo) :
  let fb := generate_expert_feedback comparison_data expert_info in
  Feedback.strengths fb
  = flat_map strengths_of (metric_breakdown comparison_data)
  /\ Feedback.improvement_areas fb
     = flat_map areas_of (metric_breakdown comparison_data)
  /\ Feedback.specific_recommendations fb
     = flat_map (recommendations_of (expert_name expert_info))
                (metric_breakdown comparison_data).
Proof.
  unfold generate_expert_feedback. simpl.
  apply (fold_feedback_step (expert_name expert_info)
           (metric_breakdown comparison_data)).
Qed.

Lemma recommendations_truthy (expert_name metric text : string) :
  get (recommendations expert_name) metric = Some text -> truthy text = true.
Proof.
  unfold recommendations. simpl.
  repeat (destruct (String.eqb metric _);
          [intros E; injection E as <-; reflexivity |]).
  discriminate.
Qed.

Lemma specific_recommendation_metric (metric expert_name : string) (g : Q)
    (r : Recommendation.t) :
  _get_specific_recommendation metric g expert_name = Some r ->
  Recommendation.metric r = metric.
Proof.
  unfold _get_specific_recommendation.
  destruct (get (recommendations expert_name) metric) as [text |];
    [| discriminate].
  destruct (truthy text); [| discriminate].
  intros E. injection E as <-. reflexivity.
Qed.

Lemma specific_recommendation_some (metric expert_name : string) (g : Q) :
  (exists r, _get_specific_recommendation metric g expert_name = Some r)
  <-> contains (recommendations expert_name) metric = true.
Proof.
  unfold _get_specific_recommendation, contains.
  destruct (get (recommendations expert_name) metric) as [text |] eqn:E.
  - rewrite (recommendations_truthy _ _ _ E). split; eauto.
  - split; [intros [r Hr]; discriminate | discriminate].
Qed.

(** A strict gap above 0.2 excludes a similarity above 0.8. *)
Lemma consistent_gap_excludes_strength (c : MetricComparison) :
  consistent c -> 2 # 10 < gap c -> similarity c <= 8 # 10.
Proof.
  intros [Hs Hg] Hgap. rewrite Hs.
  assert (Habs : expert_value c - user_value c
                 <= Qabs (user_value c - expert_value c)).
  { rewrite Qabs_Qminus. apply Qle_Qabs. }
  lra.
Qed.

(** C7: for a breakdown whose entries satisfy the invariant of a
    comparison result, a metric with similarity above 0.8 is a strength; a
    metric with gap above 0.2 is an improvement area and carries a
    specific recommendation exactly when its name is in the static lookup;
    a metric with neither gets no entry at all; no metric is both a
    strength and an improvement area. *)
Theorem C7_feedback_classification :
  forall (comparison_data : ComparisonData) (expert_info : ExpertInfo),
    dict_wf (metric_breakdown comparison_data) ->
    Forall (fun item => consistent (snd item))
           (metric_breakdown comparison_data) ->
    let fb := generate_expert_feedback comparison_data expert_info in
    forall (metric : string) (data : MetricComparison),
      In (metric, data) (metric_breakdown comparison_data) ->
      (8 # 10 < similarity data -> is_strength fb metric)
      /\ (2 # 10 < gap data ->
            is_improvement_area fb metric
            /\ (has_recommendation fb metric
                <-> contains (recommendations (expert_name expert_info))
                             metric = true))
      /\ (~ 8 # 10 < similarity data -> ~ 2 # 10 < gap data ->
            ~ is_strength fb metric
            /\ ~ is_improvement_area fb metric
            /\ ~ has_recommendation fb metric)
      /\ ~ (is_strength fb metric /\ is_improvement_area fb metric).
Proof.
  intros comparison_data expert_info Hwf Hcons fb metric data Hin.
  destruct (feedback_lists comparison_data expert_info) as [Hs [Ha Hr]].
  fold fb in Hs, Ha, Hr.
  assert (Hconsistent : consistent data).
  { rewrite Forall_forall in Hcons. apply (Hcons (metric, data) Hin). }
  (* every entry about [metric] stems from the item [(metric, data)] *)
  assert (Hstr : is_strength fb metric ->
                 Qgtb (similarity data) (8 # 10) = true).
  { intros [s [Hs' Hm]]. rewrite Hs in Hs'. apply in_flat_map in Hs'.
    destruct Hs' as [[k c] [Hkc Hsk]]. unfold strengths_of in Hsk.
    simpl in Hsk. destruct (Qgtb (similarity c) (8 # 10)) eqn:E;
      [| contradiction].
    destruct Hsk as [<- | []]. simpl in Hm. subst k.
    now rewrite (dict_wf_functional _ _ _ _ Hwf Hin Hkc). }
  assert (Harea : is_improvement_area fb metric ->
                  Qgtb (similarity data) (8 # 10) = false
                  /\ Qgtb (gap data) (2 # 10) = true).
  { intros [a [Ha' Hm]]. rewrite Ha in Ha'. apply in_flat_map in Ha'.
    destruct Ha' as [[k c] [Hkc Hak]]. unfold areas_of in Hak.
    simpl in Hak. destruct (Qgtb (similarity c) (8 # 10)) eqn:E;
      [contradiction |].
    destruct (Qgtb (gap c) (2 # 10)) eqn:E'; [| contradiction].
    destruct Hak as [<- | []]. simpl in Hm. subst k.
    now rewrite (dict_wf_functional _ _ _ _ Hwf Hin Hkc). }
  assert (Hrec : has_recommendation fb metric ->
                 Qgtb (similarity data) (8 # 10) = false
                 /\ Qgtb (gap data) (2 # 10) = true
                 /\ exists r, _get_specific_recommendation metric (gap data)
                                (expert_name expert_info) = Some r).
  { intros [r [Hr' Hm]]. rewrite Hr in Hr'. apply in_flat_map in Hr'.
    destruct Hr' as [[k c] [Hkc Hrk]]. unfold recommendations_of in Hrk.
    simpl in Hrk. destruct (Qgtb (similarity c) (8 # 10)) eqn:E;
      [contradiction |].
    destruct (Qgtb (gap c) (2 # 10)) eqn:E'; [| contradiction].
    destruct (_get_specific_recommendation k (gap c)
                (expert_name expert_info)) as [r' |] eqn:Er;
      [| contradiction].
    destruct Hrk as [<- | []].
    rewrite (specific_recommendation_metric _ _ _ _ Er) in Hm. subst k.
    rewrite (dict_wf_functional _ _ _ _ Hwf Hin Hkc). eauto. }
  repeat split.
  - intros Hsim. apply Qgtb_gt in Hsim.
    eexists. split.
    + rewrite Hs. apply in_flat_map. exists (metric, data).
      split; [exact Hin |]. unfold strengths_of. simpl. rewrite Hsim.
      left. reflexivity.
    + reflexivity.
  - assert (Hle := consistent_gap_excludes_strength data Hconsistent H).
    apply Qgtb_le in Hle. apply Qgtb_gt in H.
    eexists. split.
    + rewrite Ha. apply in_flat_map. exists (metric, data).
      split; [exact Hin |]. unfold areas_of. simpl. rewrite Hle, H.
      left. reflexivity.
    + reflexivity.
  - intros Hhas. apply Hrec in Hhas. destruct Hhas as [_ [_ Hex]].
    now apply specific_recommendation_some in Hex.
  - intros Hcontains.
    apply (specific_recommendation_some metric (expert_name expert_info)
             (gap data)) in Hcontains.
    destruct Hcontains as [r Hr'].
    assert (Hle := consistent_gap_excludes_strength data Hconsistent H).
    apply Qgtb_le in Hle. apply Qgtb_gt in H.
    exists r. split.
    + rewrite Hr. apply in_flat_map. exists (metric, data).
      split; [exact Hin |]. unfold recommendations_of. simpl.
      rewrite Hle, H, Hr'. left. reflexivity.
    + eapply specific_recommendation_metric. exact Hr'.
  - intros Hstrength. apply Hstr, Qgtb_gt in Hstrength. contradiction.
  - intros Hap. apply Harea in Hap. destruct Hap as [_ Hg].
    apply Qgtb_gt in Hg. contradiction.
  - intros Hhas. apply Hrec in Hhas. destruct Hhas as [_ [Hg _]].
    apply Qgtb_gt in Hg. contradiction.
  - intros [Hstrength Hap]. apply Hstr in Hstrength.
    apply Harea in Hap. destruct Hap as [Hf _]. congruence.
Qed.

Ltac solve_dict_wf :=
  unfold Py.dict_wf, Py.keys; simpl;
  repeat (constructor; [simpl; intuition discriminate |]); constructor.

Ltac solve_unit_valued :=
  unfold unit_valued; repeat constructor; simpl; discriminate.

Lemma C2_overall_similarity_bounds_witness :
  let user_metrics := seven_metrics (1 # 4) in
  let expert_pattern := seven_metrics (3 # 4) in
  dict_wf user_metrics
  /\ unit_valued user_metrics
  /\ unit_valued expert_pattern
  /\ 0 <= fst (compare_to_expert user_metrics expert_pattern
                 "Public Speaking")
  /\ fst (compare_to_expert user_metrics expert_pattern "Public Speaking")
     <= fold_left
          (fun acc item =>
             acc + get_default (weights_for user_metrics "Public Speaking")
                               (fst item) (1 # 10))
          user_metrics 0.
Proof.
  intros user_metrics expert_pattern.
  assert (Hwf : dict_wf user_metrics) by solve_dict_wf.
  assert (Hu : unit_valued user_metrics) by solve_unit_valued.
  assert (He : unit_valued expert_pattern) by solve_unit_valued.
  split; [exact Hwf |]. split; [exact Hu |]. split; [exact He |].
  destruct (C2_overall_similarity_bounds user_metrics expert_pattern
              "Public Speaking" Hwf Hu He) as [H0 [H1 _]].
  split; [exact H0 | exact H1].
Defined.

(** *** Symmetry *)

Lemma len_keys {V} (d : dict string V) : len (keys d) = len d.
Proof. unfold len, keys. now rewrite length_map. Qed.

Lemma weights_for_same_keys (m1 m2 : metrics) (skill k : string) :
  Permutation (keys m1) (keys m2) ->
  In k (keys m1) ->
  get_default (weights_for m1 skill) k (1 # 10)
  = get_default (weights_for m2 skill) k (1 # 10).
Proof.
  intros Hperm Hin.
  destruct (weights_for_cases m1 skill) as [[G1 E1] | [t1 [G1 [E1 _]]]];
    destruct (weights_for_cases m2 skill) as [[G2 E2] | [t2 [G2 [E2 _]]]];
    rewrite E1, E2; try congruence.
  rewrite !get_default_map_const;
    [| eapply Permutation_in; eassumption | exact Hin].
  rewrite <- (len_keys m1), <- (len_keys m2). unfold len.
  now rewrite (Permutation_length Hperm).
Qed.

(** The overall similarity as a sum over the user's metric names. *)
Lemma compare_overall_by_key (m1 m2 : metrics) (skill : string) :
  dict_wf m1 ->
  fst (compare_to_expert m1 m2 skill)
  == total (map (fun k =>
                   (1 - Qabs (get_default m1 k (1 # 2)
                              - get_default m2 k (1 # 2)))
                   * get_default (weights_for m1 skill) k (1 # 10))
                (keys m1)).
Proof.
  intros Hwf. rewrite compare_overall. unfold keys. rewrite map_map.
  apply total_map_ext. intros [k u] Hin. unfold contribution. simpl.
  assert (E : get_default m1 k (1 # 2) = u)
    by (unfold get_default; now rewrite (get_In m1 k u Hwf Hin)).
  rewrite E. reflexivity.
Qed.

(** C4, as the code has it: the overall similarity is symmetric for two
    metric vectors that list the same metric names in the same order. *)
Theorem C4_similarity_symmetric_on_same_metric_names :
  forall (m1 m2 : metrics) (skill : string),
    dict_wf m1 -> dict_wf m2 ->
    keys m1 = keys m2 ->
    fst (compare_to_expert m1 m2 skill)
    == fst (compare_to_expert m2 m1 skill).
Proof.
  intros m1 m2 skill Hwf1 Hwf2 Hkeys.
  assert (Hperm : Permutation (keys m1) (keys m2))
    by (rewrite Hkeys; apply Permutation_refl).
  rewrite (compare_overall_by_key m1 m2 skill Hwf1).
  rewrite (compare_overall_by_key m2 m1 skill Hwf2).
  rewrite <- Hkeys.
  apply total_map_ext. intros k Hin.
  rewrite (weights_for_same_keys m1 m2 skill k Hperm Hin).
  rewrite (Qabs_Qminus (get_default m1 k (1 # 2))). reflexivity.
Qed.

Lemma C4_similarity_symmetric_on_same_metric_names_witness :
  dict_wf scenario_user
  /\ dict_wf scenario_expert
  /\ keys scenario_user = keys scenario_expert
  /\ fst (compare_to_expert scenario_user scenario_expert "Public Speaking")
     == fst (compare_to_expert scenario_expert scenario_user
               "Public Speaking").
Proof.
  assert (Hu : dict_wf scenario_user) by solve_dict_wf.
  assert (He : dict_wf scenario_expert) by solve_dict_wf.
  assert (Hk : keys scenario_user = keys scenario_expert) by reflexivity.
  split; [exact Hu |]. split; [exact He |]. split; [exact Hk |].
  exact (C4_similarity_symmetric_on_same_metric_names
           scenario_user scenario_expert "Public Speaking" Hu He Hk).
Defined.

Lemma C7_feedback_classification_witness :
  let comparison_data :=
    snd (compare_to_expert scenario_user scenario_expert "Glassblowing") in
  let fb :=
    generate_expert_feedback comparison_data
      {| expert_name := "Ada"; expert_domain := "Public Speaking" |} in
  dict_wf (metric_breakdown comparison_data)
  /\ Forall (fun item => consistent (snd item))
            (metric_breakdown comparison_data)
  /\ is_strength fb "speaking_pace"
  /\ is_improvement_area fb "eye_contact".
Proof.
  intros comparison_data fb.
  assert (Hwf : dict_wf (metric_breakdown comparison_data))
    by (unfold comparison_data; solve_dict_wf).
  assert (Hcons : Forall (fun item => consistent (snd item))
                         (metric_breakdown comparison_data))
    by (unfold comparison_data; simpl; repeat constructor).
  split; [exact Hwf |]. split; [exact Hcons |].
  pose proof (C7_feedback_classification comparison_data
                {| expert_name := "Ada"; expert_domain := "Public Speaking" |}
                Hwf Hcons) as H.
  split.
  - eapply H; [left; reflexivity | reflexivity].
  - eapply H; [right; left; reflexivity | reflexivity].
Defined.

Lemma C6_best_matches_sorted_stable_at_most_top_n_witness :
  let db := three_experts_db (3 # 4) (1 # 4) (1 # 2) in
  let user_metrics := [("eye_contact", 1 # 2)] in
  let matches :=
    find_best_expert_matches db user_metrics "Public Speaking" 2 in
  (0 <= 2)%Z
  /\ map Match.similarity_score
         (candidate_matches db user_metrics "Public Speaking")
     = [(1 - Qabs ((1 # 2) - (3 # 4))) * (15 # 100);
        (1 - Qabs ((1 # 2) - (1 # 4))) * (15 # 100);
        (1 - Qabs ((1 # 2) - (1 # 2))) * (15 # 100)]
  /\ map Match.expert_id matches = [3%Z; 1%Z]
  /\ (List.length matches <= Z.to_nat 2)%nat
  /\ StronglySorted (desc Match.similarity_score) matches
  /\ exists ranked,
       ranking Match.similarity_score
               (candidate_matches db user_metrics "Public Speaking") ranked
       /\ matches = firstn (Z.to_nat 2) ranked.
Proof.
  intros db user_metrics matches.
  assert (Hn : (0 <= 2)%Z) by lia.
  split; [exact Hn |].
  split; [vm_compute; reflexivity |].
  split; [vm_compute; reflexivity |].
  exact (C6_best_matches_sorted_stable_at_most_top_n
           db user_metrics "Public Speaking" 2 Hn).
Defined.

End PatternComparatorFacts.

(** ** The recommender *)

Section RecommenderFacts.
Import Py ExpertRecommendationEngine.
#[local] Open Scope list_scope.

(** *** Learning paths *)

(** What one expert metric adds to [gaps]. *)
Definition gap_of (user_metrics : metrics) (item : string * Q)
  : list Gap.t :=
  match get user_metrics (fst item) with
  | Some user_value =>
      if Qgtb (snd item - user_value) (1 # 10) then
        [ {| Gap.metric := fst item; Gap.gap := snd item - user_value;
             Gap.current := user_value; Gap.target := snd item |} ]
      else []
  | None => []
  end.

Lemma metric_gaps_flat_map (expert_metrics user_metrics : metrics) :
  metric_gaps expert_metrics user_metrics
  = flat_map (gap_of user_metrics) expert_metrics.
Proof.
  unfold metric_gaps.
  enough (H : forall acc,
             fold_left
               (fun gaps item =>
                  let '(metric, expert_value) := item in
                  match get user_metrics metric with
                  | Some user_value =>
                      let gap := expert_value - user_value in
                      if Qgtb gap (1 # 10) then
                        gaps ++ [ {| Gap.metric := metric; Gap.gap := gap;
                                     Gap.current := user_value;
                                     Gap.target := expert_value |} ]
                      else gaps
                  | None => gaps
                  end) expert_metrics acc
             = acc ++ flat_map (gap_of user_metrics) expert_metrics)
    by apply (H []).
  induction expert_metrics as [| [k e] em IH]; intros acc; simpl.
  - now rewrite app_nil_r.
  - rewrite IH. unfold gap_of at 2. simpl.
    destruct (get user_metrics k) as [u |]; [| reflexivity].
    destruct (Qgtb (e - u) (1 # 10)); [| reflexivity].
    now rewrite <- app_assoc.
Qed.

(** The entries of [gaps]: the metrics of the expert that the user has
    too, with the expert more than 0.1 above the user. *)
Lemma metric_gaps_spec (expert_metrics user_metrics : metrics) (g : Gap.t) :
  In g (metric_gaps expert_metrics user_metrics)
  <-> In (Gap.metric g, Gap.target g) expert_metrics
      /\ get user_metrics (Gap.metric g) = Some (Gap.current g)
      /\ Gap.gap g = Gap.target g - Gap.current g
      /\ 1 # 10 < Gap.gap g.
Proof.
  rewrite metric_gaps_flat_map, in_flat_map. split.
  - intros [[k e] [Hin Hg]]. unfold gap_of in Hg. simpl in Hg.
    destruct (get user_metrics k) as [u |] eqn:Eu; [| contradiction].
    destruct (Qgtb (e - u) (1 # 10)) eqn:E; [| contradiction].
    destruct Hg as [<- | []]. simpl. apply Qgtb_gt in E. tauto.
  - intros [Hin [Hget [Hgap Hlt]]].
    exists (Gap.metric g, Gap.target g). split; [exact Hin |].
    unfold gap_of. simpl. rewrite Hget.
    rewrite Hgap in Hlt. apply Qgtb_gt in Hlt. rewrite Hlt.
    left. destruct g as [m gp c t]. simpl in *. now subst gp.
Qed.

(** A learning step and the gap it was built from. *)
Definition step_for (g : Gap.t) (st : Step.t) : Prop :=
  Step.focus_area st = title (replace_char "_"%char " "%char (Gap.metric g))
  /\ Step.current_level st = Gap.current g
  /\ Step.target_level st = Gap.target g
  /\ Step.improvement_needed st = Gap.gap g
  /\ Step.priority st
     = (if Qgtb (Gap.gap g) (3 # 10) then "high" else "medium")
  /\ Step.estimated_weeks st = Z.max 2 (int (Gap.gap g * 8)).

Lemma learning_steps_for (i : nat) (gaps : list Gap.t) :
  Forall2 step_for gaps
    (map (fun ig => learning_step (fst ig) (snd ig))
         (enumerate_from i gaps)).
Proof.
  revert i. induction gaps as [| g gaps IH]; intros i; simpl;
    constructor; [| apply IH].
  unfold step_for, learning_step. simpl. repeat split; reflexivity.
Qed.

Lemma learning_steps_numbers (i : nat) (gaps : list Gap.t) :
  map Step.step
      (map (fun ig => learning_step (fst ig) (snd ig))
           (enumerate_from i gaps))
  = map (fun n => (Z.of_nat n + 1)%Z) (seq i (List.length gaps)).
Proof.
  revert i. induction gaps as [| g gaps IH]; intros i; simpl;
    [reflexivity | now rewrite IH].
Qed.

Lemma enumerate_from_length {A} (i : nat) (l : list A) :
  List.length (enumerate_from i l) = List.length l.
Proof.
  revert i. induction l as [| x l IH]; intros i; simpl;
    [reflexivity | now rewrite IH].
Qed.

Lemma fold_left_Zadd (l : list Z) (a : Z) :
  fold_left Z.add l a = (a + fold_right Z.add 0 l)%Z.
Proof.
  revert a. induction l as [| x l IH]; intros a; simpl; [lia |].
  rewrite IH. lia.
Qed.

(** *** Reasoning about the store *)

Lemma hoare_bind {A B} (P : heap -> Prop) (m : M A) (Q : A -> heap -> Prop)
    (k : A -> M B) (R : B -> heap -> Prop) :
  hoare P m Q -> (forall a, hoare (Q a) (k a) R) -> hoare P (bind m k) R.
Proof.
  intros Hm Hk h Hh. unfold bind. specialize (Hm h Hh).
  destruct (m h) as [[a h'] | e]; [| exact I]. now apply Hk.
Qed.

Lemma hoare_pre {A} (P P' : heap -> Prop) (m : M A) (Q : A -> heap -> Prop) :
  (forall h, P' h -> P h) -> hoare P m Q -> hoare P' m Q.
Proof. intros Himp Hm h Hh. apply Hm, Himp, Hh. Qed.

Lemma hoare_post {A} (P : heap -> Prop) (m : M A) (Q Q' : A -> heap -> Prop) :
  (forall a h, Q a h -> Q' a h) -> hoare P m Q -> hoare P m Q'.
Proof.
  intros Himp Hm h Hh. specialize (Hm h Hh).
  destruct (m h) as [[a h'] | e]; [now apply Himp | exact I].
Qed.

Lemma hoare_ret {A} (P : heap -> Prop) (a : A) (Q : A -> heap -> Prop) :
  (forall h, P h -> Q a h) -> hoare P (ret a) Q.
Proof. intros H h Hh. now apply H. Qed.

Lemma inv_bind {A B} (P : heap -> Prop) (m : M A) (k : A -> M B) :
  inv P m -> (forall a, inv P (k a)) -> inv P (bind m k).
Proof. intros Hm Hk. eapply hoare_bind; [exact Hm | exact Hk]. Qed.

Lemma inv_ret {A} (P : heap -> Prop) (a : A) : inv P (ret a).
Proof. now apply hoare_ret. Qed.

Lemma inv_raise {A} (P : heap -> Prop) (e : exn) : inv P (@raise A e).
Proof. intros h Hh. exact I. Qed.

Lemma inv_lift {A} (P : heap -> Prop) (r : result A) : inv P (lift r).
Proof. intros h Hh. unfold lift. destruct r; [exact Hh | exact I]. Qed.

Lemma inv_read (P : heap -> Prop) (r : ref) : inv P (read r).
Proof.
  intros h Hh. unfold read. destruct (nth_error h r); [exact Hh | exact I].
Qed.

Lemma inv_field {A} (P : heap -> Prop) (proj : Rec.t -> option A) (r : ref) :
  inv P (field proj r).
Proof.
  unfold field. apply inv_bind; [apply inv_read |].
  intros e. destruct (proj e); [apply inv_ret | apply inv_raise].
Qed.

Lemma hoare_for_each {A S} (I : S -> heap -> Prop) (xs : list A)
    (body : S -> A -> M S) :
  (forall s x, hoare (I s) (body s x) I) ->
  forall s, hoare (I s) (for_each xs body s) I.
Proof.
  intros Hbody. induction xs as [| x xs IH]; intros s; simpl.
  - now apply hoare_ret.
  - eapply hoare_bind; [apply Hbody | exact IH].
Qed.

Lemma inv_for_each {A S} (P : heap -> Prop) (xs : list A)
    (body : S -> A -> M S) (s : S) :
  (forall s x, inv P (body s x)) -> inv P (for_each xs body s).
Proof.
  intros Hbody. apply (hoare_for_each (fun _ => P)). exact Hbody.
Qed.

Lemma inv_sorted_desc_by {A} (P : heap -> Prop) (key : A -> M Q)
    (xs : list A) :
  (forall x, inv P (key x)) -> inv P (sorted_desc_by key xs).
Proof.
  intros Hkey. unfold sorted_desc_by. apply inv_bind; [| intros; apply inv_ret].
  apply inv_for_each. intros ks x.
  apply inv_bind; [apply Hkey | intros; apply inv_ret].
Qed.

Lemma Forall_update_nth (Q : Rec.t -> Prop) (h : heap) (r : ref) (e : Rec.t) :
  Forall Q h -> Q e -> Forall Q (update_nth h r e).
Proof.
  intros Hh He. revert r. induction Hh as [| x h Hx Hh IH]; intros r; simpl.
  - constructor.
  - destruct r; constructor; auto.
Qed.

Lemma inv_modify (Q : Rec.t -> Prop) (r : ref) (f : Rec.t -> Rec.t) :
  (forall e, Q e -> Q (f e)) -> inv (Forall Q) (modify r f).
Proof.
  intros Hf h Hh. unfold modify. destruct (nth_error h r) as [e |] eqn:E;
    [| exact I].
  apply Forall_update_nth; [exact Hh |]. apply Hf.
  rewrite Forall_forall in Hh. apply Hh. eapply nth_error_In, E.
Qed.

Lemma inv_alloc (Q : Rec.t -> Prop) (e : Rec.t) :
  Q e -> inv (Forall Q) (alloc e).
Proof.
  intros He h Hh. unfold alloc. apply Forall_app. split; [exact Hh |].
  now constructor.
Qed.

Ltac inv_step :=
  first
    [ apply inv_ret | apply inv_raise | apply inv_lift | apply inv_read
    | apply inv_field
    | apply inv_bind; [| intros ?]
    | apply inv_for_each; intros ? ?
    | apply inv_sorted_desc_by; intros ?
    | apply inv_modify; intros ? ?
    | apply inv_alloc
    | match goal with
      | |- inv _ (if ?c then _ else _) => destruct c
      | |- inv _ (match ?x with Some _ => _ | None => _ end) => destruct x
      | |- inv _ (match ?x with [] => _ | _ :: _ => _ end) => destruct x
      | |- inv _ (let '(_, _) := ?x in _) => destruct x
      end ].

Ltac inv_auto := repeat inv_step.

(** Before the ranking no dict carries a strategy tag. *)
Lemma available_untagged (db : Database.t) (skill : string) :
  inv (Forall untagged) (_get_available_experts db skill).
Proof.
  unfold _get_available_experts, available_step. inv_auto. reflexivity.
Qed.

Lemma similar_level_untagged (experts : list ref) (user_metrics : metrics) :
  inv (Forall untagged) (_find_similar_level_experts experts user_metrics).
Proof.
  unfold _find_similar_level_experts, average. inv_auto. assumption.
Qed.

Lemma aspirational_untagged (experts : list ref) (user_metrics : metrics) :
  inv (Forall untagged) (_find_aspirational_experts experts user_metrics).
Proof.
  unfold _find_aspirational_experts, average. inv_auto. assumption.
Qed.

Lemma progressive_untagged (experts : list ref) (user_metrics : metrics) :
  inv (Forall untagged) (_find_progressive_experts experts user_metrics).
Proof.
  unfold _find_progressive_experts, average. inv_auto. assumption.
Qed.

Lemma improvement_focused_untagged (experts : list ref)
    (user_metrics : metrics) :
  inv (Forall untagged)
      (_find_improvement_focused_experts experts user_metrics).
Proof.
  unfold _find_improvement_focused_experts. inv_auto. assumption.
Qed.

Lemma trending_untagged (db : Database.t) (skill : string) :
  inv (Forall untagged) (_get_trending_experts db skill).
Proof.
  unfold _get_trending_experts. inv_auto. reflexivity.
Qed.

(** The ranking writes tag, weight and final score together. *)
Lemma rank_weighted (recommendations : dict string (list ref)) (n : Z) :
  inv (Forall weighted)
      (_rank_and_combine_recommendations recommendations n).
Proof.
  unfold _rank_and_combine_recommendations.
  apply inv_bind; [| intros all; inv_auto].
  apply inv_for_each. intros acc [strategy experts].
  apply inv_for_each. intros acc' expert.
  intros h Hh. unfold bind, read, modify, ret.
  destruct (nth_error h expert) as [e |] eqn:E; [| exact I].
  rewrite E. apply Forall_update_nth; [exact Hh |].
  intros s Hs. simpl in Hs. injection Hs as <-. split; reflexivity.
Qed.

Lemma paths_weighted (final_recommendations : list ref)
    (user_metrics : metrics) :
  inv (Forall weighted)
      (for_each final_recommendations
         (fun (_ : unit) rec =>
            e <- read rec ;;
            _ <- modify rec
                   (Rec.set_learning_path
                      (_generate_learning_path e user_metrics)) ;;
            e <- read rec ;;
            timeline <- _estimate_improvement_timeline e user_metrics ;;
            modify rec (Rec.set_expected_timeline timeline))
         tt).
Proof.
  unfold _estimate_improvement_timeline, average. inv_auto; assumption.
Qed.

(** Reading the final list back from the store. *)
Lemma read_back_weighted (refs : list ref) :
  hoare (Forall weighted)
        (for_each refs (fun recs rec => e <- read rec ;; ret (recs ++ [e])) [])
        (fun recs _ => Forall weighted recs).
Proof.
  apply hoare_pre
    with (P := fun h => Forall weighted h /\ Forall weighted (@nil Rec.t));
    [intros h Hh; split; [exact Hh | constructor] |].
  apply hoare_post
    with (Q := fun recs h => Forall weighted h /\ Forall weighted recs);
    [intros recs h [_ H]; exact H |].
  apply (hoare_for_each
           (fun recs h => Forall weighted h /\ Forall weighted recs)).
  intros recs rec h [Hh Hrecs]. unfold bind, read, ret.
  destruct (nth_error h rec) as [e |] eqn:E; [| exact I].
  split; [exact Hh |]. apply Forall_app. split; [exact Hrecs |].
  constructor; [| constructor].
  rewrite Forall_forall in Hh. apply Hh. eapply nth_error_In, E.
Qed.

Lemma assess_user_level_inv (P : heap -> Prop) (user_metrics : metrics) :
  inv P (_assess_user_level user_metrics).
Proof. unfold _assess_user_level, average. inv_auto. Qed.

Lemma personalization_factors_inv (P : heap -> Prop) (user_history : list Z)
    (user_metrics : metrics) :
  inv P (_get_personalization_factors user_history user_metrics).
Proof.
  unfold _get_personalization_factors.
  apply inv_bind; [apply assess_user_level_inv | intros level].
  apply inv_ret.
Qed.

Lemma untagged_weighted (h : heap) : Forall untagged h -> Forall weighted h.
Proof.
  apply Forall_impl. intros e He s Hs. unfold untagged in He. congruence.
Qed.

(** Every candidate of a returned bundle is [weighted]: whatever the
    strategies nominated, the final score is the dict's recommendation
    score times the weight found under the dict's strategy tag. *)
Lemma returned_candidates_weighted (db : Database.t) (user_id : Z)
    (skill : string) (user_metrics : metrics) (n : Z) (bundle : Bundle.t) :
  get_personalized_recommendations db user_id skill user_metrics n
  = Ok bundle ->
  Forall weighted (Bundle.recommendations bundle).
Proof.
  assert (H : hoare (Forall untagged)
                (personalized_recommendations db user_id skill user_metrics n)
                (fun bundle _ =>
                   Forall weighted (Bundle.recommendations bundle))).
  { unfold personalized_recommendations.
    eapply hoare_bind; [apply available_untagged | intros available].
    eapply hoare_bind; [apply similar_level_untagged | intros similar].
    eapply hoare_bind; [apply aspirational_untagged | intros aspirational].
    eapply hoare_bind; [apply progressive_untagged | intros progressive].
    eapply hoare_bind;
      [apply improvement_focused_untagged | intros improvement].
    eapply hoare_bind; [apply trending_untagged | intros trending].
    eapply hoare_bind;
      [apply hoare_pre with (P := Forall weighted);
       [exact untagged_weighted | apply rank_weighted] | intros final].
    eapply hoare_bind; [apply paths_weighted | intros u].
    eapply hoare_bind; [apply read_back_weighted | intros recs].
    eapply hoare_bind;
      [apply (assess_user_level_inv (fun _ => Forall weighted recs))
      | intros level].
    eapply hoare_bind;
      [apply (personalization_factors_inv (fun _ => Forall weighted recs))
      | intros factors].
    apply hoare_ret. intros h Hrecs. exact Hrecs. }
  unfold get_personalized_recommendations.
  specialize (H [] (Forall_nil _)).
  destruct (personalized_recommendations db user_id skill user_metrics n [])
    as [[b h] | e]; [| discriminate].
  intros E. injection E as <-. exact H.
Qed.

(** Hence every returned candidate tagged as peer-level has weight 0.1 and
    final score 0.1 times its recommendation score. *)
Lemma peer_level_candidates_weighted_one_tenth (db : Database.t)
    (user_id : Z) (skill : string) (user_metrics : metrics) (n : Z)
    (bundle : Bundle.t) (r : Rec.t) :
  get_personalized_recommendations db user_id skill user_metrics n
  = Ok bundle ->
  In r (Bundle.recommendations bundle) ->
  Rec.strategy r = Some "similar_level" ->
  Rec.strategy_weight r = Some (1 # 10)
  /\ Rec.final_score r
     = Some ((match Rec.recommendation_score r with
              | Some x => x
              | None => 1 # 2
              end) * (1 # 10)).
Proof.
  intros Hok Hin Htag.
  pose proof (returned_candidates_weighted _ _ _ _ _ _ Hok) as H.
  rewrite Forall_forall in H. exact (H r Hin "similar_level" Htag).
Qed.

(** *** The combination weights *)

(** The ranking looks the strategies up under the names
    [get_personalized_recommendations] gives them; the weight table has
    "similar_performance" and "cross_domain", not "similar_level" and
    "trending", so those two (and "improvement_focused") get the default
    0.1. *)
Lemma strategy_weights_applied :
  get_default recommendation_strategies "similar_level" (1 # 10) = 1 # 10
  /\ get_default recommendation_strategies "aspirational" (1 # 10) = 3 # 10
  /\ get_default recommendation_strategies "progressive" (1 # 10) = 2 # 10
  /\ get_default recommendation_strategies "improvement_focused" (1 # 10)
     = 1 # 10
  /\ get_default recommendation_strategies "trending" (1 # 10) = 1 # 10
  /\ get recommendation_strategies "similar_performance" = Some (4 # 10).
Proof. repeat split; reflexivity. Qed.

(** C1 at a failing input: one expert whose pattern equals the user's
    metrics is nominated by the peer-level strategy only, with raw score
    1; its final score is 0.1 (raw score times the default weight), not
    0.4 (raw score times the peer-level weight of the table). *)
Theorem C1_peer_level_candidate_weighted_one_tenth :
  exists bundle r raw w final,
    get_personalized_recommendations
      (one_expert_db [("eye_contact", 1 # 2)]) 7 "Public Speaking"
      [("eye_contact", 1 # 2)] 5 = Ok bundle
    /\ Bundle.recommendations bundle = [r]
    /\ Rec.strategy r = Some "similar_level"
    /\ Rec.recommendation_score r = Some raw
    /\ Rec.strategy_weight r = Some w
    /\ Rec.final_score r = Some final
    /\ raw == 1
    /\ w == 1 # 10
    /\ final == 1 # 10
    /\ ~ final == raw * (4 # 10).
Proof.
  do 5 eexists.
  split; [vm_compute; reflexivity |].
  split; [reflexivity |].
  repeat (split; [reflexivity |]).
  discriminate.
Qed.

(** The strategies share the expert dicts.  With experts at 0.9375,
    0.90625 and 0.875 and the user at 0.8125 (all exact in binary64, and
    no difference at a threshold), the peer-level strategy scores expert
    C 0.9375; the aspirational strategy then overwrites the score with
    0.875 and drops C from its own top 2; the ranking tags C as
    peer-level and multiplies the aspirational score. *)
Lemma shared_dict_keeps_last_score :
  let db := three_experts_db (15 # 16) (29 # 32) (7 # 8) in
  let user_metrics := [("eye_contact", 13 # 16)] in
  (exists h c peer_score,
     (experts <- _get_available_experts db "Public Speaking" ;;
      _find_similar_level_experts experts user_metrics) []
     = Ok ([2; 1; 0]%nat, h)
     /\ nth_error h 2 = Some c
     /\ Rec.recommendation_score c = Some peer_score
     /\ peer_score == 15 # 16)
  /\ exists bundle c score,
       get_personalized_recommendations db 7 "Public Speaking" user_metrics 5
       = Ok bundle
       /\ map Rec.expert_name (Bundle.recommendations bundle)
          = ["B"; "C"; "A"]
       /\ nth_error (Bundle.recommendations bundle) 1 = Some c
       /\ Rec.strategy c = Some "similar_level"
       /\ Rec.recommendation_score c = Some score
       /\ score == 7 # 8.
Proof.
  split.
  - do 3 eexists. split; [vm_compute; reflexivity |].
    repeat split; reflexivity.
  - do 3 eexists. split; [vm_compute; reflexivity |].
    repeat split; reflexivity.
Qed.

(** *** Empty metric vectors *)

Lemma available_loop_ok (db : Database.t) (l : list ExpertPattern.t)
    (acc : list ref) (h : heap) :
  exists experts h', for_each l (available_step db) acc h = Ok (experts, h').
Proof.
  revert acc h. induction l as [| pattern l IH]; intros acc h; simpl.
  - unfold ret. eauto.
  - unfold bind at 1, available_step.
    destruct (Database.expert_by_id db (ExpertPattern.expert_id pattern));
      unfold bind, alloc, ret; apply IH.
Qed.

Lemma available_experts_ok (db : Database.t) (skill : string) (h : heap) :
  exists experts h', _get_available_experts db skill h = Ok (experts, h').
Proof. apply available_loop_ok. Qed.

Lemma similar_level_empty_raises (experts : list ref) (h : heap) :
  _find_similar_level_experts experts [] h = Raise ZeroDivisionError.
Proof. reflexivity. Qed.

(** C3 at the failing input: with an empty user metric vector
    [get_personalized_recommendations] raises ZeroDivisionError, for every
    database, user, skill type and bound, while the real-time classifier
    and the comparator return their neutral values (50.0 and 0.0). *)
Theorem C3_empty_metrics_raise_in_recommender :
  forall (db : Database.t) (user_id : Z) (skill : string) (n : Z),
    get_personalized_recommendations db user_id skill [] n
    = Raise ZeroDivisionError
    /\ RealTimeAnalysisEngine._calculate_overall_score [] skill = 50
    /\ (forall expert_pattern,
          fst (PatternComparator.compare_to_expert [] expert_pattern skill)
          = 0).
Proof.
  intros db user_id skill n. split; [| split].
  - unfold get_personalized_recommendations, personalized_recommendations.
    unfold bind at 1.
    destruct (available_experts_ok db skill []) as [experts [h' E]].
    rewrite E. unfold bind at 1.
    now rewrite similar_level_empty_raises.
  - reflexivity.
  - intros expert_pattern. reflexivity.
Qed.

End RecommenderFacts.

(** * Further properties *)

(** ** Extraction and comparison *)

Ltac solve_dict_wf :=
  unfold Py.dict_wf, Py.keys; simpl;
  repeat (constructor; [simpl; intuition discriminate |]); constructor.

Ltac solve_unit_valued :=
  unfold unit_valued; repeat constructor; simpl; discriminate.

Section PatternComparatorMore.
Import Py PatternComparator.
#[local] Open Scope list_scope.

Ltac qdiv :=
  unfold Qdiv in *;
  repeat match goal with
    | |- context [Qinv (?n # ?d)] =>
        let r := eval compute in (Qinv (n # d)) in
        change (Qinv (n # d)) with r
    | H : context [Qinv (?n # ?d)] |- _ =>
        let r := eval compute in (Qinv (n # d)) in
        change (Qinv (n # d)) with r in H
    end.

Lemma clamp_unit (v : Q) : 0 <= max 0 (min 1 v) /\ max 0 (min 1 v) <= 1.
Proof.
  unfold max, min.
  destruct (Qltb v 1) eqn:E1.
  - apply Qltb_lt in E1. destruct (Qgtb v 0) eqn:E0.
    + apply Qgtb_gt in E0. lra.
    + lra.
  - simpl. lra.
Qed.

(** X1: the normalised speaking pace lies in [0, 1]; it is 1 exactly for
    a pace between 120 and 180 words per minute, and 0 for a pace of at
    most 0 or at least 280. *)
Theorem speaking_pace_normalised :
  forall wpm : Q,
    (0 <= _normalize_speaking_pace wpm /\ _normalize_speaking_pace wpm <= 1)
    /\ (_normalize_speaking_pace wpm == 1 <-> 120 <= wpm /\ wpm <= 180)
    /\ (wpm <= 0 \/ 280 <= wpm -> _normalize_speaking_pace wpm == 0).
Proof.
  intros wpm. unfold _normalize_speaking_pace.
  destruct (Qleb 120 wpm) eqn:Elo; [destruct (Qleb wpm 180) eqn:Ehi |];
    simpl.
  - apply Qleb_le in Elo, Ehi.
    split; [lra |]. split; [split; [lra | reflexivity] | lra].
  - assert (Hhi : 180 < wpm).
    { apply Qnot_le_lt. intros H. apply Qleb_le in H. congruence. }
    assert (Hlt : Qltb wpm 120 = false) by (apply Qltb_ge; lra).
    rewrite Hlt. unfold max.
    destruct (Qgtb (1 - (wpm - 180) / 100) 0) eqn:E.
    + apply Qgtb_gt in E. qdiv. split; [lra |].
      split; [split; lra | lra].
    + apply Qgtb_le in E. qdiv. split; [lra |].
      split; [split; lra | reflexivity].
  - assert (Hlo : wpm < 120).
    { apply Qnot_le_lt. intros H. apply Qleb_le in H. congruence. }
    assert (Hlt : Qltb wpm 120 = true) by (apply Qltb_lt; exact Hlo).
    rewrite Hlt. unfold max.
    destruct (Qgtb (wpm / 120) 0) eqn:E.
    + apply Qgtb_gt in E. qdiv. split; [lra |].
      split; [split; lra | lra].
    + apply Qgtb_le in E. qdiv. split; [lra |].
      split; [split; lra | reflexivity].
Qed.

Lemma contains_keys {V} (d : dict string V) (k : string) :
  In k (keys d) -> contains d k = true.
Proof.
  unfold contains. intros Hin. destruct (get d k) eqn:E; [reflexivity |].
  apply get_None_notin in E. contradiction.
Qed.

Lemma skill_tables_wf (skill : string) :
  dict_wf (get_default skill_weights skill []).
Proof.
  unfold get_default, skill_weights. simpl.
  repeat (destruct (String.eqb skill _); [solve_dict_wf |]).
  constructor.
Qed.

Lemma extract_keys (analysis_data : AnalysisData.t) (skill : string) :
  keys (extract_user_metrics analysis_data skill)
  = keys (get_default skill_weights skill []).
Proof.
  unfold extract_user_metrics, raw_user_metrics, keys.
  rewrite map_map. unfold get_default, skill_weights. simpl.
  repeat (destruct (String.eqb skill _); [reflexivity |]).
  reflexivity.
Qed.

(** X2: whatever the analysis record holds, the extracted metrics lie in
    [0, 1], and their names are the names of the skill type's weight
    table, in the table's order (none for a skill type without a
    table). *)
Theorem extracted_metrics_clamped_and_listed :
  forall (analysis_data : AnalysisData.t) (skill : string),
    let user_metrics := extract_user_metrics analysis_data skill in
    unit_valued user_metrics
    /\ dict_wf user_metrics
    /\ keys user_metrics = keys (get_default skill_weights skill []).
Proof.
  intros analysis_data skill user_metrics. split; [| split].
  - unfold unit_valued, user_metrics, extract_user_metrics.
    apply Forall_forall. intros kv Hin. apply in_map_iff in Hin.
    destruct Hin as [[k v] [<- _]]. simpl. apply clamp_unit.
  - unfold dict_wf, user_metrics. rewrite extract_keys.
    apply skill_tables_wf.
  - apply extract_keys.
Qed.

(** The overall similarity lies between 0 and the sum of the weights
    applied to the user's metrics. *)
Lemma compare_at_most_applied_weights (user_metrics expert_pattern : metrics)
    (skill : string) :
  unit_valued user_metrics ->
  unit_valued expert_pattern ->
  0 <= fst (compare_to_expert user_metrics expert_pattern skill)
  /\ fst (compare_to_expert user_metrics expert_pattern skill)
     <= total (map (fun item =>
                      get_default (weights_for user_metrics skill)
                                  (fst item) (1 # 10)) user_metrics).
Proof.
  intros Hum Hep.
  assert (Hb : forall item, In item user_metrics ->
            0 <= contribution expert_pattern
                   (weights_for user_metrics skill) item
            /\ contribution expert_pattern
                 (weights_for user_metrics skill) item
               <= get_default (weights_for user_metrics skill)
                              (fst item) (1 # 10)).
  { intros item Hin. apply contribution_bounds.
    - exact Hep.
    - unfold unit_valued in Hum. rewrite Forall_forall in Hum.
      now apply Hum.
    - apply weights_for_nonneg. }
  rewrite compare_overall. split.
  - apply total_map_nonneg. intros item Hin. now apply Hb.
  - apply total_map_le. intros item Hin. now apply Hb.
Qed.

(** X3: extraction composed with comparison: against an expert pattern
    with values in [0, 1], the similarity of extracted metrics lies in
    [0, 1], for every analysis record and every skill type. *)
Theorem extracted_metrics_similarity_in_unit_interval :
  forall (analysis_data : AnalysisData.t) (expert_pattern : metrics)
         (skill : string),
    unit_valued expert_pattern ->
    0 <= fst (compare_to_expert
                (extract_user_metrics analysis_data skill)
                expert_pattern skill)
    /\ fst (compare_to_expert
              (extract_user_metrics analysis_data skill)
              expert_pattern skill) <= 1.
Proof.
  intros analysis_data expert_pattern skill Hep.
  destruct (extracted_metrics_clamped_and_listed analysis_data skill)
    as [Hunit [Hwf Hkeys]].
  destruct (compare_at_most_applied_weights
              (extract_user_metrics analysis_data skill)
              expert_pattern skill Hunit Hep) as [H0 H1].
  split; [exact H0 |].
  eapply Qle_trans; [exact H1 |].
  apply applied_weights_at_most_1; [exact Hwf |].
  right. intros k Hk. apply contains_keys. now rewrite <- Hkeys.
Qed.

Lemma extracted_metrics_similarity_in_unit_interval_witness :
  unit_valued scenario_expert
  /\ fst (compare_to_expert
            (extract_user_metrics
               {| AnalysisData.video_analysis :=
                    {| VideoAnalysis.values := [("eye_contact_score", 3)];
                       VideoAnalysis.joint_tracking := [] |};
                  AnalysisData.speech_analysis :=
                    {| SpeechAnalysis.values := [];
                       SpeechAnalysis.pauses := [];
                       SpeechAnalysis.sentiment := [("compound", - (1 # 2))];
                       SpeechAnalysis.pace := [("words_per_minute", 210)] |} |}
               "Public Speaking")
            scenario_expert "Public Speaking") <= 1.
Proof.
  assert (He : unit_valued scenario_expert) by solve_unit_valued.
  split; [exact He |].
  exact (proj2 (extracted_metrics_similarity_in_unit_interval _ _ _ He)).
Defined.

(** *** Self-comparison *)

Lemma Qabs_self (u : Q) : Qabs (u - u) == 0.
Proof.
  rewrite Qabs_pos by lra. lra.
Qed.

Lemma self_comparison_total (m : metrics) (skill : string) :
  dict_wf m ->
  fst (compare_to_expert m m skill)
  == total (map (fun item =>
                   get_default (weights_for m skill) (fst item) (1 # 10)) m).
Proof.
  intros Hwf. rewrite compare_overall. apply total_map_ext.
  intros [k u] Hin. unfold contribution. cbn [fst snd].
  assert (E : get_default m k (1 # 2) = u)
    by (unfold get_default; now rewrite (get_In m k u Hwf Hin)).
  rewrite E, (Qabs_self u). lra.
Qed.

Lemma equal_weights_total (m : metrics) (skill : string) :
  get skill_weights skill = None -> m <> [] ->
  total (map (fun item =>
                get_default (weights_for m skill) (fst item) (1 # 10)) m)
  == 1.
Proof.
  intros Hnone Hne.
  destruct (weights_for_cases m skill) as [[_ E] | [table [Hget _]]];
    [| congruence].
  rewrite E. rewrite (total_map_ext _ (fun _ => 1 / len m)).
  - rewrite total_const. destruct m as [| item m]; [congruence |].
    rewrite Qmult_div_r; [reflexivity |].
    unfold len. simpl List.length. rewrite Nat2Z.inj_succ.
    intros Hzero. unfold Qeq in Hzero. simpl in Hzero. lia.
  - intros item Hin. rewrite get_default_map_const; [reflexivity |].
    apply (in_map fst) in Hin. exact Hin.
Qed.

Lemma table_total (table : dict string Q) (default : Q) :
  dict_wf table ->
  total (map (fun k => get_default table k default) (keys table))
  == total (values table).
Proof.
  intros Hwf. unfold keys, values. rewrite map_map.
  apply total_map_ext. intros [k v] Hin. simpl.
  unfold get_default. now rewrite (get_In table k v Hwf Hin).
Qed.

(** X5: the metrics extracted for one of the five skill types, compared
    with themselves, score exactly 1; for any other skill type the
    extracted vector is empty and the score is 0. *)
Theorem extracted_self_similarity :
  forall (analysis_data : AnalysisData.t) (skill : string),
    let m := extract_user_metrics analysis_data skill in
    (get skill_weights skill <> None ->
       fst (compare_to_expert m m skill) == 1)
    /\ (get skill_weights skill = None ->
          m = [] /\ fst (compare_to_expert m m skill) == 0).
Proof.
  intros analysis_data skill m.
  destruct (extracted_metrics_clamped_and_listed analysis_data skill)
    as [_ [Hwf Hkeys]]. fold m in Hwf, Hkeys.
  split.
  - intros Hsome. rewrite (self_comparison_total m skill Hwf).
    destruct (weights_for_cases m skill)
      as [[Hnone _] | [table [Hget [E [_ Hsum]]]]]; [congruence |].
    rewrite E.
    rewrite <- (map_map fst (fun k => get_default table k (1 # 10))).
    change (map fst m) with (keys m). rewrite Hkeys.
    unfold get_default at 2. rewrite Hget.
    rewrite table_total; [exact Hsum |].
    pose proof (skill_tables_wf skill) as Ht.
    unfold get_default in Ht. now rewrite Hget in Ht.
  - intros Hnone.
    assert (Hm : m = []).
    { unfold get_default in Hkeys. rewrite Hnone in Hkeys.
      destruct m; [reflexivity | discriminate]. }
    split; [exact Hm |]. rewrite Hm. reflexivity.
Qed.

(** *** The breakdown *)

(** X6: for a user vector with distinct metric names, the breakdown has
    exactly the user's metric names in the user's order; every entry
    holds the user's value, the expert's value or 0.5 when the expert
    lacks the metric, similarity 1 - |user - expert|, the gap expert -
    user and the product of similarity and weight; and the overall
    similarity is the sum of the entries' weighted scores. *)
Theorem breakdown_accounts_for_overall :
  forall (user_metrics expert_pattern : metrics) (skill : string),
    dict_wf user_metrics ->
    let result := compare_to_expert user_metrics expert_pattern skill in
    let breakdown := metric_breakdown (snd result) in
    keys breakdown = keys user_metrics
    /\ Forall (fun item =>
                 let c := snd item in
                 get user_metrics (fst item) = Some (user_value c)
                 /\ expert_value c
                    = get_default expert_pattern (fst item) (1 # 2)
                 /\ similarity c = 1 - Qabs (user_value c - expert_value c)
                 /\ gap c = expert_value c - user_value c
                 /\ weighted_score c = similarity c * weight c)
              breakdown
    /\ fst result
       == total (map (fun item => weighted_score (snd item)) breakdown)
    /\ overall_similarity (snd result) = fst result.
Proof.
  intros user_metrics expert_pattern skill Hwf result breakdown.
  destruct (compare_breakdown user_metrics expert_pattern skill Hwf)
    as [E _]. fold result in E. fold breakdown in E.
  split; [| split; [| split]].
  - rewrite E. unfold keys. rewrite map_map. reflexivity.
  - rewrite E. apply Forall_forall. intros item Hin.
    apply in_map_iff in Hin. destruct Hin as [[k u] [<- Hin]]. simpl.
    repeat split. now apply get_In.
  - rewrite E, map_map. unfold result. rewrite compare_overall.
    apply total_map_ext. intros item _. reflexivity.
  - unfold result, compare_to_expert.
    destruct (fold_left _ user_metrics _). reflexivity.
Qed.

Lemma breakdown_accounts_for_overall_witness :
  dict_wf scenario_user
  /\ keys (metric_breakdown
             (snd (compare_to_expert scenario_user scenario_expert
                     "Public Speaking")))
     = keys scenario_user.
Proof.
  assert (Hwf : dict_wf scenario_user) by solve_dict_wf.
  split; [exact Hwf |].
  exact (proj1 (breakdown_accounts_for_overall
                  scenario_user scenario_expert "Public Speaking" Hwf)).
Defined.

(** *** Matches *)

Lemma In_slice_to {A} (x : A) (l : list A) (n : Z) :
  In x (slice_to l n) -> In x l.
Proof.
  unfold slice_to. destruct (0 <=? n)%Z; apply In_firstn.
Qed.

Lemma slice_to_length {A} (l : list A) (n : Z) :
  (List.length (slice_to l n) <= List.length l)%nat.
Proof.
  unfold slice_to. destruct (0 <=? n)%Z; rewrite length_firstn; lia.
Qed.

Lemma flat_map_length_le {A B} (f : A -> list B) (l : list A) :
  (forall x, (List.length (f x) <= 1)%nat) ->
  (List.length (flat_map f l) <= List.length l)%nat.
Proof.
  intros Hf. induction l as [| x l IH]; simpl; [lia |].
  rewrite length_app. specialize (Hf x). lia.
Qed.

(** X7: every match returned for any bound (also a negative one) stems
    from a pattern of the requested skill type whose expert row exists:
    it carries that expert's identity, the pattern's confidence and the
    comparison of the user's metrics with that pattern; there are never
    more matches than patterns of the skill type, so an empty corpus
    gives an empty list. *)
Theorem best_matches_come_from_the_corpus :
  forall (db : Database.t) (user_metrics : metrics) (skill : string)
         (top_n : Z),
    let matches := find_best_expert_matches db user_metrics skill top_n in
    (forall m, In m matches ->
       exists pattern expert,
         In pattern (Database.expert_patterns db)
         /\ ExpertPattern.skill_type pattern = skill
         /\ In expert (Database.experts db)
         /\ Expert.id expert = ExpertPattern.expert_id pattern
         /\ Match.expert_id m = Expert.id expert
         /\ Match.expert_name m = Expert.name expert
         /\ Match.pattern_confidence m
            = ExpertPattern.confidence_score pattern
         /\ Match.similarity_score m
            = fst (compare_to_expert user_metrics
                     (ExpertPattern.pattern_data pattern) skill)
         /\ Match.comparison_data m
            = snd (compare_to_expert user_metrics
                     (ExpertPattern.pattern_data pattern) skill))
    /\ (List.length matches
        <= List.length (Database.patterns_of_skill db skill))%nat.
Proof.
  intros db user_metrics skill top_n matches. split.
  - intros m Hm. unfold matches, find_best_expert_matches in Hm.
    apply In_slice_to, sorted_desc_In in Hm.
    unfold candidate_matches in Hm. apply in_flat_map in Hm.
    destruct Hm as [pattern [Hp Hm]].
    unfold Database.patterns_of_skill in Hp. apply filter_In in Hp.
    destruct Hp as [Hp Hskill]. apply String.eqb_eq in Hskill.
    unfold Database.expert_by_id in Hm.
    destruct (find (fun e => (Expert.id e =? ExpertPattern.expert_id pattern)%Z)
                   (Database.experts db)) as [expert |] eqn:Efind;
      [| contradiction].
    apply find_some in Efind. destruct Efind as [Hexp Hid].
    apply Z.eqb_eq in Hid.
    destruct (compare_to_expert user_metrics
                (ExpertPattern.pattern_data pattern) skill)
      as [score data] eqn:Ecmp.
    destruct Hm as [<- | []].
    exists pattern, expert. simpl. rewrite Ecmp. repeat split; auto.
  - unfold matches, find_best_expert_matches.
    etransitivity; [apply slice_to_length |].
    rewrite sorted_desc_length. unfold candidate_matches.
    apply flat_map_length_le. intros pattern.
    destruct (Database.expert_by_id db (ExpertPattern.expert_id pattern));
      [| simpl; lia].
    destruct (compare_to_expert user_metrics
                (ExpertPattern.pattern_data pattern) skill). simpl. lia.
Qed.

(** *** Feedback *)

Lemma feedback_counts (expert_name : string)
    (breakdown : dict string MetricComparison) :
  (List.length (flat_map strengths_of breakdown)
   + List.length (flat_map areas_of breakdown)
   <= List.length breakdown)%nat
  /\ (List.length (flat_map (recommendations_of expert_name) breakdown)
      <= List.length (flat_map areas_of breakdown))%nat.
Proof.
  induction breakdown as [| item breakdown [IH1 IH2]]; simpl; [lia |].
  rewrite !length_app.
  set (ns := List.length (flat_map strengths_of breakdown)) in *.
  set (na := List.length (flat_map areas_of breakdown)) in *.
  set (nr := List.length
               (flat_map (recommendations_of expert_name) breakdown)) in *.
  unfold strengths_of, areas_of, recommendations_of.
  destruct (Qgtb (similarity (snd item)) (8 # 10)); simpl; [lia |].
  destruct (Qgtb (gap (snd item)) (2 # 10)); simpl; [| lia].
  destruct (_get_specific_recommendation (fst item) (gap (snd item))
              expert_name); simpl; lia.
Qed.

(** X8: feedback never holds more entries than the breakdown has metrics
    (strengths and improvement areas together), never more specific
    recommendations than improvement areas, and every specific
    recommendation is for a metric that is listed as an improvement area
    and has an entry in the static lookup. *)
Theorem recommendations_only_for_improvement_areas :
  forall (comparison_data : ComparisonData) (expert_info : ExpertInfo),
    let fb := generate_expert_feedback comparison_data expert_info in
    (List.length (Feedback.strengths fb)
     + List.length (Feedback.improvement_areas fb)
     <= List.length (metric_breakdown comparison_data))%nat
    /\ (List.length (Feedback.specific_recommendations fb)
        <= List.length (Feedback.improvement_areas fb))%nat
    /\ forall r, In r (Feedback.specific_recommendations fb) ->
         is_improvement_area fb (Recommendation.metric r)
         /\ contains (recommendations (expert_name expert_info))
                     (Recommendation.metric r) = true.
Proof.
  intros comparison_data expert_info fb.
  destruct (feedback_lists comparison_data expert_info) as [Hs [Ha Hr]].
  fold fb in Hs, Ha, Hr. rewrite Hs, Ha, Hr.
  destruct (feedback_counts (expert_name expert_info)
              (metric_breakdown comparison_data)) as [H1 H2].
  split; [exact H1 |]. split; [exact H2 |].
  intros r Hin. apply in_flat_map in Hin. destruct Hin as [item [Hitem Hin]].
  unfold recommendations_of in Hin.
  destruct (Qgtb (similarity (snd item)) (8 # 10)) eqn:E; [contradiction |].
  destruct (Qgtb (gap (snd item)) (2 # 10)) eqn:E'; [| contradiction].
  destruct (_get_specific_recommendation (fst item) (gap (snd item))
              (expert_name expert_info)) as [r' |] eqn:Er; [| contradiction].
  destruct Hin as [<- | []].
  rewrite (specific_recommendation_metric _ _ _ _ Er). split.
  - eexists. split.
    + rewrite Ha. apply in_flat_map. exists item. split; [exact Hitem |].
      unfold areas_of. rewrite E, E'. left. reflexivity.
    + reflexivity.
  - apply (specific_recommendation_some (fst item)
             (expert_name expert_info) (gap (snd item))). eauto.
Qed.

Lemma breakdown_keys_and_similarity (m : metrics) (skill : string) :
  dict_wf m ->
  keys (metric_breakdown (snd (compare_to_expert m m skill))) = keys m
  /\ forall item,
       In item (metric_breakdown (snd (compare_to_expert m m skill))) ->
       Qgtb (similarity (snd item)) (8 # 10) = true.
Proof.
  intros Hwf. destruct (compare_breakdown m m skill Hwf) as [E _].
  rewrite E. split.
  - unfold keys. rewrite map_map. reflexivity.
  - intros item Hin. apply in_map_iff in Hin.
    destruct Hin as [[k u] [<- Hin]].
    unfold entry_of. cbn [fst snd similarity].
    assert (Eu : get_default m k (1 # 2) = u)
      by (unfold get_default; now rewrite (get_In m k u Hwf Hin)).
    rewrite Eu. apply Qgtb_gt. rewrite (Qabs_self u). lra.
Qed.

Lemma all_strengths (expert_name : string)
    (breakdown : dict string MetricComparison) :
  (forall item, In item breakdown ->
     Qgtb (similarity (snd item)) (8 # 10) = true) ->
  map Strength.metric (flat_map strengths_of breakdown) = keys breakdown
  /\ flat_map areas_of breakdown = []
  /\ flat_map (recommendations_of expert_name) breakdown = [].
Proof.
  induction breakdown as [| item breakdown IH]; intros Hall;
    [repeat split |].
  destruct (IH (fun i Hi => Hall i (or_intror Hi))) as [IHs [IHa IHr]].
  specialize (Hall item (or_introl eq_refl)).
  cbn [flat_map]. rewrite IHa, IHr, map_app, IHs.
  unfold strengths_of, areas_of, recommendations_of. rewrite Hall.
  repeat split.
Qed.

(** X9: feedback on a metric vector compared with itself: every metric is
    a strength, in the vector's order, and there is no improvement area
    and no specific recommendation. *)
Theorem self_comparison_feedback_is_all_strengths :
  forall (m : metrics) (skill : string) (expert_info : ExpertInfo),
    dict_wf m ->
    let fb :=
      generate_expert_feedback (snd (compare_to_expert m m skill))
                               expert_info in
    map Strength.metric (Feedback.strengths fb) = keys m
    /\ Feedback.improvement_areas fb = []
    /\ Feedback.specific_recommendations fb = [].
Proof.
  intros m skill expert_info Hwf fb.
  destruct (feedback_lists (snd (compare_to_expert m m skill)) expert_info)
    as [Hs [Ha Hr]]. fold fb in Hs, Ha, Hr.
  destruct (breakdown_keys_and_similarity m skill Hwf) as [Hkeys Hall].
  destruct (all_strengths (expert_name expert_info) _ Hall)
    as [Es [Ea Er]].
  rewrite Hs, Ha, Hr, Es, Ea, Er, Hkeys. repeat split.
Qed.

Lemma self_comparison_feedback_is_all_strengths_witness :
  dict_wf scenario_user
  /\ Feedback.improvement_areas
       (generate_expert_feedback
          (snd (compare_to_expert scenario_user scenario_user
                  "Public Speaking"))
          {| expert_name := "Ada"; expert_domain := "Music" |}) = [].
Proof.
  assert (Hwf : dict_wf scenario_user) by solve_dict_wf.
  split; [exact Hwf |].
  exact (proj1 (proj2 (self_comparison_feedback_is_all_strengths
                         scenario_user "Public Speaking"
                         {| expert_name := "Ada"; expert_domain := "Music" |}
                         Hwf))).
Defined.

End PatternComparatorMore.

(** ** The real-time classifier, continued *)

(** The four performance levels, from worst to best. *)
Definition level_rank (level : string) : nat :=
  if String.eqb level "excellent" then 3
  else if String.eqb level "good" then 2
  else if String.eqb level "fair" then 1
  else 0.

Section RealTimeMore.
Import Py RealTimeAnalysisEngine.
#[local] Open Scope list_scope.

(** *** Rounding is monotone *)

Lemma round_half_even_floor (x : Q) :
  (Qfloor x <= round_half_even x <= Qfloor x + 1)%Z.
Proof.
  unfold round_half_even.
  destruct (Qcompare (x - inject_Z (Qfloor x)) (1 # 2));
    [destruct (Z.even (Qfloor x)) | |]; lia.
Qed.

Lemma round_half_even_mono (x y : Q) :
  x <= y -> (round_half_even x <= round_half_even y)%Z.
Proof.
  intros Hxy.
  pose proof (Qfloor_resp_le x y Hxy) as Hf.
  pose proof (round_half_even_floor x) as Hx.
  pose proof (round_half_even_floor y) as Hy.
  destruct (Z.eq_dec (Qfloor x) (Qfloor y)) as [E | Hne]; [| lia].
  unfold round_half_even. rewrite <- E.
  destruct (Qcompare (x - inject_Z (Qfloor x)) (1 # 2)) eqn:Ex;
    destruct (Qcompare (y - inject_Z (Qfloor x)) (1 # 2)) eqn:Ey;
    try (destruct (Z.even (Qfloor x))); try lia;
    repeat match goal with
      | H : (_ ?= _) = Eq |- _ => apply Qeq_alt in H
      | H : (_ ?= _) = Lt |- _ => apply Qlt_alt in H
      | H : (_ ?= _) = Gt |- _ => apply Qgt_alt in H
      end;
    exfalso; lra.
Qed.

Lemma pow10_pos (n : nat) : 0 < inject_Z (10 ^ Z.of_nat n).
Proof.
  change 0 with (inject_Z 0). rewrite <- Zlt_Qlt.
  apply Z.pow_pos_nonneg; lia.
Qed.

Lemma round_mono (x y : Q) (n : nat) : x <= y -> round x n <= round y n.
Proof.
  intros Hxy. unfold round.
  pose proof (pow10_pos n) as Hp.
  set (p := inject_Z (10 ^ Z.of_nat n)) in *.
  assert (Hm : x * p <= y * p) by (apply Qmult_le_compat_r; lra).
  apply round_half_even_mono in Hm. rewrite Zle_Qle in Hm.
  unfold Qdiv. apply Qmult_le_compat_r; [exact Hm |].
  apply Qinv_le_0_compat. lra.
Qed.

Lemma round_zero (n : nat) : round 0 n == 0.
Proof.
  unfold round. change (0 * inject_Z (10 ^ Z.of_nat n)) with 0.
  change (round_half_even 0) with 0%Z. unfold Qdiv.
  change (inject_Z 0) with 0. lra.
Qed.

Lemma round_nonneg (x : Q) (n : nat) : 0 <= x -> 0 <= round x n.
Proof.
  intros H. rewrite <- (round_zero n). now apply round_mono.
Qed.

(** *** Performance levels *)

(** X10: a higher value never gets a lower performance level, and the
    level is "excellent" exactly from the optimum (90 when the threshold
    has none) upwards. *)
Theorem performance_level_monotone :
  forall (threshold : Threshold.t) (v1 v2 : Q),
    v1 <= v2 ->
    (level_rank (_get_performance_level v1 threshold)
     <= level_rank (_get_performance_level v2 threshold))%nat
    /\ (_get_performance_level v1 threshold = "excellent"
        <-> match Threshold.optimal threshold with
            | Some o => o
            | None => 90
            end <= v1).
Proof.
  intros threshold v1 v2 Hv. unfold _get_performance_level, Qgeb.
  set (optimal := match Threshold.optimal threshold with
                  | Some o => o
                  | None => 90
                  end).
  set (minimum := match Threshold.min threshold with
                  | Some m => m
                  | None => 50
                  end).
  split.
  - destruct (Qle_bool optimal v1) eqn:A1.
    + apply Qle_bool_iff in A1.
      assert (A2 : Qle_bool optimal v2 = true)
        by (apply Qle_bool_iff; lra).
      rewrite A2. apply Nat.le_refl.
    + destruct (Qle_bool optimal v2); [
        destruct (Qle_bool (optimal * (9 # 10)) v1);
        [| destruct (Qle_bool minimum v1)]; cbv; lia |].
      destruct (Qle_bool (optimal * (9 # 10)) v1) eqn:B1.
      * apply Qle_bool_iff in B1.
        assert (B2 : Qle_bool (optimal * (9 # 10)) v2 = true)
          by (apply Qle_bool_iff; lra).
        rewrite B2. apply Nat.le_refl.
      * destruct (Qle_bool (optimal * (9 # 10)) v2);
          [destruct (Qle_bool minimum v1); cbv; lia |].
        destruct (Qle_bool minimum v1) eqn:C1; [| cbv; lia].
        apply Qle_bool_iff in C1.
        assert (C2 : Qle_bool minimum v2 = true)
          by (apply Qle_bool_iff; lra).
        rewrite C2. apply Nat.le_refl.
  - destruct (Qle_bool optimal v1) eqn:A1.
    + apply Qle_bool_iff in A1. tauto.
    + split.
      * destruct (Qle_bool (optimal * (9 # 10)) v1);
          [discriminate | destruct (Qle_bool minimum v1); discriminate].
      * intros H. apply Qle_bool_iff in H. congruence.
Qed.

Lemma performance_level_monotone_witness :
  80 <= 85
  /\ (level_rank (_get_performance_level 80 (Threshold.band 70 90))
      <= level_rank (_get_performance_level 85 (Threshold.band 70 90)))%nat.
Proof.
  assert (H : 80 <= 85) by discriminate.
  split; [exact H |].
  exact (proj1 (performance_level_monotone (Threshold.band 70 90) 80 85 H)).
Defined.

(** *** The metrics built from an analysis result *)

Lemma performance_level_labels (v : Q) (threshold : Threshold.t) :
  In (_get_performance_level v threshold)
     ["excellent"; "good"; "fair"; "needs_improvement"].
Proof.
  unfold _get_performance_level.
  repeat match goal with
    | |- context [if ?c then _ else _] => destruct c
    end; simpl; tauto.
Qed.

Lemma performance_metrics_source (analysis_results : dict string data)
    (skill : string) (m : Metric.t) :
  In m (_calculate_performance_metrics analysis_results skill) <->
  exists category d name v,
    In (category, Dict d) analysis_results
    /\ In (name, Number v) d
    /\ m = performance_metric (get_default skill_thresholds skill [])
             category name v.
Proof.
  unfold _calculate_performance_metrics. rewrite in_flat_map. split.
  - intros [[category dt] [Hc Hm]]. simpl in Hm.
    destruct dt as [d |]; [| contradiction].
    apply in_flat_map in Hm. destruct Hm as [[name val] [Hd Hm]].
    simpl in Hm. destruct val as [v |]; [| contradiction].
    destruct Hm as [<- | []]. exists category, d, name, v. auto.
  - intros [category [d [name [v [Hc [Hd ->]]]]]].
    exists (category, Dict d). split; [exact Hc |]. simpl.
    apply in_flat_map. exists (name, Number v). split; [exact Hd |].
    simpl. now left.
Qed.

(** X11: [_calculate_performance_metrics] yields a metric for every
    numeric entry of a dict category and for nothing else; each metric
    has a target, which is the configured optimum when the threshold
    names one, a performance level among the four labels, and an
    improvement delta that is never negative and is 0 when the value
    reaches the target. *)
Theorem performance_metrics_well_formed :
  forall (analysis_results : dict string data) (skill : string),
    let metrics := _calculate_performance_metrics analysis_results skill in
    (forall m, In m metrics ->
       exists category d name v target delta level,
         In (category, Dict d) analysis_results
         /\ In (name, Number v) d
         /\ Metric.metric_name m = name
         /\ Metric.category m = category
         /\ Metric.unit m = _get_metric_unit name
         /\ Metric.value m = round v 2
         /\ Metric.target_value m = Some target
         /\ Metric.improvement_delta m = Some delta
         /\ Metric.performance_level m = Some level
         /\ (forall o,
               Threshold.optimal
                 (get_default (get_default skill_thresholds skill [])
                              name Threshold.empty) = Some o ->
               target = o)
         /\ level
            = _get_performance_level v
                (get_default (get_default skill_thresholds skill [])
                             name Threshold.empty)
         /\ In level ["excellent"; "good"; "fair"; "needs_improvement"]
         /\ 0 <= delta
         /\ (target <= v -> delta == 0))
    /\ (forall category d name v,
          In (category, Dict d) analysis_results ->
          In (name, Number v) d ->
          exists m, In m metrics
            /\ Metric.metric_name m = name
            /\ Metric.category m = category
            /\ Metric.value m = round v 2).
Proof.
  intros analysis_results skill metrics. split.
  - intros m Hm. apply performance_metrics_source in Hm.
    destruct Hm as [category [d [name [v [Hc [Hd ->]]]]]].
    unfold performance_metric.
    set (threshold := get_default (get_default skill_thresholds skill [])
                                  name Threshold.empty).
    set (target := match Threshold.optimal threshold with
                   | Some o => o
                   | None => v * (12 # 10)
                   end).
    exists category, d, name, v, target,
      (round (if Qltb v target then target - v else 0) 2),
      (_get_performance_level v threshold).
    cbn [Metric.metric_name Metric.category Metric.unit Metric.value
         Metric.target_value Metric.improvement_delta
         Metric.performance_level].
    do 9 (split; [solve [auto] |]).
    split; [intros o Ho; unfold target, threshold; now rewrite Ho |].
    split; [reflexivity |].
    split; [apply performance_level_labels |].
    destruct (Qltb v target) eqn:E.
    + apply Qltb_lt in E. split; [apply round_nonneg; lra |].
      intros H; lra.
    + apply Qltb_ge in E. split; [apply round_nonneg; lra |].
      intros _; apply round_zero.
  - intros category d name v Hc Hd.
    exists (performance_metric (get_default skill_thresholds skill [])
              category name v).
    split; [| repeat split].
    apply performance_metrics_source. exists category, d, name, v. auto.
Qed.

(** *** Order of the suggestions *)

Lemma StronglySorted_app {A} (R : A -> A -> Prop) (l1 l2 : list A) :
  StronglySorted R l1 -> StronglySorted R l2 ->
  (forall a b, In a l1 -> In b l2 -> R a b) ->
  StronglySorted R (l1 ++ l2).
Proof.
  induction 1 as [| x l1 Hs IH Hx]; intros H2 Hcross; simpl; [exact H2 |].
  constructor.
  - apply IH; [exact H2 |]. intros a b Ha Hb. apply Hcross; [now right | exact Hb].
  - apply Forall_app. split; [exact Hx |].
    apply Forall_forall. intros b Hb. apply Hcross; [now left | exact Hb].
Qed.

Lemma StronglySorted_same_key {A} (k : A -> Q) (c : Q) (l : list A) :
  (forall y, In y l -> k y = c) -> StronglySorted (desc k) l.
Proof.
  induction l as [| x l IH]; intros H; constructor.
  - apply IH. intros y Hy. apply H. now right.
  - apply Forall_forall. intros y Hy. unfold desc.
    rewrite (H x (or_introl eq_refl)), (H y (or_intror Hy)). lra.
Qed.

Lemma StronglySorted_flat_map {A B} (ka : A -> Q) (kb : B -> Q)
    (f : A -> list B) (l : list A) :
  (forall x y, In y (f x) -> kb y = ka x) ->
  StronglySorted (desc ka) l ->
  StronglySorted (desc kb) (flat_map f l).
Proof.
  intros Hkey. induction 1 as [| x l Hs IH Hx]; simpl; [constructor |].
  apply StronglySorted_app; [| exact IH |].
  - apply (StronglySorted_same_key kb (ka x)). intros y Hy. now apply Hkey.
  - intros a b Ha Hb. apply in_flat_map in Hb. destruct Hb as [x' [Hx' Hb]].
    rewrite Forall_forall in Hx. specialize (Hx x' Hx').
    unfold desc in *. now rewrite (Hkey x a Ha), (Hkey x' b Hb).
Qed.

Lemma StronglySorted_desc_transfer {A} (k k' : A -> Q) (l : list A) :
  (forall a b, In a l -> In b l -> k b <= k a -> k' b <= k' a) ->
  StronglySorted (desc k) l -> StronglySorted (desc k') l.
Proof.
  intros Hmono Hs. induction Hs as [| x l Hs IH Hx]; constructor.
  - apply IH. intros a b Ha Hb. apply Hmono; now right.
  - rewrite Forall_forall in Hx |- *. intros y Hy.
    apply Hmono; [now left | now right | now apply Hx].
Qed.

Lemma confidence_monotone (m1 m2 : Metric.t) :
  delta_of m1 <= delta_of m2 ->
  _calculate_confidence_score m1 <= _calculate_confidence_score m2.
Proof.
  intros H. unfold _calculate_confidence_score.
  repeat match goal with
    | |- context [Qgtb ?a ?b] =>
        let E := fresh "E" in
        destruct (Qgtb a b) eqn:E;
        [apply Qgtb_gt in E | apply Qgtb_le in E]
    end; try discriminate; exfalso; lra.
Qed.

Lemma suggest_step_fields (m : Metric.t) (s : Suggestion.t) :
  In s (suggest_step [] m) ->
  Suggestion.metric_impact s = delta_of m
  /\ Suggestion.confidence_score s = _calculate_confidence_score m
  /\ Suggestion.priority s = _determine_priority m
  /\ Content.current_value (Suggestion.content s) = Metric.value m.
Proof.
  unfold suggest_step.
  destruct (get_default suggestion_templates (Metric.metric_name m) [])
    as [| t ts]; [intros [] |].
  destruct (Qgtb (delta_of m) 0); [| intros []].
  intros [<- | []]. simpl. repeat split.
Qed.

(** X12: the suggestions of one pass stand in order of descending impact
    (the improvement delta), and their confidence scores never increase
    along the list. *)
Theorem suggestions_ordered_by_impact :
  forall (metrics : list Metric.t) (skill : string),
    let suggestions := _generate_improvement_suggestions metrics skill in
    StronglySorted (desc Suggestion.metric_impact) suggestions
    /\ StronglySorted (desc Suggestion.confidence_score) suggestions.
Proof.
  intros metrics skill suggestions.
  assert (E : suggestions
              = flat_map (suggest_step [])
                  (slice_to (sorted_desc delta_of metrics) 5)).
  { unfold suggestions, _generate_improvement_suggestions.
    now rewrite fold_suggest_step. }
  assert (Himpact : StronglySorted (desc Suggestion.metric_impact)
                      suggestions).
  { rewrite E. apply (StronglySorted_flat_map delta_of).
    - intros m s Hs. now apply suggest_step_fields in Hs.
    - rewrite slice_to_nonneg by lia.
      apply StronglySorted_firstn, sorted_desc_sorted. }
  split; [exact Himpact |].
  apply (StronglySorted_desc_transfer Suggestion.metric_impact);
    [| exact Himpact].
  intros a b Ha Hb Hle. rewrite E in Ha, Hb.
  apply in_flat_map in Ha, Hb.
  destruct Ha as [ma [_ Ha]], Hb as [mb [_ Hb]].
  apply suggest_step_fields in Ha, Hb.
  destruct Ha as [Ia [Ca _]], Hb as [Ib [Cb _]].
  rewrite Ca, Cb. apply confidence_monotone. now rewrite <- Ia, <- Ib.
Qed.

(** *** The overall score as a weighted mean *)

Lemma metric_weight_positive (metric_name skill : string) :
  0 < _get_metric_weight metric_name skill.
Proof.
  unfold _get_metric_weight, weights, get_default. simpl.
  repeat (destruct (String.eqb skill _); simpl;
          [repeat (destruct (String.eqb metric_name _); [reflexivity |]);
           reflexivity |]).
  reflexivity.
Qed.

Lemma score_fold_bounds (skill : string) (lo hi : Q)
    (metrics : list Metric.t) (a b : Q) :
  hi <= 100 ->
  Forall (fun m => lo <= Metric.value m /\ Metric.value m <= hi) metrics ->
  lo * b <= a -> a <= hi * b ->
  let r := fold_left (score_step skill) metrics (a, b) in
  lo * snd r <= fst r /\ fst r <= hi * snd r
  /\ b <= snd r /\ (metrics <> [] -> b < snd r).
Proof.
  intros Hhi Hall. revert a b.
  induction Hall as [| m metrics [Hlo Hup] _ IH]; intros a b Ha Hb; simpl.
  - repeat split; try assumption; [lra | congruence].
  - pose proof (metric_weight_positive (Metric.metric_name m) skill) as Hw.
    set (w := _get_metric_weight (Metric.metric_name m) skill) in *.
    assert (Hgt : Qgtb (Metric.value m) 100 = false)
      by (apply Qgtb_le; lra).
    rewrite Hgt.
    assert (H1 : lo * w <= Metric.value m * w)
      by (apply Qmult_le_compat_r; lra).
    assert (H2 : Metric.value m * w <= hi * w)
      by (apply Qmult_le_compat_r; lra).
    destruct (IH (a + Metric.value m * w) (b + w)) as [R1 [R2 [R3 _]]];
      [lra | lra |].
    repeat split; try assumption; lra.
Qed.

(** *** Metrics and suggestions together *)

(** X14: in the pipeline from an analysis result to suggestions, every
    suggestion is for a numeric entry whose value lies strictly below the
    target it names, which is the configured optimum when the threshold
    names one; it carries that entry's rounded value and a positive
    impact.  A metric that has reached its target is never suggested. *)
Theorem suggestions_only_below_target :
  forall (analysis_results : dict string data) (skill : string)
         (s : Suggestion.t),
    In s (_generate_improvement_suggestions
            (_calculate_performance_metrics analysis_results skill) skill) ->
    exists category d name v target,
      In (category, Dict d) analysis_results
      /\ In (name, Number v) d
      /\ Suggestion.suggestion_type s = name
      /\ (forall o,
            Threshold.optimal
              (get_default (get_default skill_thresholds skill [])
                           name Threshold.empty) = Some o ->
            target = o)
      /\ v < target
      /\ Content.current_value (Suggestion.content s) = round v 2
      /\ Content.target_value (Suggestion.content s) = target
      /\ 0 < Suggestion.metric_impact s.
Proof.
  intros analysis_results skill s Hs.
  unfold _generate_improvement_suggestions in Hs.
  rewrite fold_suggest_step in Hs. simpl in Hs.
  apply in_flat_map in Hs. destruct Hs as [m [Hm Hs]].
  apply In_slice_to, sorted_desc_In in Hm.
  apply performance_metrics_source in Hm.
  destruct Hm as [category [d [name [v [Hc [Hd ->]]]]]].
  set (thresholds := get_default skill_thresholds skill []) in *.
  set (target := match Threshold.optimal
                         (get_default thresholds name Threshold.empty) with
                 | Some o => o
                 | None => v * (12 # 10)
                 end).
  exists category, d, name, v, target.
  split; [exact Hc |]. split; [exact Hd |].
  unfold suggest_step in Hs.
  destruct (get_default suggestion_templates
              (Metric.metric_name
                 (performance_metric thresholds category name v)) [])
    as [| t ts]; [contradiction |].
  destruct (Qgtb (delta_of (performance_metric thresholds category name v))
                 0) eqn:E; [| contradiction].
  destruct Hs as [<- | []].
  apply Qgtb_gt in E. unfold delta_of, performance_metric in E |- *.
  cbn [Metric.improvement_delta Metric.metric_name Metric.value
       Metric.target_value Suggestion.suggestion_type Suggestion.content
       Suggestion.metric_impact Content.current_value Content.target_value]
    in E |- *.
  fold target in E |- *.
  split; [reflexivity |].
  split; [intros o Ho; unfold target; now rewrite Ho |].
  destruct (Qltb v target) eqn:Ev.
  - apply Qltb_lt in Ev. repeat split; assumption.
  - exfalso. rewrite (round_zero 2) in E. lra.
Qed.

Lemma suggestions_only_below_target_witness :
  let analysis_results := [("movement", Dict [("eye_contact", Number 70)])] in
  exists s,
    In s (_generate_improvement_suggestions
            (_calculate_performance_metrics analysis_results "Public Speaking")
            "Public Speaking")
    /\ exists v target,
         v < target
         /\ Content.current_value (Suggestion.content s) = round v 2
         /\ Content.target_value (Suggestion.content s) = target.
Proof.
  intros analysis_results.
  destruct (_generate_improvement_suggestions
              (_calculate_performance_metrics analysis_results
                 "Public Speaking") "Public Speaking")
    as [| s rest] eqn:E; [vm_compute in E; discriminate |].
  assert (Hs : In s (_generate_improvement_suggestions
                       (_calculate_performance_metrics analysis_results
                          "Public Speaking") "Public Speaking"))
    by (rewrite E; left; reflexivity).
  exists s. split; [left; reflexivity |].
  destruct (suggestions_only_below_target
              analysis_results "Public Speaking" s Hs)
    as [category [d [name [v [target [_ [_ [_ [_ [Hlt [Hc [Ht _]]]]]]]]]]]].
  exists v, target. auto.
Defined.

End RealTimeMore.

(** ** The recommender, continued *)

Section RecommenderMore.
Import Py ExpertRecommendationEngine.
#[local] Open Scope list_scope.

(** *** The weakness-targeted strategy *)

(** X15: when no user metric is below 0.6 the weakness-targeted strategy
    nominates nobody and leaves every expert dict as it was. *)
Theorem improvement_focused_needs_a_weak_metric :
  forall (experts : list ref) (user_metrics : metrics) (h : heap),
    Forall (fun kv => 6 # 10 <= snd kv) user_metrics ->
    _find_improvement_focused_experts experts user_metrics h = Ok ([], h).
Proof.
  intros experts user_metrics h Hall.
  unfold _find_improvement_focused_experts.
  assert (E : filter (fun kv : string * Q => Qltb (snd kv) (6 # 10))
                     user_metrics = []).
  { induction Hall as [| kv l Hkv _ IH]; simpl; [reflexivity |].
    apply Qltb_ge in Hkv. now rewrite Hkv. }
  rewrite E. reflexivity.
Qed.

Lemma improvement_focused_needs_a_weak_metric_witness :
  Forall (fun kv => 6 # 10 <= snd kv) [("eye_contact", 7 # 10)]
  /\ _find_improvement_focused_experts [0%nat] [("eye_contact", 7 # 10)]
       [candidate 1 "Ada" [("eye_contact", 9 # 10)]]
     = Ok ([], [candidate 1 "Ada" [("eye_contact", 9 # 10)]]).
Proof.
  assert (H : Forall (fun kv : string * Q => 6 # 10 <= snd kv)
                     [("eye_contact", 7 # 10)])
    by (repeat constructor; discriminate).
  split; [exact H |].
  exact (improvement_focused_needs_a_weak_metric _ _ _ H).
Defined.

(** *** Learning paths of metric vectors in [0, 1] *)

Lemma int_bounds (x : Q) (n : Z) :
  0 <= x -> x <= inject_Z n -> (0 <= int x <= n)%Z.
Proof.
  intros H0 Hn. unfold int. destruct x as [num den]. cbn [Qnum Qden].
  assert (Hnum : (0 <= num)%Z).
  { unfold Qle in H0. simpl in H0. lia. }
  rewrite Z.quot_div_nonneg by lia.
  change (num / Z.pos den)%Z with (Qfloor (num # den)).
  split.
  - change 0%Z with (Qfloor 0). now apply Qfloor_resp_le.
  - rewrite <- (Qfloor_Z n). now apply Qfloor_resp_le.
Qed.

Lemma get_Some_In {V} (d : dict string V) (k : string) (v : V) :
  get d k = Some v -> In (k, v) d.
Proof.
  induction d as [| [k0 v0] d IH]; simpl; [discriminate |].
  destruct (String.eqb_spec k k0) as [-> | _].
  - intros E. injection E as ->. now left.
  - intros E. right. now apply IH.
Qed.

Lemma fold_right_Zadd_bounds (l : list Z) (lo hi : Z) :
  Forall (fun z => lo <= z <= hi)%Z l ->
  (lo * Z.of_nat (List.length l) <= fold_right Z.add 0 l
   <= hi * Z.of_nat (List.length l))%Z.
Proof.
  induction 1 as [| z l Hz _ IH]; simpl List.length; simpl fold_right;
    [lia |].
  rewrite Nat2Z.inj_succ. lia.
Qed.

(** X16: when the expert's pattern and the user's metrics lie in [0, 1],
    every learning step is estimated at 2 to 8 weeks, and the total lies
    between 2 weeks per step and 24 weeks. *)
Theorem learning_path_weeks_bounded :
  forall (recommendation : Rec.t) (user_metrics : metrics),
    unit_valued (Rec.pattern_data recommendation) ->
    unit_valued user_metrics ->
    let path := _generate_learning_path recommendation user_metrics in
    let steps := LearningPath.learning_steps path in
    Forall (fun st => 2 <= Step.estimated_weeks st <= 8)%Z steps
    /\ (2 * Z.of_nat (List.length steps)
        <= LearningPath.total_estimated_weeks path <= 24)%Z.
Proof.
  intros recommendation user_metrics Hexp Huser path steps.
  set (gaps := metric_gaps (Rec.pattern_data recommendation) user_metrics).
  assert (Hfor : Forall2 step_for (firstn 3 (sorted_desc Gap.gap gaps)) steps)
    by apply learning_steps_for.
  assert (Hgaps : forall g, In g (firstn 3 (sorted_desc Gap.gap gaps)) ->
                    0 <= Gap.gap g * 8 /\ Gap.gap g * 8 <= inject_Z 8).
  { intros g Hg. apply In_firstn, sorted_desc_In in Hg.
    apply metric_gaps_spec in Hg. destruct Hg as [Hin [Hget [Egap Hlt]]].
    unfold unit_valued in Hexp, Huser. rewrite Forall_forall in Hexp, Huser.
    specialize (Hexp _ Hin). apply get_Some_In in Hget.
    specialize (Huser _ Hget). simpl in Hexp, Huser.
    change (inject_Z 8) with 8. rewrite Egap in *. lra. }
  assert (Hsteps : Forall (fun st => 2 <= Step.estimated_weeks st <= 8)%Z
                          steps).
  { clear - Hfor Hgaps. induction Hfor as [| g st gs sts Hst _ IH];
      constructor.
    - destruct Hst as [_ [_ [_ [_ [_ ->]]]]].
      destruct (Hgaps g (or_introl eq_refl)) as [H0 H8].
      pose proof (int_bounds _ _ H0 H8). lia.
    - apply IH. intros g' Hg'. apply Hgaps. now right. }
  split; [exact Hsteps |].
  assert (Hlen : (List.length steps <= 3)%nat).
  { rewrite <- (Forall2_length Hfor). apply firstn_le_length. }
  assert (Etotal : LearningPath.total_estimated_weeks path
                   = fold_right Z.add 0%Z (map Step.estimated_weeks steps)).
  { unfold path, _generate_learning_path. simpl. now rewrite fold_left_Zadd. }
  rewrite Etotal.
  pose proof (fold_right_Zadd_bounds (map Step.estimated_weeks steps) 2 8)
    as Hsum.
  rewrite length_map in Hsum.
  assert (Hmap : Forall (fun z => 2 <= z <= 8)%Z
                        (map Step.estimated_weeks steps)).
  { apply Forall_forall. intros z Hz. apply in_map_iff in Hz.
    destruct Hz as [st [<- Hst]]. rewrite Forall_forall in Hsteps.
    now apply Hsteps. }
  specialize (Hsum Hmap). lia.
Qed.

Lemma learning_path_weeks_bounded_witness :
  unit_valued scenario_expert
  /\ unit_valued scenario_user
  /\ (LearningPath.total_estimated_weeks
        (_generate_learning_path (candidate 1 "Ada" scenario_expert)
                                 scenario_user) <= 24)%Z.
Proof.
  assert (He : unit_valued scenario_expert) by solve_unit_valued.
  assert (Hu : unit_valued scenario_user) by solve_unit_valued.
  split; [exact He |]. split; [exact Hu |].
  exact (proj2 (proj2 (learning_path_weeks_bounded
                         (candidate 1 "Ada" scenario_expert) scenario_user
                         He Hu))).
Defined.

(** *** Dicts with any key type *)

Lemma keqb_eq {K} `{Key K} (a b : K) : keqb a b = true <-> a = b.
Proof. destruct (keqb_spec a b); split; congruence. Qed.

Lemma get_key_None {K V} `{Key K} (d : dict K V) (k : K) :
  get d k = None -> ~ In k (keys d).
Proof.
  unfold keys. induction d as [| [k0 v0] d IH]; simpl; [tauto |].
  destruct (keqb_spec k k0) as [-> | Hne]; [discriminate |].
  intros E [E' | Hin]; [congruence | now apply IH].
Qed.

Lemma get_key_Some {K V} `{Key K} (d : dict K V) (k : K) (v : V) :
  get d k = Some v -> In (k, v) d.
Proof.
  induction d as [| [k0 v0] d IH]; simpl; [discriminate |].
  destruct (keqb_spec k k0) as [-> | Hne].
  - intros E. injection E as ->. now left.
  - intros E. right. now apply IH.
Qed.

Lemma set_keys_new {K V} `{Key K} (d : dict K V) (k : K) (v : V) :
  get d k = None -> set d k v = d ++ [(k, v)].
Proof.
  induction d as [| [k0 v0] d IH]; simpl; [reflexivity |].
  destruct (keqb k k0); [discriminate |].
  intros E. now rewrite IH.
Qed.

Lemma set_keys_old {K V} `{Key K} (d : dict K V) (k : K) (v v0 : V) :
  get d k = Some v0 -> keys (set d k v) = keys d.
Proof.
  unfold keys. induction d as [| [k1 v1] d IH]; simpl; [discriminate |].
  destruct (keqb k k1); [reflexivity |].
  intros E. simpl. now rewrite IH.
Qed.

Lemma set_In {K V} `{Key K} (d : dict K V) (k : K) (v : V) (kv : K * V) :
  In kv (set d k v) -> kv = (k, v) \/ In kv d.
Proof.
  induction d as [| [k0 v0] d IH]; simpl.
  - intros [<- | []]. now left.
  - destruct (keqb_spec k k0) as [-> | Hne]; simpl.
    + intros [<- | Hin]; [now left | right; now right].
    + intros [<- | Hin]; [right; now left |].
      destruct (IH Hin) as [-> | Hin']; [now left | right; now right].
Qed.

Lemma set_wf {K V} `{Key K} (d : dict K V) (k : K) (v : V) :
  dict_wf d -> dict_wf (set d k v).
Proof.
  unfold dict_wf. intros Hwf. destruct (get d k) as [v0 |] eqn:E.
  - now rewrite (set_keys_old d k v v0 E).
  - rewrite (set_keys_new d k v E). unfold keys. rewrite map_app. simpl.
    apply (Permutation_NoDup (Permutation_cons_append (map fst d) k)).
    constructor; [now apply get_key_None | exact Hwf].
Qed.

(** *** Positions of the store *)

Lemma nth_error_update_nth_same (h : heap) (r : ref) (e e0 : Rec.t) :
  nth_error h r = Some e0 -> nth_error (update_nth h r e) r = Some e.
Proof.
  revert r. induction h as [| x h IH]; intros [| r]; simpl; try discriminate.
  - reflexivity.
  - apply IH.
Qed.

Lemma nth_error_update_nth_other (h : heap) (r r' : ref) (e : Rec.t) :
  r' <> r -> nth_error (update_nth h r e) r' = nth_error h r'.
Proof.
  revert r r'. induction h as [| x h IH]; intros [| r] [| r'] Hne; simpl;
    try reflexivity; try congruence.
  apply IH. congruence.
Qed.

Lemma map_update_nth {B} (g : Rec.t -> B) (h : heap) (r : ref)
    (e e0 : Rec.t) :
  nth_error h r = Some e0 -> g e = g e0 ->
  map g (update_nth h r e) = map g h.
Proof.
  revert r. induction h as [| x h IH]; intros [| r]; simpl; try discriminate.
  - intros E Hg. injection E as ->. now rewrite Hg.
  - intros E Hg. now rewrite (IH r E Hg).
Qed.

(** *** What the ranking leaves in the store *)

(** The keys of an expert dict that nothing writes once the ranking is
    over: identity, strategy tag, strategy weight and final score. *)
Definition core (e : Rec.t) : Z * option string * option Q * option Q :=
  (Rec.expert_id e, Rec.strategy e, Rec.strategy_weight e, Rec.final_score e).

(** [x["final_score"]], 0 standing for an absent key. *)
Definition final_or_zero (e : Rec.t) : Q :=
  match Rec.final_score e with Some f => f | None => 0 end.

(** The same readings through a reference, on the [core] view of a
    store. *)
Definition id_at (s : list (Z * option string * option Q * option Q))
    (r : ref) : Z :=
  match nth_error s r with Some (id, _, _, _) => id | None => 0%Z end.

Definition final_at (s : list (Z * option string * option Q * option Q))
    (r : ref) : Q :=
  match nth_error s r with Some (_, _, _, Some f) => f | _ => 0 end.

(** The dict behind [r] carries a strategy tag among [names], a weight and
    a final score. *)
Definition ranked_at (names : list string)
    (s : list (Z * option string * option Q * option Q)) (r : ref) : Prop :=
  exists id st w f,
    nth_error s r = Some (id, Some st, Some w, Some f) /\ In st names.

Lemma hoare_for_each_In {A S} (I : S -> heap -> Prop) (xs : list A)
    (body : S -> A -> M S) :
  (forall s x, In x xs -> hoare (I s) (body s x) I) ->
  forall s, hoare (I s) (for_each xs body s) I.
Proof.
  induction xs as [| x xs IH]; intros Hbody s; simpl.
  - now apply hoare_ret.
  - eapply hoare_bind; [apply Hbody; now left |].
    apply IH. intros s' x' Hx'. apply Hbody. now right.
Qed.

Lemma hoare_true {A} (P : heap -> Prop) (m : M A) :
  hoare P m (fun _ _ => True).
Proof. intros h _. destruct (m h) as [[a h'] | e]; exact I. Qed.

Lemma ranked_at_update (names : list string) (h : heap) (r r' : ref)
    (e0 e' : Rec.t) :
  ranked_at names (map core h) r ->
  nth_error h r' = Some e0 ->
  (exists st w f,
     core e' = (Rec.expert_id e', Some st, Some w, Some f) /\ In st names) ->
  ranked_at names (map core (update_nth h r' e')) r.
Proof.
  intros Hr E [st [w [f [Hc Hin]]]]. unfold ranked_at in *.
  rewrite nth_error_map in *.
  destruct (Nat.eq_dec r r') as [-> | Hne].
  - rewrite (nth_error_update_nth_same h r' e' e0 E). simpl.
    rewrite Hc. eauto 6.
  - rewrite (nth_error_update_nth_other h r' r e' Hne). exact Hr.
Qed.

(** The first loop of the ranking: every reference it collects is tagged
    with a strategy name of the dict it was given. *)
Lemma rank_tag_loop (recommendations : dict string (list ref)) :
  hoare (fun _ => True)
    (for_each recommendations
       (fun all_recommendations entry =>
          let '(strategy, experts) := entry in
          let weight :=
            get_default recommendation_strategies strategy (1 # 10) in
          for_each experts
            (fun all_recommendations expert =>
               e <- read expert ;;
               let score :=
                 match Rec.recommendation_score e with
                 | Some s => s
                 | None => 1 # 2
                 end in
               _ <- modify expert
                      (Rec.set_strategy strategy weight (score * weight)) ;;
               ret (all_recommendations ++ [expert]))
            all_recommendations)
       [])
    (fun all h => Forall (ranked_at (keys recommendations) (map core h)) all).
Proof.
  apply hoare_pre
    with (P := fun h => Forall (ranked_at (keys recommendations) (map core h))
                               (@nil ref));
    [intros; constructor |].
  apply (hoare_for_each_In
           (fun all h =>
              Forall (ranked_at (keys recommendations) (map core h)) all)).
  intros all [strategy experts] Hentry.
  apply (hoare_for_each
           (fun all h =>
              Forall (ranked_at (keys recommendations) (map core h)) all)).
  intros acc expert h Hall. unfold bind, read, modify, ret.
  destruct (nth_error h expert) as [e |] eqn:E; [| exact I].
  rewrite E.
  assert (Htag : exists st w f,
             core (Rec.set_strategy strategy
                     (get_default recommendation_strategies strategy (1 # 10))
                     (match Rec.recommendation_score e with
                      | Some s => s
                      | None => 1 # 2
                      end
                      * get_default recommendation_strategies strategy
                          (1 # 10)) e)
             = (Rec.expert_id
                  (Rec.set_strategy strategy
                     (get_default recommendation_strategies strategy (1 # 10))
                     (match Rec.recommendation_score e with
                      | Some s => s
                      | None => 1 # 2
                      end
                      * get_default recommendation_strategies strategy
                          (1 # 10)) e),
                Some st, Some w, Some f)
             /\ In st (keys recommendations)).
  { do 3 eexists. split; [reflexivity |].
    apply (in_map fst) in Hentry. exact Hentry. }
  apply Forall_app. split.
  - rewrite Forall_forall in Hall |- *. intros r Hr.
    eapply ranked_at_update; [now apply Hall | exact E | exact Htag].
  - constructor; [| constructor].
    destruct Htag as [st [w [f [Hc Hin]]]].
    unfold ranked_at. rewrite nth_error_map.
    rewrite (nth_error_update_nth_same h expert _ e E). simpl.
    rewrite Hc. eauto 6.
Qed.

(** The deduplication dict: one reference per expert id, each tagged. *)
Definition deduped (names : list string)
    (s : list (Z * option string * option Q * option Q))
    (unique : dict Z ref) : Prop :=
  dict_wf unique
  /\ Forall (fun kr => id_at s (snd kr) = fst kr
                       /\ ranked_at names s (snd kr)) unique.

(** What the ranking returns, on the [core] view of the store it leaves. *)
Definition rank_ok (names : list string) (n : Z)
    (s : list (Z * option string * option Q * option Q))
    (final : list ref) : Prop :=
  Forall (ranked_at names s) final
  /\ NoDup (map (id_at s) final)
  /\ StronglySorted (desc (final_at s)) final
  /\ ((0 <= n)%Z -> (List.length final <= Z.to_nat n)%nat).

Lemma hoare_from_eq {A} (P : heap -> Prop) (m : M A)
    (Q : A -> heap -> Prop) :
  (forall h1, P h1 -> hoare (eq h1) m Q) -> hoare P m Q.
Proof. intros H h Hh. exact (H h Hh h eq_refl). Qed.

Lemma hoare_eq_pure {A} (h1 : heap) (F : Prop) (m : M A)
    (Q : A -> heap -> Prop) :
  (F -> hoare (eq h1) m Q) -> hoare (fun h => h = h1 /\ F) m Q.
Proof. intros H h [-> HF]. now apply H. Qed.

Lemma id_at_core (h : heap) (r : ref) (e : Rec.t) :
  nth_error h r = Some e -> id_at (map core h) r = Rec.expert_id e.
Proof.
  intros E. unfold id_at. now rewrite nth_error_map, E.
Qed.

Lemma final_at_core (h : heap) (r : ref) (e : Rec.t) :
  nth_error h r = Some e -> final_at (map core h) r = final_or_zero e.
Proof.
  intros E. unfold final_at, final_or_zero. rewrite nth_error_map, E. simpl.
  destruct (Rec.final_score e); reflexivity.
Qed.

(** The second loop of the ranking reads only; it keeps one reference per
    expert id. *)
Lemma dedupe_loop (names : list string) (all : list ref) (h1 : heap) :
  Forall (ranked_at names (map core h1)) all ->
  hoare (eq h1)
    (for_each all
       (fun (unique_recommendations : dict Z ref) rec =>
          e <- read rec ;;
          let expert_id := Rec.expert_id e in
          match get unique_recommendations expert_id with
          | None => ret (set unique_recommendations expert_id rec)
          | Some kept =>
              new_score <- field Rec.final_score rec ;;
              kept_score <- field Rec.final_score kept ;;
              if Qgtb new_score kept_score then
                ret (set unique_recommendations expert_id rec)
              else ret unique_recommendations
          end)
       [])
    (fun unique h => h = h1 /\ deduped names (map core h1) unique).
Proof.
  intros Hall.
  apply hoare_pre
    with (P := fun h => h = h1 /\ deduped names (map core h1) []);
    [intros h <-; split; [reflexivity | split; constructor] |].
  apply (hoare_for_each_In
           (fun unique h => h = h1 /\ deduped names (map core h1) unique)).
  intros unique rec Hin h [-> [Hwf Hu]].
  assert (Hset : forall e, nth_error h1 rec = Some e ->
            deduped names (map core h1) (set unique (Rec.expert_id e) rec)).
  { intros e E. split; [now apply set_wf |].
    apply Forall_forall. intros kr Hkr. apply set_In in Hkr.
    destruct Hkr as [-> | Hkr].
    - simpl. split; [now apply id_at_core |].
      rewrite Forall_forall in Hall. now apply Hall.
    - rewrite Forall_forall in Hu. now apply Hu. }
  unfold bind at 1. unfold read at 1.
  destruct (nth_error h1 rec) as [e |] eqn:E; [| exact I].
  destruct (get unique (Rec.expert_id e)) as [kept |].
  - cbv [bind field read ret raise]. rewrite E.
    destruct (Rec.final_score e) as [new_score |]; [| exact I].
    destruct (nth_error h1 kept) as [ek |]; [| exact I].
    destruct (Rec.final_score ek) as [kept_score |]; [| exact I].
    destruct (Qgtb new_score kept_score).
    + split; [reflexivity | now apply Hset].
    + split; [reflexivity | split; assumption].
  - unfold ret. split; [reflexivity | now apply Hset].
Qed.

Lemma map_snd_combine {A B} (l : list A) (l' : list B) :
  List.length l = List.length l' -> map snd (combine l l') = l'.
Proof.
  revert l'. induction l as [| x l IH]; intros [| y l']; simpl;
    try discriminate; [reflexivity |].
  intros E. injection E as E. now rewrite IH.
Qed.

Lemma Forall2_combine_In {A B} (R : A -> B -> Prop) (xs : list A)
    (ks : list B) (k : B) (x : A) :
  Forall2 R xs ks -> In (k, x) (combine ks xs) -> R x k.
Proof.
  induction 1 as [| x0 k0 xs ks H0 _ IH]; simpl; [tauto |].
  intros [E | Hin]; [injection E as <- <-; exact H0 | now apply IH].
Qed.

Lemma StronglySorted_map_snd {A} (g : A -> Q) (l : list (Q * A)) :
  StronglySorted (desc fst) l ->
  (forall p, In p l -> fst p = g (snd p)) ->
  StronglySorted (desc g) (map snd l).
Proof.
  induction 1 as [| p l Hs IH Hp]; intros Hkey; simpl; constructor.
  - apply IH. intros q Hq. apply Hkey. now right.
  - apply Forall_forall. intros y Hy. apply in_map_iff in Hy.
    destruct Hy as [q [<- Hq]]. rewrite Forall_forall in Hp.
    specialize (Hp q Hq). unfold desc in *.
    now rewrite <- (Hkey p (or_introl eq_refl)), <- (Hkey q (or_intror Hq)).
Qed.

(** Reading the sort keys. *)
Lemma final_keys_loop (h1 : heap) (xs : list ref) (ks0 : list Q) :
  hoare (eq h1)
    (for_each xs
       (fun ks x => k <- field Rec.final_score x ;; ret (ks ++ [k])) ks0)
    (fun ks h =>
       h = h1
       /\ exists ks',
            ks = ks0 ++ ks'
            /\ Forall2 (fun x k => final_at (map core h1) x = k) xs ks').
Proof.
  revert ks0. induction xs as [| x xs IH]; intros ks0; simpl.
  - apply hoare_ret. intros h <-. split; [reflexivity |].
    exists []. split; [now rewrite app_nil_r | constructor].
  - eapply hoare_bind
      with (Q := fun ks h =>
                   h = h1 /\ exists k, ks = ks0 ++ [k]
                                       /\ final_at (map core h1) x = k).
    + intros h <-. cbv [bind field read ret raise].
      destruct (nth_error h1 x) as [e |] eqn:E; [| exact I].
      destruct (Rec.final_score e) as [k |] eqn:F; [| exact I].
      split; [reflexivity |]. exists k. split; [reflexivity |].
      rewrite (final_at_core h1 x e E). unfold final_or_zero. now rewrite F.
    + intros ks. apply hoare_eq_pure. intros [k [-> Hk]].
      eapply hoare_post; [| apply IH].
      intros ks h [-> [ks' [-> HF]]]. split; [reflexivity |].
      exists (k :: ks'). split; [now rewrite <- app_assoc |].
      now constructor.
Qed.

Lemma sorted_by_final_spec (h1 : heap) (xs : list ref) :
  hoare (eq h1) (sorted_desc_by (field Rec.final_score) xs)
    (fun sorted h =>
       h = h1
       /\ (Permutation sorted xs
           /\ StronglySorted (desc (final_at (map core h1))) sorted)).
Proof.
  unfold sorted_desc_by.
  eapply hoare_bind; [apply final_keys_loop |].
  intros ks. apply hoare_eq_pure. intros [ks' [-> HF]]. simpl.
  apply hoare_ret. intros h <-. split; [reflexivity |].
  assert (Hlen : List.length ks' = List.length xs)
    by (symmetry; apply (Forall2_length HF)).
  split.
  - rewrite <- (map_snd_combine ks' xs Hlen) at 2.
    apply Permutation_map, sorted_desc_perm.
  - apply StronglySorted_map_snd; [apply sorted_desc_sorted |].
    intros [k x] Hp. apply sorted_desc_In in Hp. simpl.
    symmetry. exact (Forall2_combine_In _ _ _ _ _ HF Hp).
Qed.

Lemma NoDup_firstn {A} (n : nat) (l : list A) : NoDup l -> NoDup (firstn n l).
Proof.
  intros H. revert n. induction H as [| x l Hx Hl IH]; intros [| n]; simpl;
    try constructor.
  - intros Hin. apply Hx. now apply In_firstn in Hin.
  - apply IH.
Qed.

Lemma slice_to_firstn {A} (l : list A) (n : Z) :
  exists k, slice_to l n = firstn k l.
Proof. unfold slice_to. destruct (0 <=? n)%Z; eauto. Qed.

(** The ranking as a whole. *)
Lemma rank_spec (recommendations : dict string (list ref)) (n : Z) :
  hoare (fun _ => True)
    (_rank_and_combine_recommendations recommendations n)
    (fun final h => rank_ok (keys recommendations) n (map core h) final).
Proof.
  unfold _rank_and_combine_recommendations.
  eapply hoare_bind; [apply rank_tag_loop |].
  intros all. apply hoare_from_eq. intros h1 Hall.
  eapply hoare_bind; [apply (dedupe_loop _ _ _ Hall) |].
  intros unique. apply hoare_eq_pure. intros [Hwf Hu].
  eapply hoare_bind; [apply sorted_by_final_spec |].
  intros sorted. apply hoare_eq_pure. intros [Hperm Hsorted].
  apply hoare_ret. intros h <-.
  destruct (slice_to_firstn sorted n) as [k Ek].
  assert (Hids : map (id_at (map core h1)) (values unique) = keys unique).
  { unfold values, keys. rewrite map_map. apply map_ext_in.
    intros kr Hkr. rewrite Forall_forall in Hu. now apply Hu. }
  split; [| split; [| split]].
  - apply Forall_forall. intros r Hr. apply In_slice_to in Hr.
    apply (Permutation_in _ Hperm) in Hr. unfold values in Hr.
    apply in_map_iff in Hr. destruct Hr as [kr [<- Hkr]].
    rewrite Forall_forall in Hu. now apply Hu.
  - rewrite Ek, <- firstn_map. apply NoDup_firstn.
    apply (Permutation_NoDup
             (Permutation_map (id_at (map core h1)) (Permutation_sym Hperm))).
    rewrite Hids. exact Hwf.
  - rewrite Ek. now apply StronglySorted_firstn.
  - intros Hn. rewrite slice_to_nonneg by exact Hn. apply firstn_le_length.
Qed.

(** *** Learning paths and timelines in the store *)

(** The dict carries the learning path generated from its own pattern and
    a timeline. *)
Definition pathed (user_metrics : metrics) (e : Rec.t) : Prop :=
  Rec.learning_path e = Some (_generate_learning_path e user_metrics)
  /\ exists timeline, Rec.expected_timeline e = Some timeline.

Lemma update_nth_twice (h : heap) (r : ref) (a b : Rec.t) :
  update_nth (update_nth h r a) r b = update_nth h r b.
Proof.
  revert r. induction h as [| x h IH]; intros [| r]; simpl;
    try reflexivity.
  now rewrite IH.
Qed.

Lemma timeline_reads_only (e : Rec.t) (user_metrics : metrics) (h : heap) :
  match _estimate_improvement_timeline e user_metrics h with
  | Ok (_, h') => h' = h
  | Raise _ => True
  end.
Proof.
  cbv [_estimate_improvement_timeline average bind lift ret].
  destruct (div (sum (values user_metrics)) (len user_metrics));
    [| exact I].
  destruct (div (sum (values (Rec.pattern_data e)))
                (len (Rec.pattern_data e))); [| exact I].
  repeat match goal with
    | |- context [if ?c then _ else _] => destruct c
    end; reflexivity.
Qed.

(** One pass of the loop that attaches paths and timelines. *)
Lemma path_body_spec (user_metrics : metrics) (rec : ref) (h : heap) :
  match
    (e <- read rec ;;
     _ <- modify rec
            (Rec.set_learning_path (_generate_learning_path e user_metrics)) ;;
     e <- read rec ;;
     timeline <- _estimate_improvement_timeline e user_metrics ;;
     modify rec (Rec.set_expected_timeline timeline)) h
  with
  | Ok (_, h') =>
      exists e timeline,
        nth_error h rec = Some e
        /\ h' = update_nth h rec
                  (Rec.set_expected_timeline timeline
                     (Rec.set_learning_path
                        (_generate_learning_path e user_metrics) e))
  | Raise _ => True
  end.
Proof.
  cbv [bind read modify].
  destruct (nth_error h rec) as [e |] eqn:E; [| exact I].
  rewrite E. cbv beta iota.
  set (e1 := Rec.set_learning_path (_generate_learning_path e user_metrics) e).
  rewrite (nth_error_update_nth_same h rec e1 e E). cbv beta iota.
  pose proof (timeline_reads_only e1 user_metrics (update_nth h rec e1))
    as Hro.
  destruct (_estimate_improvement_timeline e1 user_metrics
              (update_nth h rec e1)) as [[timeline h'] | x]; [| exact I].
  subst h'. rewrite (nth_error_update_nth_same h rec e1 e E).
  exists e, timeline. split; [reflexivity |]. now rewrite update_nth_twice.
Qed.

Lemma pathed_after_pass (user_metrics : metrics) (e : Rec.t)
    (timeline : Timeline.t) :
  pathed user_metrics
    (Rec.set_expected_timeline timeline
       (Rec.set_learning_path (_generate_learning_path e user_metrics) e)).
Proof. split; [reflexivity | eexists; reflexivity]. Qed.

Lemma paths_loop_keeps (user_metrics : metrics) (refs : list ref) (r : ref)
    (u : unit) (h : heap) :
  (exists e, nth_error h r = Some e /\ pathed user_metrics e) ->
  match
    for_each refs
      (fun (_ : unit) rec =>
         e <- read rec ;;
         _ <- modify rec
                (Rec.set_learning_path
                   (_generate_learning_path e user_metrics)) ;;
         e <- read rec ;;
         timeline <- _estimate_improvement_timeline e user_metrics ;;
         modify rec (Rec.set_expected_timeline timeline)) u h
  with
  | Ok (_, h') => exists e, nth_error h' r = Some e /\ pathed user_metrics e
  | Raise _ => True
  end.
Proof.
  revert u h. induction refs as [| r' refs IH]; intros u h Hr; simpl.
  - exact Hr.
  - unfold bind at 1.
    pose proof (path_body_spec user_metrics r' h) as Hbody.
    match type of Hbody with
    | match ?t with _ => _ end => destruct t as [[u' h1] | x]
    end; [| exact I].
    destruct Hbody as [e' [timeline [E' ->]]].
    apply IH.
    destruct (Nat.eq_dec r r') as [-> | Hne].
    + rewrite (nth_error_update_nth_same h r' _ e' E').
      eexists. split; [reflexivity | apply pathed_after_pass].
    + now rewrite (nth_error_update_nth_other h r' r _ Hne).
Qed.

Lemma paths_loop_spec (user_metrics : metrics) (refs : list ref) (u : unit)
    (h : heap) :
  match
    for_each refs
      (fun (_ : unit) rec =>
         e <- read rec ;;
         _ <- modify rec
                (Rec.set_learning_path
                   (_generate_learning_path e user_metrics)) ;;
         e <- read rec ;;
         timeline <- _estimate_improvement_timeline e user_metrics ;;
         modify rec (Rec.set_expected_timeline timeline)) u h
  with
  | Ok (_, h') =>
      map core h' = map core h
      /\ Forall (fun r => exists e, nth_error h' r = Some e
                                    /\ pathed user_metrics e) refs
  | Raise _ => True
  end.
Proof.
  revert u h. induction refs as [| r refs IH]; intros u h; simpl.
  - split; [reflexivity | constructor].
  - unfold bind at 1.
    pose proof (path_body_spec user_metrics r h) as Hbody.
    match type of Hbody with
    | match ?t with _ => _ end => destruct t as [[u' h1] | x]
    end; [| exact I].
    destruct Hbody as [e [timeline [E ->]]].
    set (h1 := update_nth h r _).
    assert (Hcore : map core h1 = map core h)
      by (apply (map_update_nth core h r _ e E); reflexivity).
    assert (Hr : exists e', nth_error h1 r = Some e'
                            /\ pathed user_metrics e').
    { unfold h1. rewrite (nth_error_update_nth_same h r _ e E).
      eexists. split; [reflexivity | apply pathed_after_pass]. }
    pose proof (IH u' h1) as Hrest.
    pose proof (paths_loop_keeps user_metrics refs r u' h1 Hr) as Hkeep.
    match type of Hrest with
    | match ?t with _ => _ end => destruct t as [[u'' h2] | x]
    end; [| exact I].
    destruct Hrest as [Hc Hall]. split; [congruence |].
    constructor; assumption.
Qed.

(** Reading the final list back. *)
Lemma read_back_spec (h1 : heap) (refs : list ref) (acc : list Rec.t) :
  hoare (eq h1)
    (for_each refs (fun recs rec => e <- read rec ;; ret (recs ++ [e])) acc)
    (fun recs h =>
       h = h1
       /\ exists recs',
            recs = acc ++ recs'
            /\ Forall2 (fun r e => nth_error h1 r = Some e) refs recs').
Proof.
  revert acc. induction refs as [| r refs IH]; intros acc; simpl.
  - apply hoare_ret. intros h <-. split; [reflexivity |].
    exists []. split; [now rewrite app_nil_r | constructor].
  - eapply hoare_bind
      with (Q := fun recs h =>
                   h = h1 /\ exists e, recs = acc ++ [e]
                                       /\ nth_error h1 r = Some e).
    + intros h <-. cbv [bind read ret].
      destruct (nth_error h1 r) as [e |]; [| exact I].
      split; [reflexivity |]. exists e. split; reflexivity.
    + intros recs. apply hoare_eq_pure. intros [e [-> He]].
      eapply hoare_post; [| apply IH].
      intros recs h [-> [recs' [-> HF]]]. split; [reflexivity |].
      exists (e :: recs'). split; [now rewrite <- app_assoc |].
      now constructor.
Qed.

(** The five strategy names of [get_personalized_recommendations]. *)
Definition strategy_names : list string :=
  [ "similar_level"; "aspirational"; "progressive"; "improvement_focused";
    "trending" ].

(** The returned candidates and the store they were read from. *)
Lemma returned_candidates_spec (db : Database.t) (user_id : Z)
    (skill : string) (user_metrics : metrics) (n : Z) (bundle : Bundle.t) :
  get_personalized_recommendations db user_id skill user_metrics n
  = Ok bundle ->
  exists (final : list ref) (h : heap),
    rank_ok strategy_names n (map core h) final
    /\ Forall2 (fun r e => nth_error h r = Some e /\ pathed user_metrics e)
               final (Bundle.recommendations bundle).
Proof.
  assert (H : hoare (fun _ => True)
                (personalized_recommendations db user_id skill user_metrics n)
                (fun bundle _ =>
                   exists (final : list ref) (h : heap),
                     rank_ok strategy_names n (map core h) final
                     /\ Forall2 (fun r e => nth_error h r = Some e
                                            /\ pathed user_metrics e)
                                final (Bundle.recommendations bundle))).
  { unfold personalized_recommendations.
    eapply hoare_bind; [apply hoare_true | intros available].
    eapply hoare_bind; [apply hoare_true | intros similar].
    eapply hoare_bind; [apply hoare_true | intros aspirational].
    eapply hoare_bind; [apply hoare_true | intros progressive].
    eapply hoare_bind; [apply hoare_true | intros improvement].
    eapply hoare_bind; [apply hoare_true | intros trending].
    eapply hoare_bind; [apply rank_spec | intros final].
    eapply hoare_bind
      with (Q := fun _ h =>
                   rank_ok strategy_names n (map core h) final
                   /\ Forall (fun r => exists e, nth_error h r = Some e
                                                 /\ pathed user_metrics e)
                             final).
    { intros h Hrank.
      pose proof (paths_loop_spec user_metrics final tt h) as Hloop.
      match type of Hloop with
      | match ?t with _ => _ end => destruct t as [[u h'] | x]
      end; [| exact I].
      destruct Hloop as [Hc Hall]. rewrite Hc. split; assumption. }
    intros u. apply hoare_from_eq. intros h1 [Hrank Hpathed].
    eapply hoare_bind; [apply read_back_spec |].
    intros recs. apply hoare_eq_pure. intros [recs' [-> HF]]. simpl.
    eapply hoare_bind; [apply assess_user_level_inv | intros level].
    eapply hoare_bind; [apply personalization_factors_inv | intros factors].
    apply hoare_ret. intros h <-. exists final, h1. split; [exact Hrank |].
    simpl. clear - HF Hpathed.
    induction HF as [| r e final recs' Hr _ IH]; constructor.
    - split; [exact Hr |]. inversion Hpathed as [| ? ? [e' [E' Hp]] _]; subst.
      congruence.
    - apply IH. now inversion Hpathed. }
  unfold get_personalized_recommendations.
  specialize (H [] I).
  destruct (personalized_recommendations db user_id skill user_metrics n [])
    as [[b h] | e]; [| discriminate].
  intros E. injection E as <-. exact H.
Qed.

(** *** The returned list *)

(** X18: for a bound [n >= 0] a call that returns gives at most [n]
    recommendations. *)
Theorem returned_at_most_n :
  forall (db : Database.t) (user_id : Z) (skill : string)
         (user_metrics : metrics) (n : Z) (bundle : Bundle.t),
    (0 <= n)%Z ->
    get_personalized_recommendations db user_id skill user_metrics n
    = Ok bundle ->
    (List.length (Bundle.recommendations bundle) <= Z.to_nat n)%nat.
Proof.
  intros db user_id skill user_metrics n bundle Hn Hok.
  destruct (returned_candidates_spec _ _ _ _ _ _ Hok)
    as [final [h [[_ [_ [_ Hlen]]] HF]]].
  rewrite <- (Forall2_length HF). now apply Hlen.
Qed.

Lemma returned_at_most_n_witness :
  (0 <= 2)%Z
  /\ exists bundle,
       get_personalized_recommendations
         (three_experts_db (95 # 100) (9 # 10) (86 # 100)) 7
         "Public Speaking" [("eye_contact", 8 # 10)] 2 = Ok bundle
       /\ (List.length (Bundle.recommendations bundle) <= Z.to_nat 2)%nat.
Proof.
  assert (Hn : (0 <= 2)%Z) by lia.
  split; [exact Hn |].
  destruct (get_personalized_recommendations
              (three_experts_db (95 # 100) (9 # 10) (86 # 100)) 7
              "Public Speaking" [("eye_contact", 8 # 10)] 2)
    as [bundle | x] eqn:E; [| vm_compute in E; discriminate].
  exists bundle. split; [reflexivity |].
  exact (returned_at_most_n _ _ _ _ _ _ Hn E).
Defined.

(** X19: no two returned recommendations are for the same expert id,
    however many strategies nominated the expert. *)
Theorem returned_experts_distinct :
  forall (db : Database.t) (user_id : Z) (skill : string)
         (user_metrics : metrics) (n : Z) (bundle : Bundle.t),
    get_personalized_recommendations db user_id skill user_metrics n
    = Ok bundle ->
    NoDup (map Rec.expert_id (Bundle.recommendations bundle)).
Proof.
  intros db user_id skill user_metrics n bundle Hok.
  destruct (returned_candidates_spec _ _ _ _ _ _ Hok)
    as [final [h [[_ [Hnd _]] HF]]].
  assert (E : map Rec.expert_id (Bundle.recommendations bundle)
              = map (id_at (map core h)) final).
  { clear Hnd. induction HF as [| r e final recs [Hr _] _ IH]; simpl;
      [reflexivity |].
    now rewrite IH, (id_at_core h r e Hr). }
  now rewrite E.
Qed.

Lemma returned_experts_distinct_witness :
  exists bundle,
    get_personalized_recommendations
      (three_experts_db (95 # 100) (9 # 10) (86 # 100)) 7
      "Public Speaking" [("eye_contact", 8 # 10)] 5 = Ok bundle
    /\ NoDup (map Rec.expert_id (Bundle.recommendations bundle)).
Proof.
  destruct (get_personalized_recommendations
              (three_experts_db (95 # 100) (9 # 10) (86 # 100)) 7
              "Public Speaking" [("eye_contact", 8 # 10)] 5)
    as [bundle | x] eqn:E; [| vm_compute in E; discriminate].
  exists bundle. split; [reflexivity |].
  exact (returned_experts_distinct _ _ _ _ _ _ E).
Defined.

(** X20: the returned recommendations stand in order of descending final
    score. *)
Theorem returned_sorted_by_final_score :
  forall (db : Database.t) (user_id : Z) (skill : string)
         (user_metrics : metrics) (n : Z) (bundle : Bundle.t),
    get_personalized_recommendations db user_id skill user_metrics n
    = Ok bundle ->
    StronglySorted (desc final_or_zero) (Bundle.recommendations bundle).
Proof.
  intros db user_id skill user_metrics n bundle Hok.
  destruct (returned_candidates_spec _ _ _ _ _ _ Hok)
    as [final [h [[_ [_ [Hsorted _]]] HF]]].
  apply (Forall2_sorted
           (fun r e => nth_error h r = Some e /\ pathed user_metrics e)
           (final_at (map core h)) final_or_zero final);
    [| exact HF | exact Hsorted].
  intros r e [Hr _]. symmetry. now apply final_at_core.
Qed.

Lemma returned_sorted_by_final_score_witness :
  exists bundle,
    get_personalized_recommendations
      (three_experts_db (95 # 100) (9 # 10) (86 # 100)) 7
      "Public Speaking" [("eye_contact", 8 # 10)] 5 = Ok bundle
    /\ StronglySorted (desc final_or_zero) (Bundle.recommendations bundle).
Proof.
  destruct (get_personalized_recommendations
              (three_experts_db (95 # 100) (9 # 10) (86 # 100)) 7
              "Public Speaking" [("eye_contact", 8 # 10)] 5)
    as [bundle | x] eqn:E; [| vm_compute in E; discriminate].
  exists bundle. split; [reflexivity |].
  exact (returned_sorted_by_final_score _ _ _ _ _ _ E).
Defined.

(** X21: every returned recommendation carries all the keys the ranking
    and the path step add: one of the five strategy names, the weight
    found under that name in the weight table (0.1 when the table has no
    such entry), the final score equal to the recommendation score (0.5
    when absent) times that weight, the learning path generated from its
    own pattern and the user's metrics, and a timeline. *)
Theorem returned_candidates_complete :
  forall (db : Database.t) (user_id : Z) (skill : string)
         (user_metrics : metrics) (n : Z) (bundle : Bundle.t),
    get_personalized_recommendations db user_id skill user_metrics n
    = Ok bundle ->
    Forall
      (fun e =>
         exists st timeline,
           Rec.strategy e = Some st
           /\ In st strategy_names
           /\ Rec.strategy_weight e
              = Some (get_default recommendation_strategies st (1 # 10))
           /\ Rec.final_score e
              = Some ((match Rec.recommendation_score e with
                       | Some x => x
                       | None => 1 # 2
                       end)
                      * get_default recommendation_strategies st (1 # 10))
           /\ Rec.learning_path e
              = Some (_generate_learning_path e user_metrics)
           /\ Rec.expected_timeline e = Some timeline)
      (Bundle.recommendations bundle).
Proof.
  intros db user_id skill user_metrics n bundle Hok.
  pose proof (returned_candidates_weighted _ _ _ _ _ _ Hok) as Hw.
  destruct (returned_candidates_spec _ _ _ _ _ _ Hok)
    as [final [h [[Hranked _] HF]]].
  rewrite Forall_forall in Hw |- *. intros e He.
  assert (Hsrc : exists r, In r final /\ nth_error h r = Some e
                           /\ pathed user_metrics e).
  { clear - HF He. induction HF as [| r e' final recs Hr _ IH];
      [contradiction |].
    destruct He as [<- | He].
    - exists r. split; [now left | exact Hr].
    - destruct (IH He) as [r' [Hin Hr']]. exists r'. split; [now right | exact Hr']. }
  destruct Hsrc as [r [Hin [Hr [Hpath [timeline Htl]]]]].
  rewrite Forall_forall in Hranked.
  destruct (Hranked r Hin) as [id [st [w [f [Hcore Hname]]]]].
  rewrite nth_error_map, Hr in Hcore. simpl in Hcore.
  unfold core in Hcore. injection Hcore as _ Hst _ _.
  destruct (Hw e He st Hst) as [Hweight Hfinal].
  exists st, timeline. repeat split; assumption.
Qed.

Lemma returned_candidates_complete_witness :
  exists bundle,
    get_personalized_recommendations
      (three_experts_db (95 # 100) (9 # 10) (86 # 100)) 7
      "Public Speaking" [("eye_contact", 8 # 10)] 5 = Ok bundle
    /\ Forall (fun e => exists st, Rec.strategy e = Some st
                                   /\ In st strategy_names)
              (Bundle.recommendations bundle).
Proof.
  destruct (get_personalized_recommendations
              (three_experts_db (95 # 100) (9 # 10) (86 # 100)) 7
              "Public Speaking" [("eye_contact", 8 # 10)] 5)
    as [bundle | x] eqn:E; [| vm_compute in E; discriminate].
  exists bundle. split; [reflexivity |].
  pose proof (returned_candidates_complete _ _ _ _ _ _ E) as H.
  rewrite Forall_forall in H |- *. intros e He.
  destruct (H e He) as [st [timeline [Hst [Hin _]]]]. eauto.
Defined.

(** *** When the strategies and the ranking return *)

(** [returns P m Q]: from a store that satisfies [P], the computation [m]
    does not raise, and its value and store satisfy [Q]. *)
Definition returns {A} (P : heap -> Prop) (m : M A)
    (Q : A -> heap -> Prop) : Prop :=
  forall h, P h -> exists a h', m h = Ok (a, h') /\ Q a h'.

(** The dict behind [r] satisfies [Q]. *)
Definition holds (Q : Rec.t -> Prop) (h : heap) (r : ref) : Prop :=
  exists e, nth_error h r = Some e /\ Q e.

Definition scored (e : Rec.t) : Prop := Rec.recommendation_score e <> None.
Definition finalized (e : Rec.t) : Prop := Rec.final_score e <> None.








Lemma returns_ret {A} (P : heap -> Prop) (a : A) (Q : A -> heap -> Prop) :
  (forall h, P h -> Q a h) -> returns P (ret a) Q.
Proof. intros H h Hh. exists a, h. split; [reflexivity | now apply H]. Qed.

Lemma returns_bind {A B} (P : heap -> Prop) (m : M A)
    (Q : A -> heap -> Prop) (k : A -> M B) (R : B -> heap -> Prop) :
  returns P m Q -> (forall a, returns (Q a) (k a) R) ->
  returns P (bind m k) R.
Proof.
  intros Hm Hk h Hh. destruct (Hm h Hh) as [a [h1 [E1 Hq]]].
  destruct (Hk a h1 Hq) as [b [h2 [E2 Hr]]].
  exists b, h2. split; [| exact Hr]. unfold bind. now rewrite E1.
Qed.

Lemma returns_pre {A} (P P' : heap -> Prop) (m : M A)
    (Q : A -> heap -> Prop) :
  (forall h, P' h -> P h) -> returns P m Q -> returns P' m Q.
Proof. intros Himp Hm h Hh. apply Hm, Himp, Hh. Qed.


Lemma returns_for_each_In {A S} (I : S -> heap -> Prop) (xs : list A)
    (body : S -> A -> M S) :
  (forall s x, In x xs -> returns (I s) (body s x) I) ->
  forall s, returns (I s) (for_each xs body s) I.
Proof.
  induction xs as [| x xs IH]; intros Hbody s; simpl.
  - now apply returns_ret.
  - eapply returns_bind; [apply Hbody; now left |].
    apply IH. intros s' x' Hx'. apply Hbody. now right.
Qed.

Lemma returns_from_eq {A} (P : heap -> Prop) (m : M A)
    (Q : A -> heap -> Prop) :
  (forall h0, P h0 -> returns (fun h => h = h0) m Q) -> returns P m Q.
Proof. intros H h Hh. exact (H h Hh h eq_refl). Qed.



Lemma length_update_nth (h : heap) (r : ref) (e : Rec.t) :
  List.length (update_nth h r e) = List.length h.
Proof.
  revert r. induction h as [| x h IH]; intros [| r]; simpl; auto.
Qed.

(** A write that keeps [Q] on the dict it changes keeps [Q] wherever it
    held. *)
Lemma holds_update (Q : Rec.t -> Prop) (f : Rec.t -> Rec.t) (h : heap)
    (r r' : ref) (e0 : Rec.t) :
  (forall e, Q e -> Q (f e)) ->
  holds Q h r -> nth_error h r' = Some e0 ->
  holds Q (update_nth h r' (f e0)) r.
Proof.
  intros Hf [e [E He]] E0. unfold holds.
  destruct (Nat.eq_dec r r') as [-> | Hne].
  - rewrite (nth_error_update_nth_same h r' (f e0) e0 E0).
    assert (e = e0) by congruence. subst e. eauto.
  - rewrite (nth_error_update_nth_other h r' r (f e0) Hne). eauto.
Qed.

Lemma holds_written (Q : Rec.t -> Prop) (h : heap) (r : ref)
    (e0 e' : Rec.t) :
  nth_error h r = Some e0 -> Q e' -> holds Q (update_nth h r e') r.
Proof.
  intros E He. exists e'. split; [| exact He].
  apply (nth_error_update_nth_same h r e' e0 E).
Qed.

(** Reading sort keys that are present never fails and leaves the
    store. *)
Lemma keys_loop_returns {B} (proj : Rec.t -> option B) (h : heap)
    (xs : list ref) (ks0 : list B) :
  Forall (holds (fun e => proj e <> None) h) xs ->
  exists ks,
    for_each xs (fun ks x => k <- field proj x ;; ret (ks ++ [k])) ks0 h
    = Ok (ks, h)
    /\ List.length ks = (List.length ks0 + List.length xs)%nat.
Proof.
  intros Hall. revert ks0. induction Hall as [| x xs [e [E He]] _ IH];
    intros ks0; simpl.
  - exists ks0. split; [reflexivity | lia].
  - cbv [bind field read ret raise]. rewrite E.
    destruct (proj e) as [k |] eqn:F; [| congruence].
    destruct (IH (ks0 ++ [k])) as [ks [Eks Hlen]].
    exists ks. split; [exact Eks |]. rewrite length_app in Hlen. simpl in Hlen.
    lia.
Qed.

Lemma sorted_desc_by_returns (proj : Rec.t -> option Q) (h : heap)
    (xs : list ref) :
  Forall (holds (fun e => proj e <> None) h) xs ->
  exists sorted,
    sorted_desc_by (field proj) xs h = Ok (sorted, h)
    /\ Permutation sorted xs.
Proof.
  intros Hall. unfold sorted_desc_by.
  destruct (keys_loop_returns proj h xs [] Hall) as [ks [E Hlen]].
  unfold bind at 1. rewrite E. unfold ret.
  eexists. split; [reflexivity |].
  rewrite <- (map_snd_combine ks xs Hlen) at 2.
  apply Permutation_map, sorted_desc_perm.
Qed.















(** *** The ranking returns *)

Definition present (_ : Rec.t) : Prop := True.

(** [kept_by_ranking Qp]: the write of the ranking keeps [Qp]. *)
Definition kept_by_ranking (Qp : Rec.t -> Prop) : Prop :=
  forall s w f e, Qp e -> Qp (Rec.set_strategy s w f e).

(** Every dict of the pool satisfies [Qp], every dict collected so far
    comes from the pool and has its final score. *)
Definition tagged (Qp : Rec.t -> Prop) (pool acc : list ref) (h : heap)
  : Prop :=
  Forall (holds Qp h) pool
  /\ Forall (holds finalized h) acc
  /\ incl acc pool.

Lemma tag_returns (Qp : Rec.t -> Prop) (pool acc : list ref) (r : ref)
    (strategy : string) (weight : Q) (h : heap) :
  kept_by_ranking Qp ->
  tagged Qp pool acc h -> In r pool ->
  exists a h',
    (e <- read r ;;
     let score :=
       match Rec.recommendation_score e with
       | Some s => s
       | None => 1 # 2
       end in
     _ <- modify r (Rec.set_strategy strategy weight (score * weight)) ;;
     ret (acc ++ [r])) h
    = Ok (a, h')
    /\ tagged Qp pool a h'.
Proof.
  intros Hkept [Hpool [Hacc Hincl]] Hr.
  assert (Hr' := Hpool). rewrite Forall_forall in Hr'.
  destruct (Hr' r Hr) as [e [E _]].
  cbv [bind read modify ret]. rewrite E. cbv beta iota. rewrite E.
  eexists _, _. split; [reflexivity |]. split; [| split].
  - eapply Forall_impl; [| exact Hpool].
    intros r' Hq. apply holds_update; [| exact Hq | exact E].
    intros e' He'. apply Hkept, He'.
  - apply Forall_app. split.
    + eapply Forall_impl; [| exact Hacc].
      intros r' Hq. apply holds_update; [| exact Hq | exact E].
      intros e' _. unfold finalized. simpl. discriminate.
    + constructor; [| constructor].
      eapply holds_written; [exact E |].
      unfold finalized. simpl. discriminate.
  - intros x Hx. apply in_app_or in Hx. destruct Hx as [Hx | [<- | []]]; auto.
Qed.

Lemma tag_loop_returns (Qp : Rec.t -> Prop)
    (recommendations : dict string (list ref)) :
  kept_by_ranking Qp ->
  returns (tagged Qp (flat_map snd recommendations) [])
    (for_each recommendations
       (fun all_recommendations entry =>
          let '(strategy, experts) := entry in
          let weight :=
            get_default recommendation_strategies strategy (1 # 10) in
          for_each experts
            (fun all_recommendations expert =>
               e <- read expert ;;
               let score :=
                 match Rec.recommendation_score e with
                 | Some s => s
                 | None => 1 # 2
                 end in
               _ <- modify expert
                      (Rec.set_strategy strategy weight (score * weight)) ;;
               ret (all_recommendations ++ [expert]))
            all_recommendations)
       [])
    (tagged Qp (flat_map snd recommendations)).
Proof.
  intros Hkept.
  apply (returns_for_each_In (tagged Qp (flat_map snd recommendations))).
  intros acc [strategy experts] Hentry.
  apply (returns_for_each_In (tagged Qp (flat_map snd recommendations))).
  intros acc' r Hr h Ht.
  apply tag_returns; [exact Hkept | exact Ht |].
  apply in_flat_map. exists (strategy, experts). auto.
Qed.

(** The loop that keeps one dict per expert id reads final scores of
    dicts that have one, and changes nothing. *)
Lemma dedupe_loop_returns (all : list ref) (h0 : heap) :
  Forall (holds finalized h0) all ->
  returns (fun h => h = h0)
    (for_each all
       (fun (unique_recommendations : dict Z ref) rec =>
          e <- read rec ;;
          let expert_id := Rec.expert_id e in
          match get unique_recommendations expert_id with
          | None => ret (set unique_recommendations expert_id rec)
          | Some kept =>
              new_score <- field Rec.final_score rec ;;
              kept_score <- field Rec.final_score kept ;;
              if Qgtb new_score kept_score then
                ret (set unique_recommendations expert_id rec)
              else ret unique_recommendations
          end)
       [])
    (fun unique h => h = h0 /\ incl (values unique) all).
Proof.
  intros Hall.
  eapply returns_pre;
    [| apply (returns_for_each_In
                (fun (unique : dict Z ref) h =>
                   h = h0 /\ incl (values unique) all))].
  - intros h ->. split; [reflexivity | intros x []].
  - intros unique rec Hrec h [-> Hincl].
    rewrite Forall_forall in Hall.
    destruct (Hall rec Hrec) as [e [E He]].
    assert (Hset : forall v, In v all ->
              incl (values (set unique (Rec.expert_id e) v)) all).
    { intros v Hv x Hx. unfold values in Hx. apply in_map_iff in Hx.
      destruct Hx as [[k y] [<- Hky]]. apply set_In in Hky.
      destruct Hky as [Hky | Hky]; [inversion Hky; subst; exact Hv |].
      apply Hincl. unfold values. apply in_map_iff. exists (k, y). auto. }
    unfold bind at 1. unfold read. rewrite E.
    destruct (get unique (Rec.expert_id e)) as [kept |] eqn:G.
    + assert (Hkept : In kept all).
      { apply Hincl. unfold values. apply in_map_iff.
        exists (Rec.expert_id e, kept). split; [reflexivity |].
        apply get_key_Some, G. }
      destruct (Hall kept Hkept) as [ek [Ek Hek]].
      cbv [bind field read ret raise]. rewrite E.
      unfold finalized in He, Hek.
      destruct (Rec.final_score e) as [fe |]; [| congruence].
      rewrite Ek.
      destruct (Rec.final_score ek) as [fk |]; [| congruence].
      destruct (Qgtb fe fk); eexists _, _;
        (split; [reflexivity | split; [reflexivity | auto]]).
    + eexists _, _. split; [reflexivity |]. split; [reflexivity | auto].
Qed.

Lemma ranking_returns (Qp : Rec.t -> Prop)
    (recommendations : dict string (list ref)) (n : Z) :
  kept_by_ranking Qp ->
  returns (fun h => Forall (holds Qp h) (flat_map snd recommendations))
    (_rank_and_combine_recommendations recommendations n)
    (fun final h =>
       Forall (holds Qp h) (flat_map snd recommendations)
       /\ incl final (flat_map snd recommendations)
       /\ Forall (holds finalized h) final).
Proof.
  intros Hkept. unfold _rank_and_combine_recommendations.
  eapply returns_bind.
  { eapply returns_pre; [| apply (tag_loop_returns Qp _ Hkept)].
    intros h Hh. split; [exact Hh |]. split; [constructor | intros x []]. }
  intros all. apply returns_from_eq. intros h1 [Hpool [Hall Hincl]].
  eapply returns_bind; [apply (dedupe_loop_returns all h1 Hall) |].
  intros unique h [-> Hu]. cbv zeta.
  assert (Hfin : Forall (holds finalized h1) (values unique)).
  { rewrite Forall_forall in Hall |- *. intros r Hr. apply Hall, Hu, Hr. }
  destruct (sorted_desc_by_returns Rec.final_score h1 (values unique) Hfin)
    as [sorted [E3 Hperm]].
  unfold bind at 1. rewrite E3. unfold ret.
  eexists _, _. split; [reflexivity |].
  assert (Hin : forall r, In r (slice_to sorted n) -> In r all).
  { intros r Hr. apply In_slice_to in Hr.
    apply Hu. exact (Permutation_in _ Hperm Hr). }
  split; [exact Hpool |]. split.
  - intros r Hr. apply Hincl, Hin, Hr.
  - rewrite Forall_forall in Hall |- *. intros r Hr. apply Hall, Hin, Hr.
Qed.

(** X23: the ranking returns for any strategy lists of existing dicts and
    any bound: although it reads ["final_score"] with brackets, every dict
    it compares or sorts got its final score in the first loop, also a
    dict without a recommendation score.  What it returns was nominated
    by some strategy and carries its final score. *)
Theorem ranking_never_misses_a_final_score :
  forall (recommendations : dict string (list ref)) (n : Z) (h : heap),
    Forall (fun entry =>
              Forall (fun r => (r < List.length h)%nat) (snd entry))
           recommendations ->
    exists final h',
      _rank_and_combine_recommendations recommendations n h
      = Ok (final, h')
      /\ (forall r, In r final ->
            exists strategy experts,
              In (strategy, experts) recommendations /\ In r experts)
      /\ Forall (holds finalized h') final.
Proof.
  intros recommendations n h Hvalid.
  assert (Hpool : Forall (holds present h) (flat_map snd recommendations)).
  { rewrite Forall_forall in Hvalid |- *. intros r Hr.
    apply in_flat_map in Hr. destruct Hr as [entry [Hentry Hr]].
    specialize (Hvalid entry Hentry). rewrite Forall_forall in Hvalid.
    specialize (Hvalid r Hr).
    destruct (nth_error h r) as [e |] eqn:E.
    - exists e. split; [exact E | exact I].
    - apply nth_error_None in E. lia. }
  destruct (ranking_returns present recommendations n
              (fun _ _ _ _ _ => I) h Hpool)
    as [final [h' [E [_ [Hincl Hfin]]]]].
  exists final, h'. split; [exact E |]. split; [| exact Hfin].
  intros r Hr. apply Hincl, in_flat_map in Hr.
  destruct Hr as [[strategy experts] [Hentry Hr']].
  exists strategy, experts. auto.
Qed.

Lemma ranking_never_misses_a_final_score_witness :
  let h :=
    [ {| Rec.expert_id := 1; Rec.expert_name := "Ada";
         Rec.domain := "Public Speaking"; Rec.biography := None;
         Rec.achievements := [];
         Rec.pattern_data := [("eye_contact", 9 # 10)];
         Rec.confidence_score := Some 1;
         Rec.similarity_reason := None; Rec.recommendation_score := None;
         Rec.strategy := None; Rec.strategy_weight := None;
         Rec.final_score := None; Rec.learning_path := None;
         Rec.expected_timeline := None |} ] in
  let recommendations :=
    [("similar_level", [0%nat]); ("trending", [0%nat])] in
  Forall (fun entry => Forall (fun r => (r < List.length h)%nat) (snd entry))
         recommendations
  /\ exists final h',
       _rank_and_combine_recommendations recommendations 5 h
       = Ok (final, h')
       /\ Forall (holds finalized h') final.
Proof.
  intros h recommendations.
  assert (Hvalid : Forall (fun entry =>
                             Forall (fun r => (r < List.length h)%nat)
                                    (snd entry)) recommendations).
  { repeat constructor. }
  split; [exact Hvalid |].
  destruct (ranking_never_misses_a_final_score recommendations 5 h Hvalid)
    as [final [h' [E [_ Hfin]]]].
  exists final, h'. auto.
Defined.

(** *** Trending experts *)

Lemma get_set {K V} `{Key K} (d : dict K V) (k k' : K) (v : V) :
  get (set d k v) k' = if keqb k' k then Some v else get d k'.
Proof.
  induction d as [| [k0 v0] d IH]; simpl.
  - reflexivity.
  - destruct (keqb_spec k k0) as [-> | Hne]; simpl.
    + destruct (keqb_spec k' k0); reflexivity.
    + destruct (keqb_spec k' k0) as [-> | Hne'].
      * destruct (keqb_spec k0 k); [congruence | reflexivity].
      * exact IH.
Qed.

Lemma get_key_In {K V} `{Key K} (d : dict K V) (k : K) (v : V) :
  dict_wf d -> In (k, v) d -> get d k = Some v.
Proof.
  unfold dict_wf. induction d as [| [k0 v0] d IH]; simpl; [intros _ [] |].
  intros Hwf [E | Hin].
  - inversion E; subst. destruct (keqb_spec k k); congruence.
  - inversion Hwf as [| ? ? Hnot Hwf']; subst.
    destruct (keqb_spec k k0) as [-> | Hne]; [| now apply IH].
    exfalso. apply Hnot. unfold keys. apply in_map_iff.
    exists (k0, v). auto.
Qed.

(** The counting loop: an id is a key exactly when it occurs, and its
    entry is the number of its occurrences. *)
Lemma popularity_loop (l : list Z) (d : dict Z Z) (i : Z) :
  dict_wf d ->
  let d' :=
    fold_left
      (fun popularity expert_id =>
         set popularity expert_id
             (get_default popularity expert_id 0 + 1)%Z)
      l d in
  dict_wf d'
  /\ get d' i
     = match get d i, count_occ Z.eq_dec l i with
       | None, O => None
       | _, c => Some (get_default d i 0 + Z.of_nat c)%Z
       end.
Proof.
  revert d. induction l as [| x l IH]; intros d Hwf; cbn zeta.
  - split; [exact Hwf |]. simpl. unfold get_default.
    destruct (get d i) as [v |]; [f_equal; lia | reflexivity].
  - cbn [fold_left].
    destruct (IH (set d x (get_default d x 0 + 1)%Z) (set_wf _ _ _ Hwf))
      as [Hwf' Hget].
    split; [exact Hwf' |]. rewrite Hget. clear Hget IH.
    unfold get_default. rewrite !get_set.
    cbn [count_occ]. unfold keqb. cbn [Z_Key].
    destruct (Z.eq_dec x i) as [-> | Hne].
    + rewrite Z.eqb_refl.
      destruct (get d i) as [v |]; f_equal; lia.
    + assert (E : Z.eqb i x = false) by (apply Z.eqb_neq; congruence).
      rewrite E.
      destruct (get d i) as [v |]; reflexivity.
Qed.

Lemma popularity_counts (l : list Z) (i c : Z) :
  In (i, c) (expert_popularity l) ->
  c = Z.of_nat (count_occ Z.eq_dec l i) /\ (1 <= c)%Z.
Proof.
  intros Hin. unfold expert_popularity in Hin.
  destruct (popularity_loop l [] i) as [Hwf Hget]; [constructor |].
  cbn zeta in Hwf, Hget.
  rewrite (get_key_In _ i c Hwf Hin) in Hget. simpl in Hget.
  destruct (count_occ Z.eq_dec l i) as [| n]; [discriminate |].
  injection Hget as ->. unfold get_default. simpl get. lia.
Qed.

(** What a dict built for a trending expert holds. *)
Definition trending_dict (db : Database.t) (skill : string) (e : Rec.t)
  : Prop :=
  let count :=
    Z.of_nat (count_occ Z.eq_dec (Database.recent_comparisons db skill)
                        (Rec.expert_id e)) in
  (1 <= count)%Z
  /\ Rec.recommendation_score e = Some (inject_Z count / 10)
  /\ Rec.similarity_reason e = Some (Trending count)
  /\ Rec.final_score e = None
  /\ exists expert,
       In expert (Database.experts db)
       /\ Expert.id expert = Rec.expert_id e
       /\ Rec.expert_name e = Expert.name expert
       /\ Rec.pattern_data e = Expert.pattern_data expert.

Lemma trending_loop (db : Database.t) (skill : string)
    (top : list (Z * Z)) :
  Forall (fun item =>
            snd item
            = Z.of_nat (count_occ Z.eq_dec
                          (Database.recent_comparisons db skill) (fst item))
            /\ (1 <= snd item)%Z) top ->
  forall (h0 news0 : heap),
    Forall (trending_dict db skill) news0 ->
    exists news,
      for_each top
        (fun trending_experts item =>
           let '(expert_id, count) := item in
           match Database.expert_by_id db expert_id with
           | Some expert =>
               r <- alloc
                      {| Rec.expert_id := Expert.id expert;
                         Rec.expert_name := Expert.name expert;
                         Rec.domain := Expert.domain expert;
                         Rec.biography := Expert.biography expert;
                         Rec.achievements := Expert.achievements expert;
                         Rec.pattern_data := Expert.pattern_data expert;
                         Rec.confidence_score := None;
                         Rec.similarity_reason := Some (Trending count);
                         Rec.recommendation_score :=
                           Some (inject_Z count / 10);
                         Rec.strategy := None;
                         Rec.strategy_weight := None;
                         Rec.final_score := None;
                         Rec.learning_path := None;
                         Rec.expected_timeline := None |} ;;
               ret (trending_experts ++ [r])
           | None => ret trending_experts
           end)
        (seq (List.length h0) (List.length news0)) (h0 ++ news0)
      = Ok (seq (List.length h0) (List.length news), h0 ++ news)
      /\ Forall (trending_dict db skill) news
      /\ (List.length news <= List.length news0 + List.length top)%nat.
Proof.
  induction 1 as [| [i c] top [Hc Hpos] _ IH]; intros h0 news0 Hnews.
  - exists news0. simpl. split; [reflexivity |]. split; [exact Hnews | lia].
  - cbn [for_each fst snd] in *.
    destruct (Database.expert_by_id db i) as [expert |] eqn:F.
    + unfold bind at 1. unfold bind at 1. unfold alloc, ret.
      rewrite length_app, <- seq_S, <- app_assoc.
      set (e := {| Rec.expert_id := Expert.id expert;
                   Rec.expert_name := Expert.name expert;
                   Rec.domain := Expert.domain expert;
                   Rec.biography := Expert.biography expert;
                   Rec.achievements := Expert.achievements expert;
                   Rec.pattern_data := Expert.pattern_data expert;
                   Rec.confidence_score := None;
                   Rec.similarity_reason := Some (Trending c);
                   Rec.recommendation_score := Some (inject_Z c / 10);
                   Rec.strategy := None;
                   Rec.strategy_weight := None;
                   Rec.final_score := None;
                   Rec.learning_path := None;
                   Rec.expected_timeline := None |}).
      replace (S (List.length news0)) with (List.length (news0 ++ [e]))
        by (rewrite length_app; simpl; lia).
      destruct (IH h0 (news0 ++ [e])) as [news [E [Hall Hlen]]].
      * apply Forall_app. split; [exact Hnews |].
        constructor; [| constructor].
        unfold Database.expert_by_id in F. apply find_some in F.
        destruct F as [Hin Hid]. apply Z.eqb_eq in Hid.
        unfold trending_dict, e. cbn [Rec.expert_id Rec.recommendation_score
          Rec.similarity_reason Rec.final_score Rec.expert_name
          Rec.pattern_data].
        rewrite Hid, <- Hc.
        split; [exact Hpos |]. repeat split. exists expert. auto.
      * exists news. split; [exact E |]. split; [exact Hall |].
        rewrite length_app in Hlen. simpl in *. lia.
    + unfold bind at 1. unfold ret at 1.
      destruct (IH h0 news0 Hnews) as [news [E [Hall Hlen]]].
      exists news. split; [exact E |]. split; [exact Hall |]. simpl. lia.
Qed.


(** X24: the trending strategy never raises and never touches an existing
    dict: it appends at most two new dicts to the store and returns
    exactly those.  Each is for an expert of the database with at least
    one comparison in the window, and its recommendation score is that
    expert's number of comparisons divided by 10, which is not capped. *)
Theorem trending_experts_are_fresh_and_counted :
  forall (db : Database.t) (skill : string) (h : heap),
    exists news,
      _get_trending_experts db skill h
      = Ok (seq (List.length h) (List.length news), h ++ news)
      /\ (List.length news <= 2)%nat
      /\ Forall (trending_dict db skill) news.
Proof.
  intros db skill h. unfold _get_trending_experts. cbn zeta.
  set (top := slice_to _ 2).
  assert (Htop : Forall (fun item =>
            snd item
            = Z.of_nat (count_occ Z.eq_dec
                          (Database.recent_comparisons db skill) (fst item))
            /\ (1 <= snd item)%Z) top).
  { rewrite Forall_forall. intros [i c] Hin. subst top.
    apply In_slice_to, sorted_desc_In in Hin.
    exact (popularity_counts _ i c Hin). }
  assert (Hlen : (List.length top <= 2)%nat).
  { subst top. rewrite slice_to_nonneg by lia. apply firstn_le_length. }
  destruct (trending_loop db skill top Htop h [] (Forall_nil _))
    as [news [E [Hall Hn]]].
  simpl in E. rewrite app_nil_r in E.
  exists news. split; [exact E |]. split; [simpl in Hn; lia | exact Hall].
Qed.

(** *** Available experts *)




(** The dict [_get_available_experts] builds from a pattern and its
    expert row. *)
Definition built_from (db : Database.t) (pattern : ExpertPattern.t)
    (e : Rec.t) : Prop :=
  exists expert,
    Database.expert_by_id db (ExpertPattern.expert_id pattern) = Some expert
    /\ e = {| Rec.expert_id := Expert.id expert;
              Rec.expert_name := Expert.name expert;
              Rec.domain := Expert.domain expert;
              Rec.biography := Expert.biography expert;
              Rec.achievements := Expert.achievements expert;
              Rec.pattern_data := ExpertPattern.pattern_data pattern;
              Rec.confidence_score :=
                Some (ExpertPattern.confidence_score pattern);
              Rec.similarity_reason := None;
              Rec.recommendation_score := None;
              Rec.strategy := None;
              Rec.strategy_weight := None;
              Rec.final_score := None;
              Rec.learning_path := None;
              Rec.expected_timeline := None |}.

(** [has_expert db pattern]: the expert row of the pattern exists. *)
Definition has_expert (db : Database.t) (pattern : ExpertPattern.t) : bool :=
  match Database.expert_by_id db (ExpertPattern.expert_id pattern) with
  | Some _ => true
  | None => false
  end.

Lemma available_loop_rows (db : Database.t)
    (patterns : list ExpertPattern.t) :
  forall (h0 news0 : heap),
    exists news,
      for_each patterns (available_step db)
        (seq (List.length h0) (List.length news0)) (h0 ++ news0)
      = Ok (seq (List.length h0) (List.length (news0 ++ news)),
            h0 ++ news0 ++ news)
      /\ Forall2 (built_from db) (filter (has_expert db) patterns) news.
Proof.
  induction patterns as [| pattern patterns IH]; intros h0 news0.
  - exists []. simpl. rewrite !app_nil_r. split; [reflexivity | constructor].
  - cbn [for_each filter]. unfold available_step at 1, has_expert at 1.
    destruct (Database.expert_by_id db (ExpertPattern.expert_id pattern))
      as [expert |] eqn:F.
    + unfold bind at 1. unfold bind at 1. unfold alloc, ret.
      rewrite length_app, <- seq_S, <- app_assoc.
      match goal with
      | |- context [h0 ++ news0 ++ [?x]] => set (e := x)
      end.
      replace (S (List.length news0)) with (List.length (news0 ++ [e]))
        by (rewrite length_app; simpl; lia).
      destruct (IH h0 (news0 ++ [e])) as [news [E H2]].
      exists (e :: news). split.
      * rewrite E. rewrite <- !app_assoc. reflexivity.
      * constructor; [| exact H2]. exists expert. split; [exact F |].
        reflexivity.
    + unfold bind at 1. unfold ret at 1. apply IH.
Qed.

(** X25: [_get_available_experts] never raises and never touches an
    existing dict: it appends exactly one new dict for each pattern of the
    skill type whose expert row exists, in query order (so two dicts for
    an expert with two such patterns), and returns exactly those.  Each
    carries the expert's identity and the pattern's data and confidence,
    and no score, strategy or final score yet. *)
Theorem available_experts_are_fresh :
  forall (db : Database.t) (skill : string) (h : heap),
    exists news,
      _get_available_experts db skill h
      = Ok (seq (List.length h) (List.length news), h ++ news)
      /\ Forall2 (built_from db)
           (filter (has_expert db) (Database.patterns_of_skill db skill))
           news.
Proof.
  intros db skill h. unfold _get_available_experts.
  destruct (available_loop_rows db (Database.patterns_of_skill db skill)
              h []) as [news [E H2]].
  simpl in E. rewrite app_nil_r in E.
  exists news. split; [exact E | exact H2].
Qed.

Lemma available_experts_are_fresh_rows (db : Database.t) (skill : string)
    (h : heap) :
  exists news,
    _get_available_experts db skill h
    = Ok (seq (List.length h) (List.length news), h ++ news)
    /\ Forall2 (built_from db)
         (filter (has_expert db) (Database.patterns_of_skill db skill))
         news.
Proof.
  unfold _get_available_experts.
  destruct (available_loop_rows db (Database.patterns_of_skill db skill)
              h []) as [news [E H2]].
  simpl in E. rewrite app_nil_r in E.
  exists news. split; [exact E | exact H2].
Qed.

(** *** The whole call returns *)














End RecommenderMore.

(** ** Expert combinations *)

(** [leads experts metric leader]: the leader entry names an expert that
    has the metric with the leader's score, and no expert has a larger
    value for it. *)
Definition leads (experts : list ExpertRecommendationEngine.Rec.t)
    (metric : string) (leader : ExpertCombinations.Leader.t) : Prop :=
  ExpertCombinations.Leader.metric leader = metric
  /\ (exists e,
        In e experts
        /\ ExpertRecommendationEngine.Rec.expert_id e
           = ExpertCombinations.Leader.expert_id leader
        /\ ExpertRecommendationEngine.Rec.expert_name e
           = ExpertCombinations.Leader.expert_name leader
        /\ In (metric, ExpertCombinations.Leader.score leader)
              (ExpertRecommendationEngine.Rec.pattern_data e))
  /\ forall e v,
       In e experts ->
       In (metric, v) (ExpertRecommendationEngine.Rec.pattern_data e) ->
       v <= ExpertCombinations.Leader.score leader.

Section CombinationsMore.
Import Py ExpertRecommendationEngine ExpertCombinations.
#[local] Open Scope list_scope.

(** The pairs (expert, entry of its pattern) in the order the nested loops
    visit them. *)
Definition visits (experts : list Rec.t) : list (Rec.t * (string * Q)) :=
  flat_map (fun e => map (pair e) (Rec.pattern_data e)) experts.

Lemma metric_leaders_visits (experts : list Rec.t)
    (leaders : dict string Leader.t) :
  fold_left
    (fun metric_leaders expert =>
       fold_left (leader_step expert) (Rec.pattern_data expert)
                 metric_leaders)
    experts leaders
  = fold_left (fun l x => leader_step (fst x) l (snd x)) (visits experts)
              leaders.
Proof.
  revert leaders. induction experts as [| e experts IH]; intros leaders;
    [reflexivity |].
  unfold visits. cbn [flat_map fold_left]. rewrite fold_left_app.
  fold (visits experts). rewrite <- IH. f_equal.
  generalize (Rec.pattern_data e). intros items. revert leaders.
  induction items as [| item items IHi]; intros leaders; [reflexivity |].
  simpl. apply IHi.
Qed.

(** What [metric_leaders] holds for one metric once the pairs [seen] have
    been visited. *)
Definition leaders_ok (seen : list (Rec.t * (string * Q)))
    (leaders : dict string Leader.t) : Prop :=
  forall metric,
    match get leaders metric with
    | Some leader =>
        Leader.metric leader = metric
        /\ (exists e,
              In (e, (metric, Leader.score leader)) seen
              /\ Rec.expert_id e = Leader.expert_id leader
              /\ Rec.expert_name e = Leader.expert_name leader)
        /\ forall e v, In (e, (metric, v)) seen -> v <= Leader.score leader
    | None => forall e v, ~ In (e, (metric, v)) seen
    end.

Lemma leader_step_ok (seen : list (Rec.t * (string * Q)))
    (leaders : dict string Leader.t) (e : Rec.t) (item : string * Q) :
  leaders_ok seen leaders ->
  leaders_ok (seen ++ [(e, item)]) (leader_step e leaders item).
Proof.
  intros Hok metric. destruct item as [m0 v0].
  assert (Hother : metric <> m0 ->
            match get leaders metric with
            | Some leader =>
                Leader.metric leader = metric
                /\ (exists e',
                      In (e', (metric, Leader.score leader))
                         (seen ++ [(e, (m0, v0))])
                      /\ Rec.expert_id e' = Leader.expert_id leader
                      /\ Rec.expert_name e' = Leader.expert_name leader)
                /\ forall e' v, In (e', (metric, v)) (seen ++ [(e, (m0, v0))])
                                -> v <= Leader.score leader
            | None => forall e' v,
                        ~ In (e', (metric, v)) (seen ++ [(e, (m0, v0))])
            end).
  { intros Hne. specialize (Hok metric).
    destruct (get leaders metric) as [l |].
    - destruct Hok as [Hm [[e' [Hin [Hid Hname]]] Hmax]].
      split; [exact Hm |]. split.
      + exists e'. split; [apply in_or_app; now left | auto].
      + intros e'' v Hin'. apply in_app_or in Hin'.
        destruct Hin' as [Hin' | [Heq | []]]; [eapply Hmax, Hin' |].
        congruence.
    - intros e' v Hin'. apply in_app_or in Hin'.
      destruct Hin' as [Hin' | [Heq | []]]; [exact (Hok e' v Hin') |].
      congruence. }
  assert (Hnew : forall bound,
            (forall e' v, In (e', (m0, v)) seen -> v <= bound) ->
            bound <= v0 ->
            let entry :=
              {| Leader.expert_id := Rec.expert_id e;
                 Leader.expert_name := Rec.expert_name e;
                 Leader.score := v0; Leader.metric := m0 |} in
            Leader.metric entry = m0
            /\ (exists e',
                  In (e', (m0, Leader.score entry)) (seen ++ [(e, (m0, v0))])
                  /\ Rec.expert_id e' = Leader.expert_id entry
                  /\ Rec.expert_name e' = Leader.expert_name entry)
            /\ forall e' v, In (e', (m0, v)) (seen ++ [(e, (m0, v0))])
                            -> v <= Leader.score entry).
  { intros bound Hb Hle entry. split; [reflexivity |]. split.
    - exists e. split; [apply in_or_app; right; now left | auto].
    - intros e' v Hin'. apply in_app_or in Hin'. simpl.
      destruct Hin' as [Hin' | [Heq | []]].
      + apply Qle_trans with bound; [eapply Hb, Hin' | exact Hle].
      + inversion Heq; subst. apply Qle_refl. }
  unfold leader_step.
  destruct (get leaders m0) as [l0 |] eqn:G0.
  - destruct (Qgtb v0 (Leader.score l0)) eqn:C.
    + rewrite get_set. destruct (keqb_spec metric m0) as [-> | Hne].
      * apply (Hnew (Leader.score l0)).
        -- specialize (Hok m0). rewrite G0 in Hok. apply Hok.
        -- apply Qgtb_gt in C. apply Qlt_le_weak, C.
      * apply Hother, Hne.
    + destruct (string_dec metric m0) as [-> | Hne]; [| apply Hother, Hne].
      specialize (Hok m0). rewrite G0 in Hok |- *.
      destruct Hok as [Hm [[e' [Hin [Hid Hname]]] Hmax]].
      split; [exact Hm |]. split.
      * exists e'. split; [apply in_or_app; now left | auto].
      * intros e'' v Hin'. apply in_app_or in Hin'.
        destruct Hin' as [Hin' | [Heq | []]]; [eapply Hmax, Hin' |].
        inversion Heq; subst. apply Qgtb_le, C.
  - rewrite get_set. destruct (keqb_spec metric m0) as [-> | Hne].
    + apply (Hnew v0); [| apply Qle_refl].
      intros e' v Hin'. specialize (Hok m0). rewrite G0 in Hok.
      exfalso. exact (Hok e' v Hin').
    + apply Hother, Hne.
Qed.

Lemma leaders_fold_ok (items seen : list (Rec.t * (string * Q)))
    (leaders : dict string Leader.t) :
  leaders_ok seen leaders ->
  leaders_ok (seen ++ items)
    (fold_left (fun l x => leader_step (fst x) l (snd x)) items leaders).
Proof.
  revert seen leaders.
  induction items as [| [e item] items IH]; intros seen leaders Hok.
  - rewrite app_nil_r. exact Hok.
  - cbn [fold_left fst snd].
    replace (seen ++ (e, item) :: items)
      with ((seen ++ [(e, item)]) ++ items)
      by (rewrite <- app_assoc; reflexivity).
    apply IH, leader_step_ok, Hok.
Qed.

Lemma In_visits (experts : list Rec.t) (e : Rec.t) (item : string * Q) :
  In (e, item) (visits experts) <-> In e experts /\ In item (Rec.pattern_data e).
Proof.
  unfold visits. rewrite in_flat_map. split.
  - intros [e' [He' Hin]]. apply in_map_iff in Hin.
    destruct Hin as [item' [Heq Hitem]]. inversion Heq; subst. auto.
  - intros [He Hitem]. exists e. split; [exact He |].
    apply in_map_iff. exists item. auto.
Qed.

Lemma metric_leaders_spec (experts : list Rec.t) (metric : string) :
  match get (metric_leaders experts) metric with
  | Some leader => leads experts metric leader
  | None => forall e v, In e experts -> ~ In (metric, v) (Rec.pattern_data e)
  end.
Proof.
  unfold metric_leaders. rewrite metric_leaders_visits.
  assert (Hok := leaders_fold_ok (visits experts) [] []).
  simpl app in Hok. specialize (Hok (fun m e v H => H) metric).
  destruct (get _ metric) as [leader |].
  - destruct Hok as [Hm [[e [Hin [Hid Hname]]] Hmax]].
    apply In_visits in Hin. destruct Hin as [He Hitem].
    split; [exact Hm |]. split.
    + exists e. auto.
    + intros e' v He' Hv. apply (Hmax e' v). apply In_visits. auto.
  - intros e v He Hv. apply (Hok e v). apply In_visits. auto.
Qed.

Lemma weakness_fold_In (experts : list Rec.t)
    (leaders : dict string Leader.t) (weak : list string)
    (acc : list Rec.t) (e : Rec.t) :
  In e (fold_left (weakness_step experts leaders) weak acc) ->
  In e acc
  \/ exists metric leader,
       In metric weak
       /\ get leaders metric = Some leader
       /\ In e experts
       /\ Rec.expert_id e = Leader.expert_id leader.
Proof.
  revert acc. induction weak as [| m weak IH]; intros acc Hin; simpl in Hin.
  - now left.
  - apply IH in Hin. destruct Hin as [Hin | [metric [leader [Hm H]]]].
    + unfold weakness_step in Hin.
      destruct (get leaders m) as [leader |] eqn:G; [| now left].
      destruct (find _ experts) as [x |] eqn:F; [| now left].
      apply in_app_or in Hin. destruct Hin as [Hin | [<- | []]]; [now left |].
      right. apply find_some in F. destruct F as [Hx Hid].
      apply Z.eqb_eq in Hid. exists m, leader.
      split; [now left | auto].
    + right. exists metric, leader. split; [now right | exact H].
Qed.

Lemma read_all (h1 h2 : heap) (acc : list Rec.t) :
  for_each (seq (List.length h1) (List.length h2))
           (fun experts (r : ref) => e <- read r ;; ret (experts ++ [e])) acc
           (h1 ++ h2)
  = Ok (acc ++ h2, h1 ++ h2).
Proof.
  revert h1 acc. induction h2 as [| x h2 IH]; intros h1 acc.
  - simpl. unfold ret. now rewrite !app_nil_r.
  - cbn [List.length seq for_each].
    unfold bind at 1. unfold bind at 1. unfold read.
    rewrite nth_error_app2 by lia. rewrite Nat.sub_diag. cbn [nth_error].
    unfold ret at 1.
    replace (h1 ++ x :: h2) with ((h1 ++ [x]) ++ h2)
      by (rewrite <- app_assoc; reflexivity).
    replace (S (List.length h1)) with (List.length (h1 ++ [x]))
      by (rewrite length_app; simpl; lia).
    rewrite IH. now rewrite <- app_assoc.
Qed.

(** The expert the weakness-focused selection takes for one user metric:
    for a metric below 0.6 that has a leader, the first available expert
    with the leader's id. *)
Definition weakness_pick (experts : list Rec.t)
    (leaders : dict string Leader.t) (kv : string * Q) : list Rec.t :=
  if Qltb (snd kv) (6 # 10) then
    match get leaders (fst kv) with
    | Some leader =>
        match find (fun expert =>
                      Z.eqb (Rec.expert_id expert) (Leader.expert_id leader))
                   experts with
        | Some expert => [expert]
        | None => []
        end
    | None => []
    end
  else [].

Lemma weakness_fold_picks (experts : list Rec.t)
    (leaders : dict string Leader.t) (user_metrics : metrics)
    (acc : list Rec.t) :
  fold_left (weakness_step experts leaders)
    (map fst (filter (fun kv => Qltb (snd kv) (6 # 10)) user_metrics)) acc
  = acc ++ flat_map (weakness_pick experts leaders) user_metrics.
Proof.
  revert acc. induction user_metrics as [| kv um IH]; intros acc.
  - simpl. now rewrite app_nil_r.
  - cbn [filter flat_map]. unfold weakness_pick at 1.
    destruct (Qltb (snd kv) (6 # 10)); [| apply IH].
    cbn [map fold_left]. rewrite IH. unfold weakness_step.
    destruct (get leaders (fst kv)) as [leader |]; [| reflexivity].
    destruct (find _ experts) as [expert |]; [| reflexivity].
    now rewrite <- app_assoc.
Qed.

(** X27: [suggest_expert_combinations] always returns its three
    combinations, built from the experts [_get_available_experts] yields
    (one per pattern of the skill type whose expert row exists).  The
    first two hold the first two of these experts (all of them when there
    are fewer).  The third holds the first two picks of the
    weakness-focused selection: for each user metric below 0.6 that has a
    leader, in the user's order, the first available expert with the
    leader's id.  A metric has a leader exactly when some available
    expert has the metric, and the leader is an expert with the largest
    value of that metric. *)
Theorem combinations_follow_metric_leaders :
  forall (db : Database.t) (user_metrics : metrics) (skill : string),
    exists experts c1 c2 c3,
      _get_available_experts db skill []
      = Ok (seq 0 (List.length experts), experts)
      /\ Forall2 (built_from db)
           (filter (has_expert db) (Database.patterns_of_skill db skill))
           experts
      /\ suggest_expert_combinations db user_metrics skill = Ok [c1; c2; c3]
      /\ Combination.learning_approach c1 = "sequential"
      /\ Combination.learning_approach c2 = "comparative"
      /\ Combination.learning_approach c3 = "targeted"
      /\ Combination.experts c1 = firstn 2 experts
      /\ Combination.experts c2 = firstn 2 experts
      /\ Combination.experts c3
         = firstn 2 (flat_map (weakness_pick experts (metric_leaders experts))
                              user_metrics)
      /\ forall metric,
           match get (metric_leaders experts) metric with
           | Some leader => leads experts metric leader
           | None =>
               forall e v,
                 In e experts -> ~ In (metric, v) (Rec.pattern_data e)
           end.
Proof.
  intros db user_metrics skill.
  destruct (available_experts_are_fresh_rows db skill [])
    as [experts [E H2]].
  simpl in E.
  assert (Hfirst : forall um,
            _select_fundamentals_and_advanced_experts experts um
            = firstn 2 experts).
  { intros um. unfold _select_fundamentals_and_advanced_experts.
    destruct (Nat.leb 2 (List.length experts)) eqn:L; [reflexivity |].
    apply Nat.leb_gt in L. symmetry. apply firstn_all2. lia. }
  exists experts. eexists _, _, _.
  split; [exact E |]. split; [exact H2 |]. split.
  { assert (R := read_all [] experts []). cbn [List.length app] in R.
    unfold suggest_expert_combinations. unfold bind at 1. rewrite E.
    match goal with
    | |- match ?X with _ => _ end = _ =>
        replace X with (@Ok (list Rec.t * heap) (experts, experts))
          by (symmetry; exact R)
    end.
    reflexivity. }
  cbn [Combination.experts Combination.learning_approach].
  do 3 (split; [reflexivity |]).
  split; [apply Hfirst |]. split; [apply (Hfirst user_metrics) |].
  split.
  - unfold _select_weakness_focused_experts. cbv zeta.
    rewrite weakness_fold_picks. simpl app.
    now rewrite slice_to_nonneg by lia.
  - intros metric. apply metric_leaders_spec.
Qed.

End CombinationsMore.

(** * Facts of the binary64 arithmetic *)

Section Binary64Facts.
Import Py PrimFloat.
#[local] Open Scope list_scope.
#[local] Set Warnings "-inexact-float".

(** ** Comparing *)

(** C9, as the code has it: with the equal weighting that a skill type
    without a weight table gets, user metrics speaking_pace 1.0 and
    eye_contact 0.3 against the expert pattern speaking_pace 1.0 and
    eye_contact 0.9 have weights 0.5 and 0.5 and similarities 1.0 and
    0.39999999999999991 (printed 0.3999999999999999 by Python), which is
    not the double 0.4; the overall score is the double 0.7. *)
Theorem C9_equal_weighting_scenario :
  forall skill : string,
    get Binary64.PatternComparator.skill_weights skill = None ->
    let user_metrics :=
      [("speaking_pace", 1%float); ("eye_contact", 0.3%float)] in
    let expert_pattern :=
      [("speaking_pace", 1%float); ("eye_contact", 0.9%float)] in
    let result :=
      Binary64.PatternComparator.compare_to_expert
        user_metrics expert_pattern skill in
    exists pace eye,
      Binary64.PatternComparator.metric_breakdown (snd result)
      = [("speaking_pace", pace); ("eye_contact", eye)]
      /\ Binary64.PatternComparator.weight pace = 0.5%float
      /\ Binary64.PatternComparator.weight eye = 0.5%float
      /\ Binary64.PatternComparator.similarity pace = 1%float
      /\ Binary64.PatternComparator.similarity eye
         = 0.39999999999999991%float
      /\ fst result = 0.7%float
      /\ Binary64.PatternComparator.overall_similarity (snd result)
         = 0.7%float.
Proof.
  intros skill Hskill user_metrics expert_pattern result.
  unfold result, Binary64.PatternComparator.compare_to_expert,
    Binary64.PatternComparator.weights_for, get_default.
  rewrite Hskill.
  do 2 eexists. split; [vm_compute; reflexivity |].
  repeat split; vm_compute; reflexivity.
Qed.

Lemma C9_equal_weighting_scenario_witness :
  get Binary64.PatternComparator.skill_weights "Glassblowing" = None
  /\ fst (Binary64.PatternComparator.compare_to_expert
            [("speaking_pace", 1%float); ("eye_contact", 0.3%float)]
            [("speaking_pace", 1%float); ("eye_contact", 0.9%float)]
            "Glassblowing")
     = 0.7%float.
Proof.
  split; [reflexivity |].
  destruct (C9_equal_weighting_scenario "Glassblowing" eq_refl)
    as [pace [eye [_ [_ [_ [_ [_ [H _]]]]]]]].
  exact H.
Defined.

(** C9 fails as stated: the second similarity is not the double 0.4. *)
Lemma C9_counterexample :
  ~ (exists pace eye,
       Binary64.PatternComparator.metric_breakdown
         (snd (Binary64.PatternComparator.compare_to_expert
                 [("speaking_pace", 1%float); ("eye_contact", 0.3%float)]
                 [("speaking_pace", 1%float); ("eye_contact", 0.9%float)]
                 "Glassblowing"))
       = [("speaking_pace", pace); ("eye_contact", eye)]
       /\ Binary64.PatternComparator.similarity pace = 1%float
       /\ Binary64.PatternComparator.similarity eye = 0.4%float).
Proof.
  intros [pace [eye [E [_ H]]]].
  vm_compute in E. injection E as _ E. subst eye.
  vm_compute in H. discriminate H.
Qed.

(** C2 fails as stated: under "Public Speaking" the six listed metrics and
    one unlisted metric, all equal to the expert's, score 1.1, over the
    rationals and in binary64; and in binary64 eleven equally weighted
    metrics, all equal to the expert's, score 1.0000000000000002. *)
Lemma C2_counterexample :
  ~ (forall (user_metrics expert_pattern : PatternComparator.metrics)
            (skill : string),
       dict_wf user_metrics -> dict_wf expert_pattern ->
       unit_valued user_metrics -> unit_valued expert_pattern ->
       0 <= fst (PatternComparator.compare_to_expert
                   user_metrics expert_pattern skill)
       /\ fst (PatternComparator.compare_to_expert
                 user_metrics expert_pattern skill) <= 1)
  /\ (let m :=
        [ ("voice_modulation", 0.5%float); ("pause_timing", 0.5%float);
          ("gesture_coordination", 0.5%float);
          ("emotional_resonance", 0.5%float); ("eye_contact", 0.5%float);
          ("speaking_pace", 0.5%float); ("confidence", 0.5%float) ] in
      fst (Binary64.PatternComparator.compare_to_expert
             m m "Public Speaking")
      = 1.1000000000000001%float)
  /\ (let m :=
        [ ("m01", 0.5%float); ("m02", 0.5%float); ("m03", 0.5%float);
          ("m04", 0.5%float); ("m05", 0.5%float); ("m06", 0.5%float);
          ("m07", 0.5%float); ("m08", 0.5%float); ("m09", 0.5%float);
          ("m10", 0.5%float); ("m11", 0.5%float) ] in
      fst (Binary64.PatternComparator.compare_to_expert m m "Glassblowing")
      = 1.0000000000000002%float
      /\ leb (fst (Binary64.PatternComparator.compare_to_expert
                     m m "Glassblowing")) 1%float = false).
Proof.
  split; [| split; [| split]]; try (vm_compute; reflexivity).
  intros H.
  destruct (H (seven_metrics (1 # 2)) (seven_metrics (1 # 2))
              "Public Speaking") as [_ Hle];
    [solve_dict_wf | solve_dict_wf | solve_unit_valued | solve_unit_valued |].
  vm_compute in Hle. apply Hle. reflexivity.
Qed.

(** C4 fails as stated: a metric that only one vector has is compared one
    way round only; and in binary64 two vectors with the same names in
    different orders add the same terms in different orders, to 1.0 one
    way round and to 1.0000000000000002 the other. *)
Lemma C4_counterexample :
  ~ (forall (m1 m2 : PatternComparator.metrics) (skill : string),
       dict_wf m1 -> dict_wf m2 ->
       fst (PatternComparator.compare_to_expert m1 m2 skill)
       == fst (PatternComparator.compare_to_expert m2 m1 skill))
  /\ (let m1 :=
        [ ("rhythm_accuracy", 0.5%float); ("timing_precision", 0.5%float);
          ("finger_technique", 0.5%float);
          ("musical_expression", 0.5%float); ("tempo_control", 0.5%float);
          ("dynamics", 0.5%float) ] in
      let m2 :=
        [ ("rhythm_accuracy", 0.5%float); ("timing_precision", 0.5%float);
          ("tempo_control", 0.5%float); ("musical_expression", 0.5%float);
          ("finger_technique", 0.5%float); ("dynamics", 0.5%float) ] in
      fst (Binary64.PatternComparator.compare_to_expert
             m1 m2 "Music/Instrument") = 1%float
      /\ fst (Binary64.PatternComparator.compare_to_expert
                m2 m1 "Music/Instrument") = 1.0000000000000002%float).
Proof.
  split; [| split; vm_compute; reflexivity].
  intros H.
  specialize (H [("eye_contact", 1)] [] "Public Speaking").
  assert (E : fst (PatternComparator.compare_to_expert
                     [("eye_contact", 1)] [] "Public Speaking")
              == fst (PatternComparator.compare_to_expert
                        [] [("eye_contact", 1)] "Public Speaking"))
    by (apply H; solve_dict_wf).
  vm_compute in E. discriminate E.
Qed.

(** ** The overall score *)


(** ** The order of binary64 *)













(** ** Sorting on binary64 keys *)



Section Sorting64.
Context {A : Type} (key : A -> float).









End Sorting64.

(** ** The learning path *)

Section LearningPath64.
Import Binary64 Binary64.ExpertRecommendationEngine.








End LearningPath64.

End Binary64Facts.
